(** * TDS Virtual TA: a shallow embedding of the answer-synthesis pipeline

    Sources embedded here (all under [api/virtual_ta/]):
    - [utils.py] / [views.py]: [validate_response_structure];
    - [ai_service.py]: [AIService] and [MultiAIService];
    - [data_scraper.py]: the keyword-overlap scorer of [DataScraper];
    - [views.py]: the part of [virtual_ta_api] that builds the services.

    Conventions.  A Python [str] is a [string]; every [ascii] stands for one
    code point in the range 0..255, so [len] is [String.length].  Python
    sets of strings are [gset string]; dicts with string keys are
    [gmap string _].  Code that can raise runs in a small exception monad;
    code that talks to the generation endpoint or the clock threads an
    explicit [world]. *)

From Stdlib Require Import ZArith Ascii String.
From stdpp Require Import gmap strings list sorting.

Set Warnings "-register-all".
Local Open Scope Z_scope.
Local Open Scope nat_scope.

(** ** Python string methods *)

Module PyStr.

(** [str.isspace] on one code point below 256; [str.strip], [str.split]
    and the regular-expression class [\s] all use this set. *)
Definition is_space (c : ascii) : bool :=
  match nat_of_ascii c with
  | 9 | 10 | 11 | 12 | 13 | 28 | 29 | 30 | 31 | 32 | 133 | 160 => true
  | _ => false
  end.

(** The class [\d] below 256. *)
Definition is_digit (c : ascii) : bool :=
  let n := nat_of_ascii c in (48 <=? n) && (n <=? 57).

(** [str.lower] on one code point: A-Z and the Latin-1 capitals
    (0xC0-0xDE except the multiplication sign 0xD7) move up by 32. *)
Definition lower_char (c : ascii) : ascii :=
  let n := nat_of_ascii c in
  if ((65 <=? n) && (n <=? 90)) || ((192 <=? n) && (n <=? 222) && negb (n =? 215))
  then ascii_of_nat (n + 32) else c.

Fixpoint lower (s : string) : string :=
  match s with
  | EmptyString => EmptyString
  | String c s' => String (lower_char c) (lower s')
  end.

Definition is_empty (s : string) : bool :=
  match s with EmptyString => true | _ => false end.

(** Truthiness of a string: [if s:]. *)
Definition truthy (s : string) : bool := negb (is_empty s).

Fixpoint lstrip (s : string) : string :=
  match s with
  | EmptyString => EmptyString
  | String c s' => if is_space c then lstrip s' else s
  end.

Fixpoint rstrip (s : string) : string :=
  match s with
  | EmptyString => EmptyString
  | String c s' =>
      let r := rstrip s' in
      if is_space c && is_empty r then EmptyString else String c r
  end.

Definition strip (s : string) : string := rstrip (lstrip s).

(** [s.startswith(p)] *)
Fixpoint startswith (p s : string) : bool :=
  match p, s with
  | EmptyString, _ => true
  | String a p', String b s' => if ascii_dec a b then startswith p' s' else false
  | String _ _, EmptyString => false
  end.

(** [sub in s] *)
Fixpoint contains (sub s : string) : bool :=
  startswith sub s ||
  match s with
  | EmptyString => false
  | String _ s' => contains sub s'
  end.

(** [s[:n]] *)
Fixpoint take (n : nat) (s : string) : string :=
  match n, s with
  | S n', String c s' => String c (take n' s')
  | _, _ => EmptyString
  end.

(** [s[n:]] *)
Fixpoint drop (n : nat) (s : string) : string :=
  match n, s with
  | S n', String _ s' => drop n' s'
  | _, _ => s
  end.

(** [s.split()]: maximal runs of non-space characters. *)
Fixpoint split (s : string) : list string :=
  match s with
  | EmptyString => []
  | String c s' =>
      if is_space c then split s'
      else match s' with
           | EmptyString => [String c EmptyString]
           | String c' _ =>
               if is_space c' then String c EmptyString :: split s'
               else match split s' with
                    | w :: ws => String c w :: ws
                    | [] => [String c EmptyString]
                    end
           end
  end.

(** [s.split(sep)] for a non-empty separator.  [skip] counts the
    characters of a separator occurrence that are still to be passed. *)
Fixpoint split_skip (sep : string) (skip : nat) (s : string) : list string :=
  match s with
  | EmptyString => [EmptyString]
  | String c s' =>
      match skip with
      | S k => split_skip sep k s'
      | O =>
          if startswith sep s
          then EmptyString :: split_skip sep (String.length sep - 1) s'
          else match split_skip sep 0 s' with
               | w :: ws => String c w :: ws
               | [] => [String c EmptyString]
               end
      end
  end.

Definition split_on (sep s : string) : list string := split_skip sep 0 s.

(** [sep.join(l)] *)
Fixpoint join (sep : string) (l : list string) : string :=
  match l with
  | [] => EmptyString
  | [x] => x
  | x :: l' => x +:+ sep +:+ join sep l'
  end.

(** [s.replace(a, b)] for single characters. *)
Fixpoint replace_char (a b : ascii) (s : string) : string :=
  match s with
  | EmptyString => EmptyString
  | String c s' => String (if ascii_dec c a then b else c) (replace_char a b s')
  end.

(** Longest prefix whose characters satisfy [p], and the rest. *)
Fixpoint span (p : ascii -> bool) (s : string) : string * string :=
  match s with
  | EmptyString => (EmptyString, EmptyString)
  | String c s' =>
      if p c then let '(a, b) := span p s' in (String c a, b)
      else (EmptyString, s)
  end.

(** [s] without the literal prefix [p], when it starts with it. *)
Fixpoint strip_prefix (p s : string) : option string :=
  match p, s with
  | EmptyString, _ => Some s
  | String a p', String b s' => if ascii_dec a b then strip_prefix p' s' else None
  | String _ _, EmptyString => None
  end.

(** [c * n] *)
Fixpoint repeat (c : ascii) (n : nat) : string :=
  match n with
  | O => EmptyString
  | S n' => String c (repeat c n')
  end.

(** [any(word in s for word in words)] *)
Definition any_in (words : list string) (s : string) : bool :=
  existsb (fun word => contains word s) words.

(** Decimal rendering of a natural number, as in an f-string. *)
Fixpoint digits_go (fuel n : nat) (acc : string) : string :=
  match fuel with
  | O => acc
  | S fuel' =>
      let acc' := String (ascii_of_nat (48 + n mod 10)) acc in
      if n / 10 =? 0 then acc' else digits_go fuel' (n / 10) acc'
  end.

Definition of_nat (n : nat) : string := digits_go (S n) n EmptyString.

(** [s.endswith(suffix)] *)
Definition endswith (suffix s : string) : bool :=
  (String.length suffix <=? String.length s)
  && String.eqb (drop (String.length s - String.length suffix) s) suffix.

(** [str.title] restricted to ASCII letters: the first letter of every run
    of letters in upper case, the others in lower case. *)
Definition is_ascii_letter (c : ascii) : bool :=
  let n := nat_of_ascii c in
  ((65 <=? n) && (n <=? 90)) || ((97 <=? n) && (n <=? 122)).

Definition upper_ascii (c : ascii) : ascii :=
  let n := nat_of_ascii c in
  if (97 <=? n) && (n <=? 122) then ascii_of_nat (n - 32) else c.

Fixpoint title_go (previous_is_cased : bool) (s : string) : string :=
  match s with
  | EmptyString => EmptyString
  | String c s' =>
      String (if previous_is_cased then lower_char c else upper_ascii c)
             (title_go (is_ascii_letter c) s')
  end.

Definition title_ascii (s : string) : string := title_go false s.

End PyStr.

(** ** Python values and exceptions *)

(** The result of running a piece of Python: a value, or an exception
    carrying the text [str(e)]. *)
Inductive outcome (A : Type) : Type :=
| Ok (a : A)
| Exn (msg : string).
Arguments Ok {A} a.
Arguments Exn {A} msg.

Definition obind {A B} (m : outcome A) (k : A -> outcome B) : outcome B :=
  match m with
  | Ok a => k a
  | Exn e => Exn e
  end.

(** [try: m  except Exception: h] *)
Definition try_except {A} (m : outcome A) (h : string -> outcome A) : outcome A :=
  match m with
  | Ok a => Ok a
  | Exn e => h e
  end.

(** The values a response payload can be built from.  [PyObj] stands for
    any object of another type (a set, bytes, a float, an instance of a
    class ...), told apart by a tag. *)
Inductive pyval : Type :=
| PyNone
| PyBool (b : bool)
| PyInt (n : Z)
| PyStr (s : string)
| PyList (l : list pyval)
| PyDict (d : gmap string pyval)
| PyObj (tag : nat).

Definition is_dict (v : pyval) : bool :=
  match v with PyDict _ => true | _ => false end.

(** A [{'url': ..., 'text': ...}] link and an [{'answer', 'links'}] payload,
    the only dicts the services build. *)
Record link : Type := Link { url : string; text : string }.
Record payload : Type := Payload { answer : string; links : list link }.

Definition link_to_py (l : link) : pyval :=
  PyDict (<["url" := PyStr (url l)]> (<["text" := PyStr (text l)]> ∅)).

Definition payload_to_py (p : payload) : pyval :=
  PyDict (<["answer" := PyStr (answer p)]>
          (<["links" := PyList (link_to_py <$> links p)]> ∅)).

Definition forum_root : string := "https://discourse.onlinedegree.iitm.ac.in/".
Definition forum_link : link := Link forum_root "TDS Course Forum".

(** ** [utils.py] (and, statement for statement, [views.py] lines 266-327):
       the Response Validator *)

Module Utils.
Section Validator.

(** [str(v)] for a value that is not a [str]; it can raise.  Left open:
    the validator must cope with every behaviour. *)
Variable py_str : pyval -> outcome string.

(** Whether [json.dumps(v)] succeeds.  Left open for the same reason. *)
Variable json_dumps_ok : pyval -> bool.

Definition str (v : pyval) : outcome string :=
  match v with
  | PyStr s => Ok s
  | _ => py_str v
  end.

(** Lines 22-36: coerce, trim, default, cap at 2000. *)
Definition clean_answer (answer : pyval) : outcome string :=
  obind (match answer with
       | PyStr s => Ok s
       | PyNone => Ok "No answer provided."
       | _ => str answer
       end) (fun answer =>
  let answer := PyStr.strip answer in
  let answer := if PyStr.truthy answer then answer
              else "Unable to provide a meaningful answer." in
  let answer := if 2000 <? String.length answer
              then PyStr.take 1997 answer +:+ "..." else answer in
  Ok answer).

(** Lines 44-54: one iteration of the loop over [links]. *)
Definition validate_link (l : pyval) : outcome (list link) :=
  match l with
  | PyDict d =>
    match d !! "url", d !! "text" with
    | Some u, Some t =>
        obind (str u) (fun url =>
        obind (str t) (fun text =>
        let url := PyStr.strip url in
        let text := PyStr.strip text in
        if PyStr.truthy url && PyStr.truthy text && PyStr.startswith "http" url
        then Ok [Link url text] else Ok []))
    | _, _ => Ok []
    end
  | _ => Ok []
  end.

Fixpoint validate_links (ls : list pyval) : outcome (list link) :=
  match ls with
  | [] => Ok []
  | l :: ls' =>
    obind (validate_link l) (fun here =>
    obind (validate_links ls') (fun rest => Ok (here ++ rest)))
  end.

(** The body of the [try] block, lines 12-68. *)
Definition validate_body (response : pyval) : outcome pyval :=
  match response with
  | PyDict response =>
    let response :=
      match response !! "answer" with
      | Some _ => response
      | None => <["answer" := PyStr "Unable to generate a proper response."]> response
      end in
    let response :=
      match response !! "links" with
      | Some _ => response
      | None => <["links" := PyList []]> response
      end in
    obind (match response !! "answer" with
           | Some a => clean_answer a
           | None => Exn "KeyError: 'answer'"
           end) (fun answer =>
    let response := <["answer" := PyStr answer]> response in
    let links := match response !! "links" with
                 | Some (PyList ls) => ls
                 | _ => []
                 end in
    obind (validate_links links) (fun validated_links =>
    let validated_links :=
      match validated_links with
      | [] => [forum_link]
      | _ => validated_links
      end in
    let response := <["links" := PyList (link_to_py <$> validated_links)]> response in
    if json_dumps_ok (PyDict response) then Ok (PyDict response)
    else Exn "TypeError: Object is not JSON serializable"))
  | _ => Exn "Response must be a dictionary"
  end.

Definition safe_default : payload :=
  Payload "Response validation failed. Please try again." [forum_link].

Definition validate_response_structure (response : pyval) : outcome pyval :=
  try_except (validate_body response)
           (fun _ => Ok (payload_to_py safe_default)).

End Validator.

(** The output contract of §3, as a check on the returned dict. *)
Definition link_ok (l : pyval) : bool :=
  match l with
  | PyDict d =>
      match d !! "url", d !! "text" with
      | Some (PyStr u), Some (PyStr t) =>
          PyStr.truthy u && PyStr.startswith "http" u && PyStr.truthy t
      | _, _ => false
      end
  | _ => false
  end.

Definition contract_ok (v : pyval) : bool :=
  match v with
  | PyDict d =>
      match d !! "answer", d !! "links" with
      | Some (PyStr a), Some (PyList ls) =>
          (1 <=? String.length a) && (String.length a <=? 2000)
          && (1 <=? length ls) && forallb link_ok ls
      | _, _ => false
      end
  | _ => false
  end.

(** The answer string of a returned payload. *)
Definition answer_of (v : pyval) : option string :=
  match v with
  | PyDict d => match d !! "answer" with Some (PyStr a) => Some a | _ => None end
  | _ => None
  end.

(** What lines 27-34 do to a string answer, in one expression. *)
Definition capped (s : string) : string :=
  let s := PyStr.strip s in
  let s := if PyStr.truthy s then s else "Unable to provide a meaningful answer." in
  if 2000 <? String.length s then PyStr.take 1997 s +:+ "..." else s.

End Utils.

(** ** The outside world: the generation endpoint and the clock *)

(** What one call of [model.generate_content] does: it raises (the field is
    [str(e)]), or it answers with [response.text] (empty when the response
    or its text is missing). *)
Inductive gen_result : Type :=
| Raised (msg : string)
| Replied (text : string).

Inductive event : Type :=
| EvGenerate (prompt : string)
| EvSleep (secs : Z).

(** [endpoint n prompt] is the behaviour of the [n]-th call (counted from 0
    over the life of the process); [gemini_model] is the model the client
    library hands out when an API key is configured and initialisation goes
    through; [clock] is [time.time()] in whole seconds; [trace] records
    every external call and every sleep, oldest first. *)
Record world : Type := World {
  endpoint : nat -> string -> gen_result;
  gemini_model : option string;
  clock : Z;
  trace : list event
}.

Definition M (A : Type) : Type := world -> outcome A * world.

Definition ret {A} (a : A) : M A := fun w => (Ok a, w).

Definition bind {A B} (m : M A) (k : A -> M B) : M B :=
  fun w => match m w with
           | (Ok a, w') => k a w'
           | (Exn e, w') => (Exn e, w')
           end.

(** [try: m  except Exception as e: h e] *)
Definition catch {A} (m : M A) (h : string -> M A) : M A :=
  fun w => match m w with
           | (Ok a, w') => (Ok a, w')
           | (Exn e, w') => h e w'
           end.

Notation "'do' x <- m ; k" := (bind m (fun x => k))
  (at level 10, x name, m at level 100, k at level 200).

Definition is_generate (e : event) : bool :=
  match e with EvGenerate _ => true | EvSleep _ => false end.

Definition calls_issued (t : list event) : nat :=
  length (List.filter is_generate t).

Definition log (e : event) (w : world) : world :=
  World (endpoint w) (gemini_model w) (clock w) (trace w ++ [e]).

(** [self.model.generate_content(prompt, ...)] followed by the read of
    [response.text]. *)
Definition generate_content (prompt : string) : M string :=
  fun w =>
    let w' := log (EvGenerate prompt) w in
    match endpoint w (calls_issued (trace w)) prompt with
    | Replied text => (Ok text, w')
    | Raised msg => (Exn msg, w')
    end.

(** [time.sleep(secs)] *)
Definition sleep (secs : Z) : M unit :=
  fun w => (Ok tt, World (endpoint w) (gemini_model w) (clock w + secs)%Z
                         (trace w ++ [EvSleep secs])).

(** [time.time()] *)
Definition time_time : M Z := fun w => (Ok (clock w), w).

(** ** The two regular expressions of [ai_service.py] *)

Module Re.

Definition forum_topic_prefix : string :=
  "https://discourse.onlinedegree.iitm.ac.in/t/".

Definition is_slash (c : ascii) : bool := if ascii_dec c "/" then true else false.

(** A match of
    [https://discourse\.onlinedegree\.iitm\.ac\.in/t/[^/\s]+/\d+(?:/\d+)?]
    anchored at the start of [s].  Both character classes exclude the
    character that must follow them, so the greedy choice is the only one. *)
Definition match_forum_url (s : string) : option string :=
  match PyStr.strip_prefix forum_topic_prefix s with
  | None => None
  | Some r1 =>
      let '(slug, r2) := PyStr.span (fun c => negb (is_slash c || PyStr.is_space c)) r1 in
      if PyStr.is_empty slug then None
      else match r2 with
           | String c r3 =>
               if is_slash c then
                 let '(d1, r4) := PyStr.span PyStr.is_digit r3 in
                 if PyStr.is_empty d1 then None
                 else
                   let tail :=
                     match r4 with
                     | String c' r5 =>
                         if is_slash c' then
                           let '(d2, _) := PyStr.span PyStr.is_digit r5 in
                           if PyStr.is_empty d2 then "" else "/" +:+ d2
                         else ""
                     | EmptyString => ""
                     end in
                   Some (forum_topic_prefix +:+ slug +:+ "/" +:+ d1 +:+ tail)
               else None
           | EmptyString => None
           end
  end.

(** [re.findall(pattern, s)]: matches from left to right, the scan resuming
    right after each match.  [skip] counts the characters of the last match
    still to be passed. *)
Fixpoint findall_skip (skip : nat) (s : string) : list string :=
  match s with
  | EmptyString => []
  | String _ s' =>
      match skip with
      | S k => findall_skip k s'
      | O =>
          match match_forum_url s with
          | Some m => m :: findall_skip (String.length m - 1) s'
          | None => findall_skip 0 s'
          end
      end
  end.

Definition findall_forum_urls (s : string) : list string := findall_skip 0 s.

(** A match of [/t/([^/]+)/] anchored at the start of [s]: group 1. *)
Definition match_topic (s : string) : option string :=
  match PyStr.strip_prefix "/t/" s with
  | None => None
  | Some r =>
      let '(seg, r') := PyStr.span (fun c => negb (is_slash c)) r in
      if PyStr.is_empty seg then None
      else match r' with
           | String c _ => if is_slash c then Some seg else None
           | EmptyString => None
           end
  end.

(** [re.search(r'/t/([^/]+)/', s)]: group 1 of the leftmost match. *)
Fixpoint search_topic (s : string) : option string :=
  match match_topic s with
  | Some seg => Some seg
  | None =>
      match s with
      | EmptyString => None
      | String _ s' => search_topic s'
      end
  end.

(** [re.sub(r'\s+', ' ', s)] *)
Fixpoint collapse_spaces (s : string) : string :=
  match s with
  | EmptyString => EmptyString
  | String c s' =>
      if PyStr.is_space c then
        match s' with
        | String c' _ =>
            if PyStr.is_space c' then collapse_spaces s'
            else String " " (collapse_spaces s')
        | EmptyString => " "
        end
      else String c (collapse_spaces s')
  end.

End Re.

(** ** [ai_service.py]: the Generation Client, the Link Extractor and the
       category fallback ([class AIService]) *)

Definition dq : string := String "034"%char EmptyString.

Module AIService.

Record t : Type := Build { model : option string; is_initialized : bool }.

Section Methods.

(** [str.title], used only for link labels; Unicode title-casing is not
    modelled. *)
Variable title : string -> string.

(** The order in which a Python [set] of strings is iterated; it depends on
    the hash seed of the process. *)
Variable set_iter : gset string -> list string.

(** [__init__] with [_initialize_gemini]: the client library is configured
    and a model picked when that is possible, otherwise the service stays
    uninitialised. *)
Definition __init__ : M t :=
  fun w => (Ok (Build (gemini_model w) (bool_decide (is_Some (gemini_model w)))), w).

Definition _create_prompt (question context image_context : string) : string :=
  "You are a Teaching Assistant for Tools in Data Science (TDS) at IIT Madras.

COURSE CONTEXT:
" +:+ PyStr.take 800 context +:+ "

" +:+ image_context +:+ "

STUDENT QUESTION: " +:+ question +:+ "

INSTRUCTIONS:
- Provide helpful, accurate answers based on TDS course content
- Be specific about assignments, tools (Python, Git, APIs), and requirements
- Keep responses concise but informative
- Reference course materials when relevant

Answer the student's question directly and helpfully.".

(** Line 134: the test that stops the retries. *)
Definition is_quota_error (error_str : string) : bool :=
  PyStr.contains "429" error_str || PyStr.contains "quota" error_str
  || PyStr.contains "exceeded" error_str.

(** How one pass through the body of the [for] loop ends. *)
Inductive loop_exit : Type :=
| Return (v : string)
| Continue
| Break.

(** Lines 114-139: the body of the loop for one value of [attempt]. *)
Definition attempt_once (prompt : string) (max_retries attempt : nat) : M loop_exit :=
  catch
    (do text <- generate_content prompt;
     if PyStr.truthy text then ret (Return (PyStr.strip text)) else ret Continue)
    (fun e =>
       let error_str := PyStr.lower e in
       if is_quota_error error_str then ret Break
       else
         do _ <- (if attempt <? max_retries - 1 then sleep 1 else ret tt);
         ret Continue).

(** The [for attempt in range(max_retries)] loop of [_generate_with_retry],
    over the attempts that are left; falling out of the loop returns
    [None]. *)
Fixpoint retry_loop (prompt : string) (max_retries : nat) (attempts : list nat)
  : M (option string) :=
  match attempts with
  | [] => ret None
  | attempt :: rest =>
      do exit <- attempt_once prompt max_retries attempt;
      match exit with
      | Return v => ret (Some v)
      | Break => ret None
      | Continue => retry_loop prompt max_retries rest
      end
  end.

Definition _generate_with_retry (prompt : string) (max_retries : nat) : M (option string) :=
  retry_loop prompt max_retries (seq 0 max_retries).

Definition no_response : string := "I couldn't generate a proper response.".

(** The loop of lines 174-177. *)
Fixpoint take_sentences (truncated : string) (sentences : list string) : string :=
  match sentences with
  | [] => truncated
  | sentence :: rest =>
      if 1000 <? String.length (truncated +:+ sentence) then truncated
      else take_sentences (truncated +:+ sentence +:+ ". ") rest
  end.

Definition _clean_answer_text (raw_text : string) : string :=
  if negb (PyStr.truthy raw_text) then no_response
  else
    let cleaned := Re.collapse_spaces (PyStr.strip raw_text) in
    let cleaned :=
      if 1200 <? String.length cleaned
      then PyStr.strip (take_sentences "" (PyStr.split_on ". " cleaned))
      else cleaned in
    if PyStr.truthy cleaned then cleaned else no_response.

Definition assignment_help : link :=
  Link "https://discourse.onlinedegree.iitm.ac.in/c/degree-program/tools-in-data-science/"
       "TDS Assignment Help".

(** Lines 195-203: the label of the [i]-th kept URL. *)
Definition label (i : nat) (url : string) : link :=
  match Re.search_topic url with
  | Some topic => Link url (title (PyStr.replace_char "-" " " topic) +:+ " Discussion")
  | None => Link url ("Related Discussion " +:+ PyStr.of_nat (i + 1))
  end.

Definition _extract_relevant_links (context question : string) : list link :=
  let discourse_urls := Re.findall_forum_urls context in
  let unique_urls := take 2 (set_iter (list_to_set discourse_urls)) in
  let links := imap label unique_urls in
  match links with
  | [] =>
      let question_lower := PyStr.lower question in
      if PyStr.any_in ["assignment"; "homework"; "submit"] question_lower
      then [assignment_help]
      else [forum_link]
  | _ => links
  end.

(** The canned answers of [_fallback_response], lines 231-251. *)
Definition ai_model_answer : string :=
  "For TDS assignments requiring specific AI models like GPT-3.5-turbo, use the OpenAI API directly as specified in the assignment requirements. The assignment may specify a particular model version for consistency in grading.".

Definition python_setup_answer : string :=
  "For Python setup in TDS: 1) Install Python 3.8+, 2) Create virtual environment: 'python -m venv tds_env', 3) Activate: 'source tds_env/bin/activate' (Linux/Mac) or 'tds_env\Scripts\activate' (Windows), 4) Install packages: 'pip install -r requirements.txt'.".

Definition assignment_answer : string :=
  "For TDS assignments: 1) Follow the specified format, 2) Include proper documentation and comments, 3) Test your code thoroughly, 4) Submit through the designated platform, 5) Check discourse for assignment-specific clarifications and deadlines.".

Definition git_answer : string :=
  "For Git in TDS: 1) Initialize: 'git init', 2) Add files: 'git add .', 3) Commit: 'git commit -m " +:+ dq +:+ "meaningful message" +:+ dq +:+ "', 4) Push to GitHub: 'git push origin main'. Use version control for all assignments.".

Definition debugging_answer : string :=
  "For debugging in TDS: 1) Read error messages carefully, 2) Check your code syntax and logic, 3) Use print statements for debugging, 4) Search discourse for similar issues, 5) Share your error on the forum for help.".

Definition generic_answer : string :=
  "I'm currently experiencing high demand. Please check the TDS course materials on the learning platform or post your question on the discourse forum where TAs and fellow students can provide detailed assistance.".

Definition _fallback_response (question : string) : payload :=
  let question_lower := if PyStr.truthy question then PyStr.lower question else "" in
  let '(answer, link_text) :=
    if PyStr.any_in ["gpt"; "openai"; "api"; "model"; "ai"] question_lower then
      (ai_model_answer,
       "AI Model Usage Help")
    else if PyStr.any_in ["python"; "setup"; "install"; "environment"; "pip"] question_lower then
      (python_setup_answer,
       "Python Setup Help")
    else if PyStr.any_in ["assignment"; "submit"; "deadline"; "homework"; "ga"] question_lower then
      (assignment_answer,
       "Assignment Guidelines")
    else if PyStr.any_in ["git"; "version"; "control"; "github"; "commit"] question_lower then
      (git_answer,
       "Git Version Control")
    else if PyStr.any_in ["error"; "debug"; "fix"; "problem"; "issue"] question_lower then
      (debugging_answer,
       "Debugging Help")
    else
      (generic_answer,
       "TDS Course Forum") in
  Payload answer [Link "https://discourse.onlinedegree.iitm.ac.in/" link_text].

(** The string functions used here do not raise, so the [except] branch of
    lines 158-160 has nothing to catch. *)
Definition _process_ai_response (ai_response context question : string) : payload :=
  let answer := _clean_answer_text ai_response in
  let links := _extract_relevant_links context question in
  Payload answer links.

Definition generate_answer (self : t) (question context image_context : string)
  : M payload :=
  catch
    (if negb (is_initialized self) || negb (bool_decide (is_Some (model self)))
     then ret (_fallback_response question)
     else
       let prompt := _create_prompt question context image_context in
       do ai_response <- _generate_with_retry prompt 2;
       match ai_response with
       | Some text =>
           if PyStr.truthy text then ret (_process_ai_response text context question)
           else ret (_fallback_response question)
       | None => ret (_fallback_response question)
       end)
    (fun _ => ret (_fallback_response question)).

End Methods.
End AIService.

(** [sum(1 for x in l if p x)] *)
Fixpoint sum_ones {A} (p : A -> bool) (l : list A) : nat :=
  match l with
  | [] => 0
  | x :: l' => (if p x then 1 else 0) + sum_ones p l'
  end.

(** ** [ai_service.py]: the Rate-Limited Orchestrator and the context-aware
       fallback ([class MultiAIService]) *)

Module MultiAIService.

Record t : Type := Build {
  gemini_service : AIService.t;
  last_request_time : Z;
  min_delay : Z;
  request_count : nat;
  daily_limit : nat
}.

Section Methods.

Variable title : string -> string.
Variable set_iter : gset string -> list string.

Definition __init__ : M t :=
  do gemini_service <- AIService.__init__;
  ret (Build gemini_service 0 5 0 50).

Definition _extract_links_from_context (context : string) : list link :=
  let urls := Re.findall_forum_urls context in
  let links :=
    imap (fun i url => Link url ("Related Discussion " +:+ PyStr.of_nat (i + 1)))
         (take 2 urls) in
  match links with
  | [] => [forum_link]
  | _ => links
  end.

(** Lines 318-322: the sentences, among the first ten, in which a question
    word of more than three characters occurs. *)
Definition relevant_sentences (question_words : gset string) (sentences : list string)
  : list string :=
  PyStr.strip <$>
    List.filter
      (fun sentence =>
         let sentence_lower := PyStr.lower sentence in
         let matches :=
           sum_ones (fun word => PyStr.contains word sentence_lower
                                 && (3 <? String.length word))
                    (set_iter question_words) in
         0 <? matches)
      (take 10 sentences).

(** Lines 310-325. *)
Definition context_info (question_lower context : string) : string :=
  if PyStr.truthy context && (50 <? String.length context) then
    let sentences := PyStr.split_on "." context in
    let question_words : gset string := list_to_set (PyStr.split question_lower) in
    match relevant_sentences question_words sentences with
    | [] => ""
    | relevant =>
        "Based on course materials: " +:+ PyStr.join ". " (take 2 relevant) +:+ ". "
    end
  else "".

(** The canned answers of [_intelligent_fallback], lines 329-338. *)
Definition ai_model_advice : string :=
  "For AI model questions in TDS: Use the specific model mentioned in the assignment (like gpt-3.5-turbo-0125) through the OpenAI API directly, even if proxies support different models.".

Definition python_advice : string :=
  "For Python in TDS: Install Python 3.8+, create virtual environment with 'python -m venv tds_env', activate it, then install required packages with pip.".

Definition assignment_advice : string :=
  "For TDS assignments: Follow the submission format, include documentation, test thoroughly, and check discourse for specific requirements and deadlines.".

Definition generic_advice : string :=
  "For detailed help with your TDS question, please post on the discourse forum where TAs and students can provide comprehensive assistance.".

(** Lines 327-338: the canned answer, before the prefix is put in front. *)
Definition canned_answer (question_lower : string) : string :=
  if PyStr.any_in ["gpt"; "openai"; "api"; "model"] question_lower then
    ai_model_advice
  else if PyStr.any_in ["python"; "setup"; "environment"] question_lower then
    python_advice
  else if PyStr.any_in ["assignment"; "submit"; "homework"] question_lower then
    assignment_advice
  else
    generic_advice.

Definition _intelligent_fallback (question context : string) : payload :=
  let question_lower := PyStr.lower question in
  let answer := context_info question_lower context +:+ canned_answer question_lower in
  Payload answer (_extract_links_from_context context).

(** Lines 287-288: the object once the call is recorded. *)
Definition recorded (self : t) (now : Z) : t :=
  Build (gemini_service self) now (min_delay self) (request_count self + 1)
        (daily_limit self).

Definition generate_answer (self : t) (question context image_context : string)
  : M (payload * t) :=
  if daily_limit self <=? request_count self then
    ret (_intelligent_fallback question context, self)
  else
    do current_time <- time_time;
    let time_since_last := (current_time - last_request_time self)%Z in
    do _ <- (if (time_since_last <? min_delay self)%Z
             then sleep (min_delay self - time_since_last)%Z
             else ret tt);
    do now <- time_time;
    let self := recorded self now in
    do response <-
         catch
           (if AIService.is_initialized (gemini_service self) then
              do response <- AIService.generate_answer title set_iter (gemini_service self)
                               question context image_context;
              if PyStr.truthy (answer response)
                 && negb (PyStr.contains "currently unable to process"
                                         (PyStr.lower (answer response)))
              then ret (Some response)
              else ret None
            else ret None)
           (fun _ => ret None);
    match response with
    | Some response => ret (response, self)
    | None => ret (_intelligent_fallback question context, self)
    end.

End Methods.
End MultiAIService.

(** ** [data_scraper.py]: the Content Store and the Relevance Scorer *)

Module DataScraper.

Record section_data : Type := Section_data {
  s_title : string;
  s_content : string;
  s_topics : list string
}.

Record post : Type := Post {
  p_id : string;
  p_title : string;
  p_url : string;
  p_content : string;
  p_tags : list string;
  p_category : string;
  p_created_at : string;
  p_replies : nat
}.

Record t : Type := Build {
  course_content : list (string * section_data);
  discourse_posts : list post
}.

Definition course_content_data : list (string * section_data) :=
  [ ("week1",
     Section_data "Introduction to Tools in Data Science"
       "
                    Tools in Data Science course overview:
                    - Python programming fundamentals
                    - Version control with Git
                    - Data analysis libraries (pandas, numpy)
                    - API usage and web scraping
                    - Machine learning basics
                    - Assignment submission guidelines
                    "
       ["python"; "git"; "pandas"; "numpy"; "apis"; "ml"]);
    ("week2",
     Section_data "Python Environment Setup"
       "
                    Setting up Python environment for TDS:
                    - Install Python 3.8+ from python.org
                    - Use pip for package management
                    - Virtual environments with venv
                    - Jupyter notebook setup
                    - Common packages: pandas, numpy, matplotlib, seaborn
                    "
       ["python"; "setup"; "environment"; "jupyter"; "packages"]);
    ("assignments",
     Section_data "Assignment Guidelines"
       "
                    TDS Assignment submission guidelines:
                    - Submit through the designated platform
                    - Include proper documentation
                    - Follow naming conventions
                    - Test your code before submission
                    - Use version control for tracking changes
                    "
       ["assignments"; "submission"; "guidelines"; "documentation"]);
    ("apis",
     Section_data "API Usage in Data Science"
       "
                    Working with APIs in data science:
                    - RESTful API concepts
                    - HTTP methods (GET, POST, PUT, DELETE)
                    - Authentication (API keys, OAuth)
                    - Rate limiting and error handling
                    - Popular APIs: OpenAI, Twitter, Reddit
                    - Python requests library usage
                    "
       ["api"; "rest"; "http"; "authentication"; "requests"; "openai"]) ].

Definition discourse_posts_data : list post :=
  [ Post "155939" "GA5 Question 8 Clarification"
      "https://discourse.onlinedegree.iitm.ac.in/t/ga5-question-8-clarification/155939/4"
      "You must use gpt-3.5-turbo-0125, even if the AI Proxy only supports gpt-4o-mini. Use the OpenAI API directly for this question. The assignment specifically requires gpt-3.5-turbo-0125 for consistency in grading."
      ["gpt"; "ai-proxy"; "assignment"; "openai"; "api"]
      "assignments" "2025-04-10" 8;
    Post "156001" "Python Environment Setup Issues"
      "https://discourse.onlinedegree.iitm.ac.in/t/python-setup-issues/156001"
      "Common Python setup issues and solutions: 1) Use Python 3.8 or higher, 2) Create virtual environment with 'python -m venv tds_env', 3) Activate with 'source tds_env/bin/activate' (Linux/Mac) or 'tds_env\Scripts\activate' (Windows), 4) Install required packages with 'pip install -r requirements.txt'"
      ["python"; "setup"; "environment"; "virtual-env"; "pip"]
      "technical-help" "2025-04-08" 12;
    Post "155876" "API Rate Limiting Best Practices"
      "https://discourse.onlinedegree.iitm.ac.in/t/api-rate-limiting/155876"
      "When working with APIs, implement proper rate limiting: 1) Check API documentation for limits, 2) Use time.sleep() between requests, 3) Implement exponential backoff for retries, 4) Cache responses when possible, 5) Use batch requests if supported by the API"
      ["api"; "rate-limiting"; "best-practices"; "requests"]
      "programming-help" "2025-04-05" 6;
    Post "155654" "Assignment Submission Format"
      "https://discourse.onlinedegree.iitm.ac.in/t/assignment-format/155654"
      "Proper assignment submission format: 1) Create a main.py file with your solution, 2) Include requirements.txt with dependencies, 3) Add README.md with explanation, 4) Use meaningful variable names and comments, 5) Test your code thoroughly before submission"
      ["assignment"; "submission"; "format"; "requirements"]
      "assignments" "2025-03-28" 15;
    Post "155432" "Git Version Control for TDS"
      "https://discourse.onlinedegree.iitm.ac.in/t/git-version-control/155432"
      ("Using Git for TDS assignments: 1) Initialize repo with 'git init', 2) Add files with 'git add .', 3) Commit with meaningful messages 'git commit -m " +:+ dq +:+ "message" +:+ dq +:+ "', 4) Create branches for different features, 5) Push to GitHub for backup and collaboration")
      ["git"; "version-control"; "github"; "collaboration"]
      "tools" "2025-03-20" 9 ].

Definition __init__ : t := Build course_content_data discourse_posts_data.

Definition nl : string := String "010"%char EmptyString.

Section Methods.

Variable set_iter : gset string -> list string.

(** [matches.sort(key=lambda x: x[0], reverse=True)]: highest score first,
    entries with the same score in their original order. *)
Fixpoint insert_by_score (x : nat * string) (l : list (nat * string)) : list (nat * string) :=
  match l with
  | [] => [x]
  | y :: l' => if x.1 <? y.1 then y :: insert_by_score x l' else x :: l
  end.

Definition sort_by_score (l : list (nat * string)) : list (nat * string) :=
  foldr insert_by_score [] l.

(** Lines 186-196: the relevance score of one course section. *)
Definition section_score (question_lower : string) (section_data : section_data) : nat :=
  let question_words : gset string := list_to_set (PyStr.split question_lower) in
  let content_lower := PyStr.lower (s_content section_data) in
  let topics := s_topics section_data in
  let topic_matches := sum_ones (fun topic => PyStr.contains topic question_lower) topics in
  let content_matches :=
    sum_ones (fun word => PyStr.contains word content_lower) (set_iter question_words) in
  topic_matches * 2 + content_matches.

Definition _search_course_content (self : t) (question_lower : string) : list string :=
  let matches :=
    flat_map
      (fun '(section_key, section_data) =>
         let relevance_score := section_score question_lower section_data in
         if 0 <? relevance_score
         then [(relevance_score,
                "Course Material - " +:+ s_title section_data +:+ ":" +:+ nl
                +:+ PyStr.strip (s_content section_data))]
         else [])
      (course_content self) in
  snd <$> take 3 (sort_by_score matches).

(** Lines 217-231: the relevance score of one forum post. *)
Definition post_score (question_lower : string) (post : post) : nat :=
  let question_words : gset string := list_to_set (PyStr.split question_lower) in
  let title_lower := PyStr.lower (p_title post) in
  let content_lower := PyStr.lower (p_content post) in
  let tags := p_tags post in
  let tag_matches := sum_ones (fun tag => PyStr.contains tag question_lower) tags in
  let title_matches :=
    sum_ones (fun word => PyStr.contains word title_lower) (set_iter question_words) in
  let content_matches :=
    sum_ones (fun word => PyStr.contains word content_lower) (set_iter question_words) in
  tag_matches * 3 + title_matches * 2 + content_matches.

Definition _search_discourse_posts (self : t) (question_lower : string) : list string :=
  let matches :=
    flat_map
      (fun post =>
         let relevance_score := post_score question_lower post in
         if 0 <? relevance_score
         then [(relevance_score,
                "Discourse Post: " +:+ p_title post +:+ nl
                +:+ "URL: " +:+ p_url post +:+ nl
                +:+ "Content: " +:+ p_content post +:+ nl
                +:+ "Tags: " +:+ PyStr.join ", " (p_tags post))]
         else [])
      (discourse_posts self) in
  snd <$> take 3 (sort_by_score matches).

Definition search_relevant_content (self : t) (question : string) : string :=
  let question_lower := PyStr.lower question in
  let relevant_content :=
    _search_course_content self question_lower
    ++ _search_discourse_posts self question_lower in
  let combined_content := PyStr.join (nl +:+ nl) (take 5 relevant_content) in
  if PyStr.truthy combined_content then combined_content
  else "No specific course content found for this question.".

End Methods.
End DataScraper.

(** ** [views.py]: how the request handler uses the services *)

Module Views.
Section Handler.

Variable title : string -> string.
Variable set_iter : gset string -> list string.
Variable py_str : pyval -> outcome string.
Variable json_dumps_ok : pyval -> bool.

(** Lines 266-327 repeat [utils.py] lines 9-75 statement for statement. *)
Definition validate_response_structure : pyval -> outcome pyval :=
  Utils.validate_response_structure py_str json_dumps_ok.

(** Lines 59-107 of [virtual_ta_api]: what the handler does with a question
    that passed the input checks and the per-address limit.  The
    orchestrator object is returned next to the response so that its fields
    can be inspected afterwards. *)
Definition virtual_ta_api (question image_context : string)
  : M (pyval * MultiAIService.t) :=
  do ai_service <- MultiAIService.__init__;
  let data_scraper := DataScraper.__init__ in
  let context := DataScraper.search_relevant_content set_iter data_scraper question in
  do generated <-
       catch (MultiAIService.generate_answer title set_iter ai_service
                question context image_context)
             (fun _ =>
                ret (Payload "Unable to process your question at the moment. Please try again or post on the discourse forum."
                             [forum_link],
                     ai_service));
  let '(answer_data, ai_service) := generated in
  let validated_response :=
    match validate_response_structure (payload_to_py answer_data) with
    | Ok v => v
    | Exn _ => payload_to_py Utils.safe_default
    end in
  ret (validated_response, ai_service).

(** A process serving one request after the other. *)
Fixpoint serve (requests : list (string * string)) : M (list (pyval * MultiAIService.t)) :=
  match requests with
  | [] => ret []
  | (question, image_context) :: rest =>
      do r <- virtual_ta_api question image_context;
      do rs <- serve rest;
      ret (r :: rs)
  end.

End Handler.
End Views.

(** ** Stand-ins for the open parameters, used to run the model *)

Module Sample.

(** [str()] of the atoms; containers and other objects are taken to raise. *)
Definition py_str (v : pyval) : outcome string :=
  match v with
  | PyNone => Ok "None"
  | PyBool true => Ok "True"
  | PyBool false => Ok "False"
  | PyStr s => Ok s
  | _ => Exn "TypeError"
  end.

(** [json.dumps] accepts what is made of atoms, lists and string-keyed
    dicts, and rejects other objects at the top level. *)
Definition json_dumps_ok (v : pyval) : bool :=
  match v with PyObj _ => false | _ => true end.

(** One possible iteration order of a set. *)
Definition set_iter : gset string -> list string := elements.

(** Another one. *)
Definition set_iter_rev : gset string -> list string := fun X => reverse (elements X).

(** An endpoint that always raises with the given text, and one that always
    answers with the given text. *)
Definition always_raises (msg : string) : nat -> string -> gen_result :=
  fun _ _ => Raised msg.

Definition always_replies (text : string) : nat -> string -> gen_result :=
  fun _ _ => Replied text.

Definition world0 (endpoint : nat -> string -> gen_result) : world :=
  World endpoint (Some "models/gemini-1.5-flash-latest") 1700000000 [].

End Sample.

(** ** The claims in the words of the specification

    These definitions follow the specification, not the source; they are
    what the source is compared with. *)

Module Claimed.

(** "Tokenizes the question into a lowercase word set." *)
Definition word_set (question : string) : gset string :=
  list_to_set (PyStr.split (PyStr.lower question)).

(** "A tag matches exactly when it is a member-wise match against the
    question's word set." *)
Definition matching_tags (question : string) (tags : list string) : nat :=
  length (filter (fun tag => tag ∈ word_set question) tags).

(** "Number of question words occurring in" a text. *)
Definition words_occurring (question text : string) : nat :=
  size (filter (fun word => PyStr.contains word (PyStr.lower text) = true)
               (word_set question)).

Definition document_score (question : string) (d : DataScraper.section_data) : nat :=
  2 * matching_tags question (DataScraper.s_topics d)
  + words_occurring question (DataScraper.s_content d).

Definition post_score (question : string) (p : DataScraper.post) : nat :=
  3 * matching_tags question (DataScraper.p_tags p)
  + 2 * words_occurring question (DataScraper.p_title p)
  + words_occurring question (DataScraper.p_content p).

(** "Deduplicates; keeps first 2 in discovery order": every URL once, at
    the place of its first occurrence, and then the first two. *)
Fixpoint distinct_in_order (l : list string) : list string :=
  match l with
  | [] => []
  | x :: l' => x :: filter (fun y => y <> x) (distinct_in_order l')
  end.

Definition first_two_distinct (context : string) : list string :=
  take 2 (distinct_in_order (Re.findall_forum_urls context)).

(** The address every link is said to begin with. *)
Definition forum_host : string := "https://discourse.onlinedegree.iitm.ac.in".

Definition on_forum (l : link) : Prop :=
  PyStr.startswith forum_host (url l) = true.

(** "A fixed ordered set of topic buckets ... first matching bucket in
    priority order wins": the buckets are pairs of keywords and outcome. *)
Fixpoint first_match {A} (buckets : list (list string * A)) (generic : A)
    (question_lower : string) : A :=
  match buckets with
  | [] => generic
  | (keywords, a) :: rest =>
      if PyStr.any_in keywords question_lower then a
      else first_match rest generic question_lower
  end.

(** "Sentences sharing at least one word (length > 3) with the question." *)
Definition shares_long_word (question sentence : string) : Prop :=
  set_Exists (fun word => 3 < String.length word
                          /\ PyStr.contains word (PyStr.lower sentence) = true)
             (word_set question).

(** "Checks at most the first 10 sentences, prefixes up to 2 such
    sentences to the canned category answer." *)
Definition mined_prefix (question context : string) : string :=
  let qualifying :=
    filter (shares_long_word question) (take 10 (PyStr.split_on "." context)) in
  match take 2 (PyStr.strip <$> qualifying) with
  | [] => ""
  | chosen => "Based on course materials: " +:+ PyStr.join ". " chosen +:+ ". "
  end.

(** The bucket tables of the two fallback tiers, in the order in which the
    source tests them; the last, generic outcome has no keywords. *)
Definition category_buckets : list (list string * (string * string)) :=
  [ (["gpt"; "openai"; "api"; "model"; "ai"],
     (AIService.ai_model_answer, "AI Model Usage Help"));
    (["python"; "setup"; "install"; "environment"; "pip"],
     (AIService.python_setup_answer, "Python Setup Help"));
    (["assignment"; "submit"; "deadline"; "homework"; "ga"],
     (AIService.assignment_answer, "Assignment Guidelines"));
    (["git"; "version"; "control"; "github"; "commit"],
     (AIService.git_answer, "Git Version Control"));
    (["error"; "debug"; "fix"; "problem"; "issue"],
     (AIService.debugging_answer, "Debugging Help")) ].

Definition category_generic : string * string :=
  (AIService.generic_answer, "TDS Course Forum").

Definition context_buckets : list (list string * string) :=
  [ (["gpt"; "openai"; "api"; "model"], MultiAIService.ai_model_advice);
    (["python"; "setup"; "environment"], MultiAIService.python_advice);
    (["assignment"; "submit"; "homework"], MultiAIService.assignment_advice) ].

End Claimed.

(** ** Vocabulary for further properties of the code *)

Module Obs.

(** Every character of [s] satisfies [p]. *)
Fixpoint all_chars (p : ascii -> bool) (s : string) : bool :=
  match s with
  | EmptyString => true
  | String c s' => p c && all_chars p s'
  end.

Definition is_sleep (e : event) : bool :=
  match e with EvSleep _ => true | EvGenerate _ => false end.

Definition sleeps_made (t : list event) : nat :=
  length (List.filter is_sleep t).

(** What every payload built by the services looks like: an answer that is
    not empty and one or two links, each with a forum address and a label
    that is not empty. *)
Definition service_payload (p : payload) : Prop :=
  answer p <> ""
  /\ 1 <= length (links p) <= 2
  /\ Forall (fun l => PyStr.startswith Claimed.forum_host (url l) = true
                      /\ text l <> "") (links p).

(** The scored blocks of [_search_course_content] and of
    [_search_discourse_posts] before they are sorted (lines 185-199 and
    216-235). *)
Definition course_matches (set_iter : gset string -> list string)
    (self : DataScraper.t) (question_lower : string) : list (nat * string) :=
  flat_map
    (fun '(section_key, section_data) =>
       let relevance_score :=
         DataScraper.section_score set_iter question_lower section_data in
       if 0 <? relevance_score
       then [(relevance_score,
              "Course Material - " +:+ DataScraper.s_title section_data +:+ ":"
              +:+ DataScraper.nl +:+ PyStr.strip (DataScraper.s_content section_data))]
       else [])
    (DataScraper.course_content self).

Definition discourse_matches (set_iter : gset string -> list string)
    (self : DataScraper.t) (question_lower : string) : list (nat * string) :=
  flat_map
    (fun post =>
       let relevance_score := DataScraper.post_score set_iter question_lower post in
       if 0 <? relevance_score
       then [(relevance_score,
              "Discourse Post: " +:+ DataScraper.p_title post +:+ DataScraper.nl
              +:+ "URL: " +:+ DataScraper.p_url post +:+ DataScraper.nl
              +:+ "Content: " +:+ DataScraper.p_content post +:+ DataScraper.nl
              +:+ "Tags: " +:+ PyStr.join ", " (DataScraper.p_tags post))]
       else [])
    (DataScraper.discourse_posts self).

Definition no_content : string := "No specific course content found for this question.".

(** The world once the orchestrator has waited for its minimum delay
    (lines 279-285). *)
Definition after_wait (self : MultiAIService.t) (w : world) : world :=
  let time_since_last := (clock w - MultiAIService.last_request_time self)%Z in
  if (time_since_last <? MultiAIService.min_delay self)%Z
  then World (endpoint w) (gemini_model w)
             (clock w + (MultiAIService.min_delay self - time_since_last))%Z
             (trace w ++ [EvSleep (MultiAIService.min_delay self - time_since_last)%Z])
  else w.

(** One scored block ranks at least as high as another. *)
Definition outranks (a b : nat * string) : Prop := b.1 <= a.1.

(** A link as the validator leaves it: both fields trimmed and non-empty,
    the url starting with "http" (lines 46-54 of utils.py). *)
Definition tidy (l : link) : Prop :=
  PyStr.strip (url l) = url l /\ PyStr.strip (text l) = text l
  /\ PyStr.truthy (url l) = true /\ PyStr.truthy (text l) = true
  /\ PyStr.startswith "http" (url l) = true.

End Obs.

(** ** [ai_service.py] lines 36-67: the choice of the model *)

Module ModelChoice.

(** One entry of [genai.list_models()]. *)
Record listed_model : Type := Listed_model {
  name : string;
  supported_generation_methods : list string
}.

Definition preferred_models : list string :=
  [ "models/gemini-1.5-flash-latest";
    "models/gemini-1.5-flash";
    "models/gemini-1.5-flash-8b-latest";
    "models/gemini-1.0-pro-latest" ].

Definition default_model : string := "models/gemini-1.5-flash-latest".

(** [list_models] is what iterating [genai.list_models()] gives: the
    entries, or an exception (raised by the call or in the middle of the
    iteration; the bare [except: pass] then skips the selection). *)
Definition _get_available_model (list_models : outcome (list listed_model)) : string :=
  match list_models with
  | Ok models =>
      let available_models :=
        name <$> List.filter
                   (fun model =>
                      bool_decide ("generateContent" ∈ supported_generation_methods model))
                   models in
      match List.find (fun preferred => bool_decide (preferred ∈ available_models))
                      preferred_models with
      | Some preferred => preferred
      | None => default_model
      end
  | Exn _ => default_model
  end.

End ModelChoice.

(** ** [utils.py] lines 96-135: keywords and link lists *)

Module UtilsText.

(** The class [\w] of a [str] pattern on one code point below 256: the
    characters for which [str.isalnum] holds, and the underscore. *)
Definition is_word_char (c : ascii) : bool :=
  let n := nat_of_ascii c in
  ((48 <=? n) && (n <=? 57)) || ((65 <=? n) && (n <=? 90)) || ((97 <=? n) && (n <=? 122))
  || (n =? 95) || (n =? 170) || (n =? 178) || (n =? 179) || (n =? 181)
  || (n =? 185) || (n =? 186) || ((188 <=? n) && (n <=? 190))
  || ((192 <=? n) && (n <=? 214)) || ((216 <=? n) && (n <=? 246)) || (248 <=? n).

(** [re.findall(r'\b\w+\b', s)]: the maximal runs of word characters.
    [skip] counts the characters of the last run that are still to be
    passed. *)
Fixpoint findall_words_skip (skip : nat) (s : string) : list string :=
  match s with
  | EmptyString => []
  | String _ s' =>
      match skip with
      | S k => findall_words_skip k s'
      | O =>
          let word := (PyStr.span is_word_char s).1 in
          if PyStr.is_empty word then findall_words_skip 0 s'
          else word :: findall_words_skip (String.length word - 1) s'
      end
  end.

Definition findall_words (s : string) : list string := findall_words_skip 0 s.

Definition stop_words : list string :=
  [ "the"; "a"; "an"; "and"; "or"; "but"; "in"; "on"; "at"; "to"; "for"; "of"; "with";
    "by"; "is"; "are"; "was"; "were"; "be"; "been"; "have"; "has"; "had"; "do"; "does";
    "did"; "will"; "would"; "could"; "should"; "may"; "might"; "can"; "this"; "that";
    "these"; "those"; "i"; "you"; "he"; "she"; "it"; "we"; "they"; "me"; "him"; "her";
    "us"; "them"; "my"; "your"; "his"; "our"; "their" ].

(** Line 112: the test on one word. *)
Definition is_keyword (word : string) : bool :=
  (2 <? String.length word) && negb (bool_decide (word ∈ stop_words)).

(** [set_iter] is the order in which [list(set(...))] enumerates. *)
Definition extract_keywords (set_iter : gset string -> list string) (text : string)
  : list string :=
  let words := findall_words (PyStr.lower text) in
  let keywords := List.filter is_keyword words in
  set_iter (list_to_set keywords).

(** Lines 128-129: what one entry adds. *)
Definition format_link (link : pyval) : list string :=
  match link with
  | PyStr s => if PyStr.startswith "http" s then ["- " +:+ s] else []
  | _ => []
  end.

(** [links] is a list, its entries are any values. *)
Definition format_links_for_context (links : list pyval) : string :=
  let formatted_links := flat_map format_link (take 5 links) in
  match formatted_links with
  | [] => ""
  | _ => "Relevant links:" +:+ DataScraper.nl +:+ PyStr.join DataScraper.nl formatted_links
  end.

End UtilsText.

(** ** [views.py] lines 190-264: the helpers of the request handler *)

Module ViewsHelpers.

(** Decimal rendering of an integer, as in an f-string. *)
Fixpoint digits_N (fuel : nat) (n : N) (acc : string) : string :=
  match fuel with
  | O => acc
  | S fuel' =>
      let acc' := String (ascii_of_N (48 + n mod 10)) acc in
      if (n / 10 =? 0)%N then acc' else digits_N fuel' (n / 10) acc'
  end.

Definition of_N (n : N) : string := digits_N (S (N.to_nat (N.log2 n))) n EmptyString.

Definition of_Z (z : Z) : string :=
  if (z <? 0)%Z then "-" +:+ of_N (Z.to_N (- z)) else of_N (Z.to_N z).

(** The request as the handler reads it: what [json.loads(request.body)]
    does, and the two entries of [request.META] that are looked up. *)
Inductive body_result : Type :=
| JSONDecodeError
| OtherError (msg : string)
| Parsed (data : pyval).

Record request : Type := Request {
  body : body_result;
  HTTP_X_FORWARDED_FOR : option string;
  REMOTE_ADDR : option string
}.

Definition get_client_ip (request : request) : option string :=
  match HTTP_X_FORWARDED_FOR request with
  | Some x_forwarded_for =>
      if PyStr.truthy x_forwarded_for
      then head (PyStr.split_on "," x_forwarded_for)
      else REMOTE_ADDR request
  | None => REMOTE_ADDR request
  end.

(** The cache is a [gmap string (Z * Z)]: under every key a value and the
    time at which it expires.  The back end is taken to accept every key,
    to keep every entry until its timeout and not to fail. *)
Definition cache_get (c : gmap string (Z * Z)) (now : Z) (key : string) (default : Z) : Z :=
  match c !! key with
  | Some (value, expires) => if (now <? expires)%Z then value else default
  | None => default
  end.

Definition cache_set (c : gmap string (Z * Z)) (now : Z) (key : string) (value timeout : Z) : gmap string (Z * Z) :=
  <[key := (value, (now + timeout)%Z)]> c.

(** [f"{ip}"] *)
Definition ip_str (ip : option string) : string :=
  match ip with
  | Some s => s
  | None => "None"
  end.

Definition minute_key (ip : option string) (now : Z) : string :=
  "rate_limit_minute:" +:+ ip_str ip +:+ ":" +:+ of_Z (now / 60).

Definition hour_key (ip : option string) (now : Z) : string :=
  "rate_limit_hour:" +:+ ip_str ip +:+ ":" +:+ of_Z (now / 3600).

Definition is_rate_limited (ip : option string) (c : gmap string (Z * Z)) (now : Z) : bool :=
  let minute_count := cache_get c now (minute_key ip now) 0 in
  let hour_count := cache_get c now (hour_key ip now) 0 in
  (10 <=? minute_count)%Z || (100 <=? hour_count)%Z.

Definition record_request (ip : option string) (c : gmap string (Z * Z)) (now : Z) : gmap string (Z * Z) :=
  let minute_count := (cache_get c now (minute_key ip now) 0 + 1)%Z in
  let hour_count := (cache_get c now (hour_key ip now) 0 + 1)%Z in
  cache_set (cache_set c now (minute_key ip now) minute_count 60)
            now (hour_key ip now) hour_count 3600.

Section Image.

(** [base64.b64decode] on any value: the bytes, one character per byte, or
    an exception. *)
Variable b64decode : pyval -> outcome string.

(** Truthiness of an object that is none of the other kinds. *)
Variable obj_truthy : nat -> bool.

Definition truthy (v : pyval) : bool :=
  match v with
  | PyNone => false
  | PyBool b => b
  | PyInt n => negb (n =? 0)%Z
  | PyStr s => PyStr.truthy s
  | PyList l => match l with [] => false | _ => true end
  | PyDict d => negb (bool_decide (d = ∅))
  | PyObj tag => obj_truthy tag
  end.

(** Lines 249-258. *)
Definition format_type (image_data : string) : string :=
  if PyStr.startswith (String "255" (String "216" (String "255" EmptyString))) image_data
  then "JPEG"
  else if PyStr.startswith (String "137" "PNG") image_data then "PNG"
  else if PyStr.startswith "GIF" image_data then "GIF"
  else if PyStr.startswith "RIFF" image_data
          && PyStr.contains "WEBP" (PyStr.take 12 image_data) then "WEBP"
  else "Unknown".

Definition process_image_data (image_b64 : pyval) : string :=
  if negb (truthy image_b64) then ""
  else
    match b64decode image_b64 with
    | Ok image_data =>
        let image_size := String.length image_data in
        if (10 * 1024 * 1024 <? Z.of_nat image_size)%Z then "Image too large (max 10MB)."
        else "Image provided (" +:+ format_type image_data +:+ ", "
             +:+ PyStr.of_nat image_size
             +:+ " bytes). This appears to be a screenshot or diagram related to the TDS question."
    | Exn _ => "Image provided but could not be processed."
    end.

End Image.

End ViewsHelpers.

(** ** [views.py] lines 17-127: the request handler *)

Module Api.

Record response : Type := JsonResponse { content : pyval; status : nat }.

(** Lines 32-33.  [data] is any JSON value; [.get] exists on a dict only
    and [.strip] on a string only. *)
Definition read_input (data : pyval) : outcome (string * pyval) :=
  match data with
  | PyDict d =>
      match default (PyStr "") (d !! "question") with
      | PyStr question =>
          Ok (PyStr.strip question, default (PyStr "") (d !! "image"))
      | _ => Exn "AttributeError: object has no attribute 'strip'"
      end
  | _ => Exn "AttributeError: object has no attribute 'get'"
  end.

(** The replies that the handler builds itself. *)
Definition reply (answer : string) (status : nat) : response :=
  JsonResponse (payload_to_py (Payload answer [forum_link])) status.

Section Handler.

Variable title : string -> string.
Variable set_iter : gset string -> list string.
Variable py_str : pyval -> outcome string.
Variable json_dumps_ok : pyval -> bool.
Variable b64decode : pyval -> outcome string.
Variable obj_truthy : nat -> bool.

(** Whether line 120, [JsonResponse(validated_response,
    json_dumps_params={'ensure_ascii': False})], can be built.  The text is
    written out unescaped and then encoded, and a character without an
    encoding (a lone surrogate, which the self-check of the validator lets
    through) makes that raise.  Strings here hold code points below 256, so
    the test is left open: the handler has to cope with every outcome. *)
Variable json_response_ok : pyval -> bool.

(** One POST request.  The handler gets the cache and the world, and
    leaves a response, the cache and the world.  Lines 59-107 are
    [Views.virtual_ta_api]; an exception there can only come out of the
    initialisation of the services (every later step has its own handler),
    which is answered at lines 63-68.  Line 120 is still inside the outer
    [try] and comes after [record_request] (line 118): when it raises, the
    handler at lines 122-127 answers 500, with the request recorded and the
    generation calls made. *)
Definition virtual_ta_api (request : ViewsHelpers.request) (c : gmap string (Z * Z))
    (w : world) : response * gmap string (Z * Z) * world :=
  match ViewsHelpers.body request with
  | ViewsHelpers.JSONDecodeError =>
      (reply "Invalid JSON format in request. Please check your request structure." 400,
       c, w)
  | ViewsHelpers.OtherError _ =>
      (reply "An unexpected error occurred. Please try again or contact support through the discourse forum." 500,
       c, w)
  | ViewsHelpers.Parsed data =>
      match read_input data with
      | Exn _ =>
          (reply "An unexpected error occurred. Please try again or contact support through the discourse forum." 500,
           c, w)
      | Ok (question, image_b64) =>
          if negb (PyStr.truthy question) then
            (reply "Please provide a question for the TDS Virtual TA." 400, c, w)
          else if 1000 <? String.length question then
            (reply "Question is too long. Please keep it under 1000 characters." 400, c, w)
          else
            let client_ip := ViewsHelpers.get_client_ip request in
            if ViewsHelpers.is_rate_limited client_ip c (clock w) then
              (reply "Too many requests. Please wait a moment before asking another question." 429,
               c, w)
            else
              let image_context :=
                if ViewsHelpers.truthy obj_truthy image_b64
                then ViewsHelpers.process_image_data b64decode obj_truthy image_b64
                else "" in
              match Views.virtual_ta_api title set_iter py_str json_dumps_ok
                      question image_context w with
              | (Ok (validated_response, _), w') =>
                  let c' := ViewsHelpers.record_request client_ip c (clock w') in
                  if json_response_ok validated_response
                  then (JsonResponse validated_response 200, c', w')
                  else
                    (reply "An unexpected error occurred. Please try again or contact support through the discourse forum." 500,
                     c', w')
              | (Exn _, w') =>
                  (reply "Unable to initialize TDS Virtual TA services. Please try again later." 500,
                   c, w')
              end
      end
  end.

End Handler.
End Api.

(** ** Further notions used in the statements about the handler *)

Module Limits.

(** Reading a decimal numeral back. *)
Fixpoint parse_N (acc : N) (s : string) : N :=
  match s with
  | EmptyString => acc
  | String c s' => parse_N (acc * 10 + (N_of_ascii c - 48)) s'
  end.

Definition parse_Z (s : string) : Z :=
  match s with
  | String c s' =>
      if Ascii.eqb c "-" then (- Z.of_N (parse_N 0 s'))%Z else Z.of_N (parse_N 0 s)
  | EmptyString => 0%Z
  end.

(** The cache after requests recorded at the given times, oldest first. *)
Definition record_all (ip : option string) (c : gmap string (Z * Z)) (times : list Z)
  : gmap string (Z * Z) :=
  foldl (fun c now => ViewsHelpers.record_request ip c now) c times.

(** How many of the times fall into the clock minute of [now]. *)
Definition in_minute_of (now : Z) (times : list Z) : nat :=
  length (List.filter (fun x => (x / 60 =? now / 60)%Z) times).

(** A request that passes the input checks of lines 24-46. *)
Definition well_formed (request : ViewsHelpers.request) : Prop :=
  exists (d : gmap string pyval) (question : string),
    ViewsHelpers.body request = ViewsHelpers.Parsed (PyDict d)
    /\ default (PyStr "") (d !! "question") = PyStr question
    /\ PyStr.strip question <> ""
    /\ String.length (PyStr.strip question) <= 1000.

End Limits.

(** * Verification *)

(** ** The string methods on examples *)

Example split_example :
  PyStr.split "  how do  i
 submit " = ["how"; "do"; "i"; "submit"].
Proof. reflexivity. Qed.

Example split_on_example :
  PyStr.split_on "." "a.b." = ["a"; "b"; ""]
  /\ PyStr.split_on ". " "One. Two.. Three" = ["One"; "Two."; "Three"]
  /\ PyStr.split_on "." "" = [""].
Proof. repeat split; reflexivity. Qed.

Example strip_example : PyStr.strip "  a b 	" = "a b".
Proof. reflexivity. Qed.

Example lower_example : PyStr.lower "HTTP 429: Quota" = "http 429: quota".
Proof. reflexivity. Qed.

Example of_nat_example : PyStr.of_nat 0 = "0" /\ PyStr.of_nat 1207 = "1207".
Proof. split; reflexivity. Qed.

(** ** Facts about the string methods *)

Section StringFacts.

Lemma strlen_app (s t : string) :
  String.length (s +:+ t) = String.length s + String.length t.
Proof. induction s as [|c s IH]; simpl; [done | by rewrite IH]. Qed.

Lemma app_assoc (p q r : string) : (p +:+ q) +:+ r = p +:+ q +:+ r.
Proof.
  induction p as [|c p IH]; [done|].
  change (String c ((p +:+ q) +:+ r) = String c (p +:+ q +:+ r)).
  by rewrite IH.
Qed.

Lemma strlen_take (n : nat) (s : string) :
  String.length (PyStr.take n s) = n `min` String.length s.
Proof.
  revert s; induction n as [|n IH]; intros [|c s]; simpl; try done.
  by rewrite IH.
Qed.

Lemma truthy_length (s : string) :
  PyStr.truthy s = true <-> 1 <= String.length s.
Proof. destruct s; simpl; split; intros; try done; lia. Qed.

Lemma truthy_ne (s : string) : PyStr.truthy s = true <-> s <> "".
Proof. destruct s; simpl; split; intros; done. Qed.

Lemma take_drop (n : nat) (s : string) : PyStr.take n s +:+ PyStr.drop n s = s.
Proof.
  revert s; induction n as [|n IH]; intros [|c s]; try done.
  change (String c (PyStr.take n s +:+ PyStr.drop n s) = String c s).
  by rewrite IH.
Qed.

Lemma startswith_app (p s : string) : PyStr.startswith p (p +:+ s) = true.
Proof.
  induction p as [|c p IH]; simpl; [done|].
  destruct (ascii_dec c c); [done | congruence].
Qed.

Lemma startswith_spec (p s : string) :
  PyStr.startswith p s = true <-> exists r, s = p +:+ r.
Proof.
  split.
  - revert s; induction p as [|c p IH]; intros s H; simpl in *.
    + by exists s.
    + destruct s as [|b s]; [done|].
      destruct (ascii_dec c b) as [->|]; [|done].
      destruct (IH _ H) as [r ->]. by exists r.
  - intros [r ->]. apply startswith_app.
Qed.

Lemma startswith_trans (p q s : string) :
  PyStr.startswith p q = true -> PyStr.startswith q s = true ->
  PyStr.startswith p s = true.
Proof.
  rewrite !startswith_spec. intros [r1 ->] [r2 ->].
  exists (r1 +:+ r2). apply app_assoc.
Qed.

End StringFacts.

(** ** The Response Validator meets the output contract *)

Section ValidatorFacts.

Variable py_str : pyval -> outcome string.
Variable json_dumps_ok : pyval -> bool.

Lemma capped_length (s : string) : 1 <= String.length (Utils.capped s) <= 2000.
Proof.
  unfold Utils.capped.
  destruct (PyStr.truthy (PyStr.strip s)) eqn:Ht.
  - apply truthy_length in Ht.
    destruct (Nat.ltb_spec 2000 (String.length (PyStr.strip s))).
    + rewrite strlen_app, strlen_take.
      change (String.length "...") with 3. lia.
    + lia.
  - simpl. lia.
Qed.

Lemma clean_answer_capped (a : pyval) (s : string) :
  Utils.clean_answer py_str a = Ok s -> exists s0, s = Utils.capped s0.
Proof.
  intros H.
  change (obind (match a with
                 | PyStr s => Ok s
                 | PyNone => Ok "No answer provided."
                 | _ => Utils.str py_str a
                 end) (fun s0 => Ok (Utils.capped s0)) = Ok s) in H.
  destruct (match a with PyStr s => Ok s | _ => _ end) as [s0|]; [|done].
  exists s0. by injection H.
Qed.

Lemma link_ok_to_py (u t : string) :
  Utils.link_ok (link_to_py (Link u t))
  = PyStr.truthy u && PyStr.startswith "http" u && PyStr.truthy t.
Proof.
  unfold Utils.link_ok, link_to_py; simpl.
  rewrite lookup_insert_eq, lookup_insert_ne, lookup_insert_eq; done.
Qed.

Lemma validate_link_ok (l : pyval) (out : list link) :
  Utils.validate_link py_str l = Ok out ->
  forallb Utils.link_ok (link_to_py <$> out) = true.
Proof.
  unfold Utils.validate_link, obind.
  destruct l as [| | | | |d|]; try (intros [= <-]; done).
  destruct (d !! "url") as [u|]; [|intros [= <-]; done].
  destruct (d !! "text") as [t|]; [|intros [= <-]; done].
  destruct (Utils.str py_str u) as [us|]; [|done].
  destruct (Utils.str py_str t) as [ts|]; [|done].
  destruct (PyStr.truthy (PyStr.strip us)) eqn:Hu; cbn [andb]; [|intros [= <-]; done].
  destruct (PyStr.truthy (PyStr.strip ts)) eqn:Ht; cbn [andb]; [|intros [= <-]; done].
  destruct (PyStr.startswith "http" (PyStr.strip us)) eqn:Hh; intros [= <-]; [|done].
  cbn [fmap list_fmap forallb]. rewrite link_ok_to_py, Hu, Ht, Hh. done.
Qed.

Lemma validate_links_ok (ls : list pyval) (out : list link) :
  Utils.validate_links py_str ls = Ok out ->
  forallb Utils.link_ok (link_to_py <$> out) = true.
Proof.
  revert out; induction ls as [|l ls IH]; intros out; simpl.
  - intros [= <-]. done.
  - unfold obind.
    destruct (Utils.validate_link py_str l) as [here|] eqn:Hl; [|done].
    destruct (Utils.validate_links py_str ls) as [rest|]; [|done].
    intros [= <-]. rewrite fmap_app, forallb_app.
    rewrite (validate_link_ok _ _ Hl), (IH _ eq_refl). done.
Qed.

Lemma forum_link_ok : Utils.link_ok (link_to_py forum_link) = true.
Proof. unfold forum_link. rewrite link_ok_to_py. reflexivity. Qed.

(** The shape of every value the body of the [try] block returns. *)
Lemma validate_body_shape (response v : pyval) :
  Utils.validate_body py_str json_dumps_ok response = Ok v ->
  exists (d : gmap string pyval) (a : pyval) (s : string) (ls : list link),
    v = PyDict (<["links" := PyList (link_to_py <$> ls)]> (<["answer" := PyStr s]> d))
    /\ Utils.clean_answer py_str a = Ok s
    /\ ls <> []
    /\ forallb Utils.link_ok (link_to_py <$> ls) = true
    /\ (forall d0, response = PyDict d0 ->
          a = default (PyStr "Unable to generate a proper response.") (d0 !! "answer")).
Proof.
  unfold Utils.validate_body.
  destruct response as [| | | | |d0|]; try done.
  set (d1 := match d0 !! "answer" with Some _ => d0 | None => _ end).
  set (d2 := match d1 !! "links" with Some _ => d1 | None => _ end).
  assert (Ha : d2 !! "answer"
               = Some (default (PyStr "Unable to generate a proper response.") (d0 !! "answer"))).
  { assert (H1 : d1 !! "answer"
               = Some (default (PyStr "Unable to generate a proper response.") (d0 !! "answer"))).
    { subst d1. destruct (d0 !! "answer") eqn:E; simpl; [done|].
      by rewrite lookup_insert_eq. }
    subst d2. destruct (d1 !! "links"); [done|].
    by rewrite lookup_insert_ne. }
  rewrite Ha. unfold obind.
  destruct (Utils.clean_answer py_str _) as [s|] eqn:Hs; [|done].
  destruct (Utils.validate_links py_str _) as [vl|] eqn:Hv; [|done].
  destruct (json_dumps_ok _); [|done].
  intros [= <-].
  eexists d2, _, s, (match vl with [] => [forum_link] | _ => vl end).
  split; [done|]. split; [exact Hs|]. split; [by destruct vl|].
  split.
  - destruct vl as [|l vl]; [cbn [fmap list_fmap forallb]; by rewrite forum_link_ok|].
    by apply validate_links_ok in Hv.
  - by intros ? [= <-].
Qed.

Lemma contract_of_shape (d : gmap string pyval) (s : string) (ls : list link) :
  1 <= String.length s <= 2000 -> ls <> [] ->
  forallb Utils.link_ok (link_to_py <$> ls) = true ->
  Utils.contract_ok
    (PyDict (<["links" := PyList (link_to_py <$> ls)]> (<["answer" := PyStr s]> d))) = true.
Proof.
  intros [H1 H2] Hne Hok. unfold Utils.contract_ok.
  rewrite lookup_insert_ne, lookup_insert_eq, lookup_insert_eq by done.
  rewrite Hok, length_fmap.
  destruct ls; [done|]. simpl.
  apply Nat.leb_le in H2. rewrite H2.
  destruct (String.length s); [lia | done].
Qed.

Lemma safe_default_contract :
  Utils.contract_ok (payload_to_py Utils.safe_default) = true.
Proof. vm_compute. reflexivity. Qed.

(** C1.  Whatever the payload is (not a dict, keys missing, an answer that
    is no string or is blank, links of any shape) and however [str()] and
    [json.dumps] behave on it, [validate_response_structure] returns a
    value instead of raising, and that value meets the output contract:
    the answer has between 1 and 2000 characters, there is at least one
    link, and every link has a non-empty url that starts with "http" and
    a non-empty text. *)
Theorem validate_response_structure_contract (response : pyval) :
  exists v : pyval,
    Utils.validate_response_structure py_str json_dumps_ok response = Ok v
    /\ Utils.contract_ok v = true.
Proof.
  unfold Utils.validate_response_structure, try_except.
  destruct (Utils.validate_body py_str json_dumps_ok response) as [v|e] eqn:Hb.
  - exists v. split; [done|].
    destruct (validate_body_shape _ _ Hb) as (d & a & s & ls & -> & Hs & Hne & Hok & _).
    apply contract_of_shape; [|done..].
    destruct (clean_answer_capped _ _ Hs) as [s0 ->]. apply capped_length.
  - eexists. split; [done|]. apply safe_default_contract.
Qed.

End ValidatorFacts.

(** ** Truncation of long answers *)

Section Truncation.

Variable py_str : pyval -> outcome string.
Variable json_dumps_ok : pyval -> bool.

Lemma drop_app_length (x y : string) : PyStr.drop (String.length x) (x +:+ y) = y.
Proof. induction x as [|c x IH]; [by destruct y | exact IH]. Qed.

Lemma endswith_app (x suffix : string) : PyStr.endswith suffix (x +:+ suffix) = true.
Proof.
  unfold PyStr.endswith. rewrite strlen_app.
  replace (String.length x + String.length suffix - String.length suffix)
    with (String.length x) by lia.
  rewrite drop_app_length, String.eqb_refl, andb_true_r.
  apply Nat.leb_le. lia.
Qed.

Lemma capped_long (a : string) :
  2000 < String.length (PyStr.strip a) ->
  Utils.capped a = PyStr.take 1997 (PyStr.strip a) +:+ "...".
Proof.
  intros H. unfold Utils.capped.
  destruct (PyStr.truthy (PyStr.strip a)) eqn:Ht.
  - apply Nat.ltb_lt in H. by rewrite H.
  - destruct (PyStr.strip a); [simpl in H; lia | done].
Qed.

Lemma capped_short (a : string) :
  1 <= String.length (PyStr.strip a) <= 2000 ->
  Utils.capped a = PyStr.strip a.
Proof.
  intros [H1 H2]. unfold Utils.capped.
  apply truthy_length in H1. rewrite H1.
  destruct (Nat.ltb_spec 2000 (String.length (PyStr.strip a))); [lia | done].
Qed.

(** C9, as the code has it.  Take a dict payload whose answer is a string
    and on which the body of the validator completes (no [str()] of a link
    field raises and the serialisation self-check passes), so that the safe
    default is not substituted.  The length test is made on the answer
    after [strip()]: when the trimmed answer is longer than 2000 characters
    the result is its first 1997 characters followed by "...", of length
    exactly 2000; when the trimmed answer has 1 to 2000 characters it is
    returned as trimmed, not truncated. *)
Theorem validate_truncates_trimmed_answer
    (d : gmap string pyval) (a : string) (v : pyval) :
  d !! "answer" = Some (PyStr a) ->
  Utils.validate_body py_str json_dumps_ok (PyDict d) = Ok v ->
  Utils.validate_response_structure py_str json_dumps_ok (PyDict d) = Ok v
  /\ (2000 < String.length (PyStr.strip a) ->
      exists s, Utils.answer_of v = Some s
                /\ s = PyStr.take 1997 (PyStr.strip a) +:+ "..."
                /\ String.length s = 2000
                /\ PyStr.endswith "..." s = true)
  /\ (1 <= String.length (PyStr.strip a) <= 2000 ->
      Utils.answer_of v = Some (PyStr.strip a)).
Proof.
  intros Hd Hb.
  split; [unfold Utils.validate_response_structure; by rewrite Hb|].
  destruct (validate_body_shape _ _ _ _ Hb) as (d' & a' & s & ls & -> & Hs & _ & _ & Ha).
  specialize (Ha d eq_refl). rewrite Hd in Ha. simpl in Ha. subst a'.
  assert (Hcap : s = Utils.capped a).
  { change (Ok (Utils.capped a) = Ok s) in Hs. by injection Hs. }
  assert (Hans : forall m, Utils.answer_of
            (PyDict (<["links" := m]> (<["answer" := PyStr s]> d'))) = Some s).
  { intros m. unfold Utils.answer_of.
    by rewrite lookup_insert_ne, lookup_insert_eq. }
  split.
  - intros Hlong. exists s. rewrite Hans, Hcap, (capped_long a Hlong).
    split; [done|]. split; [done|]. split.
    + rewrite strlen_app, strlen_take. change (String.length "...") with 3. lia.
    + apply endswith_app.
  - intros Hshort. by rewrite Hans, Hcap, (capped_short a Hshort).
Qed.

End Truncation.

(** Scenario 6: an answer of 2500 'x' comes back with length 2000 and ends
    with "...". *)
Lemma validate_truncates_trimmed_answer_witness :
  exists v s,
    Utils.validate_response_structure Sample.py_str Sample.json_dumps_ok
      (PyDict {[ "answer" := PyStr (PyStr.repeat "x" 2500) ]}) = Ok v
    /\ Utils.answer_of v = Some s
    /\ String.length s = 2000 /\ PyStr.endswith "..." s = true.
Proof.
  pose (v := default PyNone
               (match Utils.validate_body Sample.py_str Sample.json_dumps_ok
                        (PyDict {[ "answer" := PyStr (PyStr.repeat "x" 2500) ]})
                with Ok v => Some v | Exn _ => None end)).
  destruct (validate_truncates_trimmed_answer Sample.py_str Sample.json_dumps_ok
              {[ "answer" := PyStr (PyStr.repeat "x" 2500) ]}
              (PyStr.repeat "x" 2500) v)
    as (Hret & Hlong & _).
  - vm_compute. reflexivity.
  - vm_compute. reflexivity.
  - destruct Hlong as (s & Hs & _ & Hlen & Hend).
    + apply Nat.ltb_lt. vm_compute. reflexivity.
    + exists v, s. split; [exact Hret|]. split; [exact Hs|].
      split; [exact Hlen | exact Hend].
Defined.

(** C9 as stated fails: an answer of 2001 characters, one 'x' followed by
    2000 blanks, is longer than 2000 characters, yet the validator returns
    "x": length 1, no ellipsis. *)
Lemma padded_answer_is_not_cut :
  let a := String "x" (PyStr.repeat " " 2000) in
  2000 < String.length a
  /\ exists v s,
       Utils.validate_response_structure Sample.py_str Sample.json_dumps_ok
         (PyDict {[ "answer" := PyStr a ]}) = Ok v
       /\ Utils.answer_of v = Some s
       /\ s = "x"
       /\ String.length s <> 2000
       /\ PyStr.endswith "..." s = false.
Proof.
  split; [apply Nat.ltb_lt; vm_compute; reflexivity|].
  eexists _, "x". split; [vm_compute; reflexivity|].
  split; [vm_compute; reflexivity|]. split; [done|]. split; [simpl; lia | done].
Qed.

(** ** The retry loop of the Generation Client *)

Section Retry.

Variable title : string -> string.
Variable set_iter : gset string -> list string.

Lemma calls_issued_app (t : list event) (e : event) :
  calls_issued (t ++ [e]) = calls_issued t + (if is_generate e then 1 else 0).
Proof.
  unfold calls_issued. rewrite List.filter_app, length_app. simpl.
  by destruct (is_generate e).
Qed.

(** One pass through the loop body, by the behaviour of the endpoint. *)
Lemma attempt_once_eq (prompt : string) (max_retries attempt : nat) (w : world) :
  AIService.attempt_once prompt max_retries attempt w =
  match endpoint w (calls_issued (trace w)) prompt with
  | Replied text =>
      (Ok (if PyStr.truthy text then AIService.Return (PyStr.strip text)
           else AIService.Continue),
       log (EvGenerate prompt) w)
  | Raised e =>
      if AIService.is_quota_error (PyStr.lower e)
      then (Ok AIService.Break, log (EvGenerate prompt) w)
      else if attempt <? max_retries - 1
           then (Ok AIService.Continue, log (EvSleep 1) (World (endpoint w) (gemini_model w) (clock w + 1)%Z (trace w ++ [EvGenerate prompt])))
           else (Ok AIService.Continue, log (EvGenerate prompt) w)
  end.
Proof.
  unfold AIService.attempt_once, catch, bind, generate_content.
  destruct (endpoint w (calls_issued (trace w)) prompt) as [e|text].
  - destruct (AIService.is_quota_error (PyStr.lower e)); [done|].
    destruct (attempt <? max_retries - 1); done.
  - destruct (PyStr.truthy text); done.
Qed.

Lemma attempt_once_returns (prompt : string) (max_retries attempt : nat) (w : world) :
  exists x w', AIService.attempt_once prompt max_retries attempt w = (Ok x, w')
               /\ endpoint w' = endpoint w.
Proof.
  rewrite attempt_once_eq.
  destruct (endpoint w _ prompt) as [e|text]; [|by eexists _, _].
  destruct (AIService.is_quota_error _); [by eexists _, _|].
  destruct (attempt <? max_retries - 1); by eexists _, _.
Qed.

Lemma retry_loop_returns (prompt : string) (max_retries : nat) (attempts : list nat)
    (w : world) :
  exists v w', AIService.retry_loop prompt max_retries attempts w = (Ok v, w').
Proof.
  revert w; induction attempts as [|a attempts IH]; intros w; simpl.
  - by eexists _, _.
  - unfold bind.
    destruct (attempt_once_returns prompt max_retries a w) as (x & w' & -> & _).
    destruct x; [by eexists _, _ | apply IH | by eexists _, _].
Qed.

Lemma generate_answer_returns (self : AIService.t)
    (question context image_context : string) (w : world) :
  exists p w',
    AIService.generate_answer title set_iter self question context image_context w
    = (Ok p, w').
Proof.
  unfold AIService.generate_answer, catch.
  destruct (negb (AIService.is_initialized self) || _); [by eexists _, _|].
  unfold bind, AIService._generate_with_retry.
  destruct (retry_loop_returns
              (AIService._create_prompt question context image_context) 2 (seq 0 2) w)
    as (v & w' & ->).
  destruct v as [text|]; [|by eexists _, _].
  destruct (PyStr.truthy text); by eexists _, _.
Qed.

(** The run of [_generate_with_retry] with its default of two attempts, by
    the behaviour of the endpoint at the first and at the second call. *)
Lemma generate_with_retry_eq (prompt : string) (w : world) :
  let n := calls_issued (trace w) in
  let w1 := log (EvGenerate prompt) w in
  AIService._generate_with_retry prompt 2 w =
  match endpoint w n prompt with
  | Replied text =>
      if PyStr.truthy text then (Ok (Some (PyStr.strip text)), w1)
      else match endpoint w (n + 1) prompt with
           | Replied text2 =>
               (Ok (if PyStr.truthy text2 then Some (PyStr.strip text2) else None),
                log (EvGenerate prompt) w1)
           | Raised _ => (Ok None, log (EvGenerate prompt) w1)
           end
  | Raised e =>
      if AIService.is_quota_error (PyStr.lower e) then (Ok None, w1)
      else
        let w2 := log (EvSleep 1)
                    (World (endpoint w) (gemini_model w) (clock w + 1)%Z
                           (trace w ++ [EvGenerate prompt])) in
        match endpoint w (n + 1) prompt with
        | Replied text2 =>
            (Ok (if PyStr.truthy text2 then Some (PyStr.strip text2) else None),
             log (EvGenerate prompt) w2)
        | Raised _ => (Ok None, log (EvGenerate prompt) w2)
        end
  end.
Proof.
  intros n w1. unfold AIService._generate_with_retry. simpl seq.
  cbn [AIService.retry_loop]. unfold bind at 1. rewrite attempt_once_eq. fold n.
  destruct (endpoint w n prompt) as [e|text] eqn:E1.
  - destruct (AIService.is_quota_error (PyStr.lower e)); [done|].
    change (1 <? 2 - 1) with false. change (0 <? 2 - 1) with true. cbv iota.
    unfold bind, ret. rewrite attempt_once_eq. cbn [endpoint trace log].
    rewrite !calls_issued_app. cbn [is_generate]. rewrite Nat.add_0_r. fold n.
    destruct (endpoint w (n + 1) prompt) as [e2|text2].
    + destruct (AIService.is_quota_error (PyStr.lower e2)); done.
    + destruct (PyStr.truthy text2); done.
  - destruct (PyStr.truthy text); [done|].
    unfold bind, ret. rewrite attempt_once_eq. cbn [endpoint trace log].
    rewrite !calls_issued_app. cbn [is_generate]. fold n.
    destruct (endpoint w (n + 1) prompt) as [e2|text2].
    + destruct (AIService.is_quota_error (PyStr.lower e2)); done.
    + destruct (PyStr.truthy text2); done.
Qed.

End Retry.

(** C3.  [_generate_with_retry], called with its default of two attempts,
    never raises and issues at most two calls.  When the first call raises
    with a text in which "429", "quota" or "exceeded" occurs once it is
    lowercased, the loop stops there: exactly one call, no sleep, result
    [None].  When it raises with any other text, the loop sleeps for one
    second and calls once more.  When it raises nothing but answers with an
    empty reply, the loop calls once more at once: no sleep lies between the
    two calls and the clock is where it was.  After the second call nothing
    else happens (no sleep, no third call) whatever its outcome.  No
    exception leaves [AIService.generate_answer] either, and after a quota
    error on the first call it returns the category fallback with that
    single call issued. *)
Theorem retry_stops_on_quota_and_retries_once
    (title : string -> string) (set_iter : gset string -> list string)
    (prompt : string) (w : world) :
  let n := calls_issued (trace w) in
  let run := AIService._generate_with_retry prompt 2 w in
  let second :=
    match endpoint w (n + 1) prompt with
    | Replied text => if PyStr.truthy text then Some (PyStr.strip text) else None
    | Raised _ => None
    end in
  (exists v, run.1 = Ok v)
  /\ calls_issued (trace run.2) <= n + 2
  /\ (forall e, endpoint w n prompt = Raised e ->
        AIService.is_quota_error (PyStr.lower e) = true ->
        run = (Ok None, log (EvGenerate prompt) w))
  /\ (forall e, endpoint w n prompt = Raised e ->
        AIService.is_quota_error (PyStr.lower e) = false ->
        trace run.2 = trace w ++ [EvGenerate prompt; EvSleep 1; EvGenerate prompt]
        /\ clock run.2 = (clock w + 1)%Z
        /\ run.1 = Ok second)
  /\ (forall text, endpoint w n prompt = Replied text ->
        PyStr.truthy text = false ->
        trace run.2 = trace w ++ [EvGenerate prompt; EvGenerate prompt]
        /\ clock run.2 = clock w
        /\ run.1 = Ok second)
  /\ (forall self question context image_context,
        exists p w',
          AIService.generate_answer title set_iter self question context image_context w
          = (Ok p, w'))
  /\ (forall self question context image_context e,
        AIService.is_initialized self = true -> is_Some (AIService.model self) ->
        prompt = AIService._create_prompt question context image_context ->
        endpoint w n prompt = Raised e ->
        AIService.is_quota_error (PyStr.lower e) = true ->
        AIService.generate_answer title set_iter self question context image_context w
        = (Ok (AIService._fallback_response question), log (EvGenerate prompt) w)).
Proof.
  intros n run second.
  pose proof (generate_with_retry_eq prompt w) as Heq. cbv zeta in Heq. fold n run in Heq.
  split; [|split; [|split; [|split; [|split; [|split]]]]].
  - destruct (retry_loop_returns prompt 2 (seq 0 2) w) as (v & w' & Hv).
    exists v. subst run. unfold AIService._generate_with_retry. by rewrite Hv.
  - rewrite Heq.
    destruct (endpoint w n prompt) as [e|text].
    + destruct (AIService.is_quota_error _).
      * cbn [snd log trace]. rewrite calls_issued_app. cbn [is_generate]. fold n. lia.
      * destruct (endpoint w (n + 1) prompt); cbn [snd log trace];
          rewrite !calls_issued_app; cbn [is_generate]; fold n; lia.
    + destruct (PyStr.truthy text).
      * cbn [snd log trace]. rewrite calls_issued_app. cbn [is_generate]. fold n. lia.
      * destruct (endpoint w (n + 1) prompt); cbn [snd log trace];
          rewrite !calls_issued_app; cbn [is_generate]; fold n; lia.
  - intros e He Hq. by rewrite Heq, He, Hq.
  - intros e He Hq. rewrite Heq, He, Hq. subst second. split; [|split].
    + destruct (endpoint w (n + 1) prompt); cbn [snd log trace];
        by rewrite <- !(assoc_L (++)).
    + by destruct (endpoint w (n + 1) prompt).
    + by destruct (endpoint w (n + 1) prompt).
  - intros text He Hq. rewrite Heq, He, Hq. subst second. split; [|split].
    + destruct (endpoint w (n + 1) prompt); cbn [snd log trace];
        by rewrite <- !(assoc_L (++)).
    + by destruct (endpoint w (n + 1) prompt).
    + by destruct (endpoint w (n + 1) prompt).
  - intros. apply generate_answer_returns.
  - intros self question context image_context e Hinit Hmodel Hp He Hq.
    unfold AIService.generate_answer, catch, bind.
    rewrite Hinit. rewrite (bool_decide_eq_true_2 _ Hmodel). cbn [negb orb].
    rewrite <- Hp. fold run. by rewrite Heq, He, Hq.
Qed.

(** The theorem at work: a "429" error stops after one call; a "503" error
    is followed by a one-second sleep and one more call; an empty reply is
    followed by one more call and no sleep. *)
Lemma retry_stops_on_quota_and_retries_once_witness :
  AIService._generate_with_retry "p" 2
    (Sample.world0 (Sample.always_raises "HTTP 429 Too Many Requests"))
  = (Ok None,
     log (EvGenerate "p") (Sample.world0 (Sample.always_raises "HTTP 429 Too Many Requests")))
  /\ trace (AIService._generate_with_retry "p" 2
              (Sample.world0 (Sample.always_raises "503 Service Unavailable"))).2
     = [EvGenerate "p"; EvSleep 1; EvGenerate "p"]
  /\ trace (AIService._generate_with_retry "p" 2
              (Sample.world0 (Sample.always_replies ""))).2
     = [EvGenerate "p"; EvGenerate "p"].
Proof.
  split; [|split].
  - destruct (retry_stops_on_quota_and_retries_once PyStr.title_ascii Sample.set_iter "p"
                (Sample.world0 (Sample.always_raises "HTTP 429 Too Many Requests")))
      as (_ & _ & H & _).
    apply (H "HTTP 429 Too Many Requests"); reflexivity.
  - destruct (retry_stops_on_quota_and_retries_once PyStr.title_ascii Sample.set_iter "p"
                (Sample.world0 (Sample.always_raises "503 Service Unavailable")))
      as (_ & _ & _ & H & _).
    apply (H "503 Service Unavailable"); reflexivity.
  - destruct (retry_stops_on_quota_and_retries_once PyStr.title_ascii Sample.set_iter "p"
                (Sample.world0 (Sample.always_replies "")))
      as (_ & _ & _ & _ & H & _).
    apply (H ""); reflexivity.
Defined.

(** C3 as stated fails: an attempt that comes back with an empty reply is
    neither a success nor a quota error, and it is retried, but with no
    backoff: the second call follows the first with no sleep in between,
    the clock has not moved, and the result is the no-result signal. *)
Lemma empty_reply_is_retried_without_backoff :
  let w := Sample.world0 (Sample.always_replies "") in
  let run := AIService._generate_with_retry "p" 2 w in
  run.1 = Ok None
  /\ trace run.2 = [EvGenerate "p"; EvGenerate "p"]
  /\ Obs.sleeps_made (trace run.2) = 0
  /\ clock run.2 = clock w.
Proof. vm_compute. repeat split. Qed.

(** ** The daily budget of the orchestrator *)

(** C2.  In every state of the orchestrator in which [request_count] has
    reached [daily_limit], [generate_answer] returns the context-aware
    fallback payload and leaves the orchestrator and the world as they were:
    nothing is added to the trace, so the Generation Client is not called
    (and no sleep is made). *)
Theorem daily_limit_skips_generation
    (title : string -> string) (set_iter : gset string -> list string)
    (self : MultiAIService.t) (question context image_context : string) (w : world) :
  MultiAIService.daily_limit self <= MultiAIService.request_count self ->
  let run := MultiAIService.generate_answer title set_iter self
               question context image_context w in
  run = (Ok (MultiAIService._intelligent_fallback set_iter question context, self), w)
  /\ trace run.2 = trace w
  /\ calls_issued (trace run.2) = calls_issued (trace w).
Proof.
  intros Hlimit run.
  assert (Hrun : run = (Ok (MultiAIService._intelligent_fallback set_iter question context,
                            self), w)).
  { subst run. unfold MultiAIService.generate_answer.
    apply Nat.leb_le in Hlimit. by rewrite Hlimit. }
  by rewrite Hrun.
Qed.

(** An orchestrator that has recorded 50 calls, in front of an endpoint that
    would answer: the endpoint is not called. *)
Lemma daily_limit_skips_generation_witness :
  let self := MultiAIService.Build (AIService.Build (Some "m") true) 1700000000 5 50 50 in
  let w := Sample.world0 (Sample.always_replies "Use pandas.") in
  let run := MultiAIService.generate_answer PyStr.title_ascii Sample.set_iter self
               "How do I submit the assignment?" "" "" w in
  run = (Ok (MultiAIService._intelligent_fallback Sample.set_iter
               "How do I submit the assignment?" "", self), w)
  /\ trace run.2 = trace w
  /\ calls_issued (trace run.2) = calls_issued (trace w).
Proof.
  intros self w.
  apply (daily_limit_skips_generation PyStr.title_ascii Sample.set_iter self
           "How do I submit the assignment?" "" "" w).
  simpl. lia.
Defined.

(** ** The Relevance Scorer *)

Section Scorer.

Variable set_iter : gset string -> list string.

(** Iterating over a set visits every element once, in some order. *)
Hypothesis set_iter_elements : forall X : gset string, set_iter X ≡ₚ elements X.

Lemma sum_ones_filter {A} (p : A -> bool) (l : list A) :
  sum_ones p l = length (filter (fun x => p x = true) l).
Proof.
  induction l as [|x l IH]; [done|]. simpl. rewrite filter_cons.
  destruct (p x) eqn:E.
  - rewrite decide_True by done. simpl. by rewrite IH.
  - rewrite decide_False by done. by rewrite IH.
Qed.

Lemma sum_ones_set (p : string -> bool) (X : gset string) :
  sum_ones p (set_iter X) = size (filter (fun x => p x = true) X).
Proof.
  rewrite sum_ones_filter, (set_iter_elements X).
  unfold size, set_size, filter at 2, set_filter. simpl.
  rewrite elements_list_to_set; [done|].
  apply NoDup_filter, NoDup_elements.
Qed.

(** The first word of a string that starts with a non-space character is a
    prefix of it, and every word of [split] occurs in the string. *)
Lemma split_words_occur (s : string) :
  (forall w, w ∈ PyStr.split s -> PyStr.contains w s = true)
  /\ (forall c s', s = String c s' -> PyStr.is_space c = false ->
        exists w ws, PyStr.split s = w :: ws /\ PyStr.startswith w s = true).
Proof.
  induction s as [|c s [IH1 IH2]].
  - split; [intros w Hw; by apply elem_of_nil in Hw | done].
  - assert (Hc : forall p, PyStr.startswith (String c p) (String c s) = PyStr.startswith p s).
    { intros p. simpl. destruct (ascii_dec c c); [done | congruence]. }
    assert (Hsub : forall w, PyStr.contains w s = true -> PyStr.contains w (String c s) = true).
    { intros w Hw. cbn [PyStr.contains]. rewrite Hw. apply orb_true_r. }
    assert (Hpre : forall w, PyStr.startswith w (String c s) = true ->
                             PyStr.contains w (String c s) = true).
    { intros w Hw. cbn [PyStr.contains]. by rewrite Hw. }
    cbn [PyStr.split].
    destruct (PyStr.is_space c) eqn:Ec.
    + split; [intros w Hw; apply Hsub, IH1, Hw|].
      intros c0 s0 [= <- <-] Hn. congruence.
    + destruct s as [|c' s'].
      * split.
        -- intros w Hw. apply list_elem_of_singleton in Hw as ->.
           apply Hpre. by rewrite Hc.
        -- intros _ _ _ _. eexists _, _. split; [done|]. by rewrite Hc.
      * destruct (PyStr.is_space c') eqn:Ec'.
        -- split.
           ++ intros w Hw. apply elem_of_cons in Hw as [->|Hw].
              ** apply Hpre. by rewrite Hc.
              ** by apply Hsub, IH1.
           ++ intros _ _ _ _. eexists _, _. split; [done|]. by rewrite Hc.
        -- destruct (IH2 c' s' eq_refl Ec') as (w0 & ws & Hsp & Hw0).
           rewrite Hsp. rewrite Hsp in IH1. split.
           ++ intros w Hw. apply elem_of_cons in Hw as [->|Hw].
              ** apply Hpre. by rewrite Hc.
              ** apply Hsub, IH1. by apply elem_of_cons; right.
           ++ intros _ _ _ _. eexists _, _. split; [done|]. by rewrite Hc.
Qed.

(** C4, as the code has it.  The question is lowercased and cut at white
    space into a set of words.  A course section scores 2 for every topic
    tag and 1 for every question word; a forum post scores 3 for every tag,
    2 for every question word matching the title and 1 for every question
    word matching the body.  All three kinds of match are substring tests:
    a tag matches when it occurs somewhere in the lowercased question, a
    word matches when it occurs somewhere in the lowercased text.  A tag
    that is one of the question's words therefore matches, but so does a
    tag that is only part of one. *)
Theorem relevance_scores_by_substring
    (question : string) (d : DataScraper.section_data) (p : DataScraper.post) :
  let question_lower := PyStr.lower question in
  let tags_in_question (tags : list string) :=
    length (filter (fun tag => PyStr.contains tag question_lower = true) tags) in
  DataScraper.section_score set_iter question_lower d
  = 2 * tags_in_question (DataScraper.s_topics d)
    + Claimed.words_occurring question (DataScraper.s_content d)
  /\ DataScraper.post_score set_iter question_lower p
     = 3 * tags_in_question (DataScraper.p_tags p)
       + 2 * Claimed.words_occurring question (DataScraper.p_title p)
       + Claimed.words_occurring question (DataScraper.p_content p)
  /\ (forall tags, Claimed.matching_tags question tags <= tags_in_question tags).
Proof.
  intros question_lower tags_in_question.
  unfold DataScraper.section_score, DataScraper.post_score, Claimed.words_occurring,
    Claimed.word_set.
  fold question_lower. rewrite !sum_ones_set, !sum_ones_filter.
  split; [subst tags_in_question; simpl; lia|].
  split; [subst tags_in_question; simpl; lia|].
  intros tags. unfold Claimed.matching_tags, Claimed.word_set. subst tags_in_question.
  fold question_lower. cbv beta.
  induction tags as [|tag tags IH]; [done|].
  rewrite !filter_cons.
  destruct (decide (tag ∈ _)) as [Hin|Hout].
  - apply elem_of_list_to_set in Hin.
    apply (proj1 (split_words_occur question_lower)) in Hin.
    rewrite decide_True by done. simpl. lia.
  - destruct (decide (PyStr.contains tag question_lower = true)); simpl; lia.
Qed.

End Scorer.

(** A question that mentions an API, scored against the corpus. *)
Lemma relevance_scores_by_substring_witness :
  exists d p,
    DataScraper.course_content DataScraper.__init__ !! 3 = Some ("apis", d)
    /\ DataScraper.discourse_posts DataScraper.__init__ !! 2 = Some p
    /\ DataScraper.section_score Sample.set_iter (PyStr.lower "Which API key do I use?") d
       = 2 * 1 + 3
    /\ DataScraper.post_score Sample.set_iter (PyStr.lower "Which API key do I use?") p
       = 3 * 1 + 2 * 2 + 3.
Proof.
  eexists _, _. split; [reflexivity|]. split; [reflexivity|].
  match goal with
  | |- DataScraper.section_score _ _ ?d = _ /\ DataScraper.post_score _ _ ?p = _ =>
      destruct (relevance_scores_by_substring Sample.set_iter
                  (fun X => reflexivity (elements X))
                  "Which API key do I use?" d p) as (H1 & H2 & _)
  end.
  cbv zeta in H1, H2. split.
  - rewrite H1. vm_compute. reflexivity.
  - rewrite H2. vm_compute. reflexivity.
Defined.

(** C4 as stated fails on the tag rule.  None of the words of "Is there a
    rapid way to restart?" is a tag of the section on APIs, so the stated
    rule counts no tag and gives 2; the code finds "api" inside "rapid" and
    "rest" inside "restart?" and gives 6. *)
Lemma tag_inside_a_longer_word_matches :
  exists d,
    DataScraper.course_content DataScraper.__init__ !! 3 = Some ("apis", d)
    /\ Claimed.matching_tags "Is there a rapid way to restart?" (DataScraper.s_topics d) = 0
    /\ Claimed.document_score "Is there a rapid way to restart?" d = 2
    /\ DataScraper.section_score Sample.set_iter
         (PyStr.lower "Is there a rapid way to restart?") d = 6
    /\ DataScraper.section_score Sample.set_iter
         (PyStr.lower "Is there a rapid way to restart?") d
       <> Claimed.document_score "Is there a rapid way to restart?" d.
Proof.
  eexists. split; [reflexivity|].
  split; [vm_compute; reflexivity|]. split; [vm_compute; reflexivity|].
  split; [vm_compute; reflexivity|]. vm_compute. discriminate.
Qed.

(** ** Where the quota state lives *)

Section QuotaState.

Variable title : string -> string.
Variable set_iter : gset string -> list string.
Variable py_str : pyval -> outcome string.
Variable json_dumps_ok : pyval -> bool.

(** The world after the retry loop: same endpoint, one or two more calls. *)
Lemma retry_world (prompt : string) (w : world) :
  let w' := (AIService._generate_with_retry prompt 2 w).2 in
  endpoint w' = endpoint w /\ gemini_model w' = gemini_model w
  /\ calls_issued (trace w) + 1 <= calls_issued (trace w') <= calls_issued (trace w) + 2.
Proof.
  intros w'. subst w'. rewrite generate_with_retry_eq. cbv zeta.
  set (n := calls_issued (trace w)).
  destruct (endpoint w n prompt) as [e|text];
    [destruct (AIService.is_quota_error _) | destruct (PyStr.truthy text)];
    try destruct (endpoint w (n + 1) prompt) as [e2|text2];
    cbn [snd log endpoint gemini_model trace];
    rewrite !calls_issued_app; cbn [is_generate]; fold n;
    repeat split; lia.
Qed.

(** The Generation Client returns, its endpoint is the one it found, and an
    initialised client has called it at least once. *)
Lemma generate_answer_calls (self : AIService.t)
    (question context image_context : string) (w : world) :
  exists p w',
    AIService.generate_answer title set_iter self question context image_context w
    = (Ok p, w')
    /\ endpoint w' = endpoint w /\ gemini_model w' = gemini_model w
    /\ calls_issued (trace w) <= calls_issued (trace w')
    /\ (AIService.is_initialized self = true -> is_Some (AIService.model self) ->
        calls_issued (trace w) < calls_issued (trace w')).
Proof.
  unfold AIService.generate_answer, catch.
  destruct (AIService.is_initialized self) eqn:Hi; cbn [negb orb];
    [|eexists _, _; split; [reflexivity|]; repeat split; [lia | done]].
  destruct (bool_decide (is_Some (AIService.model self))) eqn:Hm; cbn [negb];
    [|eexists _, _; split; [reflexivity|]; repeat split; [lia|];
      intros _ Hs; apply bool_decide_eq_false_1 in Hm; done].
  unfold bind.
  set (prompt := AIService._create_prompt question context image_context).
  pose proof (retry_world prompt w) as (He & Hg & Hc1 & Hc2).
  destruct (retry_loop_returns prompt 2 (seq 0 2) w) as (v & w' & Hv).
  unfold AIService._generate_with_retry in *. rewrite Hv in *. cbn [snd] in *.
  assert (Hfin : forall p : payload,
            exists p0 w0, (Ok p, w') = (Ok p0, w0)
              /\ endpoint w0 = endpoint w /\ gemini_model w0 = gemini_model w
              /\ calls_issued (trace w) <= calls_issued (trace w0)
              /\ (true = true -> is_Some (AIService.model self) ->
                  calls_issued (trace w) < calls_issued (trace w0))).
  { intros p. exists p, w'. repeat split; try done; intros; lia. }
  destruct v as [text|]; [destruct (PyStr.truthy text)|]; apply Hfin.
Qed.

Lemma orchestrator_records_one_call (self : MultiAIService.t)
    (question context image_context : string) (w : world) :
  MultiAIService.request_count self < MultiAIService.daily_limit self ->
  exists p now w',
    MultiAIService.generate_answer title set_iter self question context image_context w
    = (Ok (p, MultiAIService.recorded self now), w')
    /\ endpoint w' = endpoint w /\ gemini_model w' = gemini_model w
    /\ calls_issued (trace w) <= calls_issued (trace w')
    /\ (AIService.is_initialized (MultiAIService.gemini_service self) = true ->
        is_Some (AIService.model (MultiAIService.gemini_service self)) ->
        calls_issued (trace w) < calls_issued (trace w')).
Proof.
  intros Hlt. unfold MultiAIService.generate_answer.
  apply Nat.leb_gt in Hlt. rewrite Hlt.
  unfold bind at 1. unfold time_time at 1.
  set (wait := (clock w - MultiAIService.last_request_time self <? MultiAIService.min_delay self)%Z).
  assert (Hw : exists w1, (if wait then sleep (MultiAIService.min_delay self
                                   - (clock w - MultiAIService.last_request_time self))%Z
                           else ret tt) w = (Ok tt, w1)
                          /\ endpoint w1 = endpoint w /\ gemini_model w1 = gemini_model w
                          /\ calls_issued (trace w1) = calls_issued (trace w)).
  { destruct wait; eexists; (split; [reflexivity|]);
      cbn [endpoint gemini_model trace]; [|done].
    rewrite calls_issued_app. cbn [is_generate]. repeat split; lia. }
  destruct Hw as (w1 & Hw1 & He1 & Hg1 & Hc1).
  unfold bind at 1. rewrite Hw1. unfold bind at 1. unfold time_time at 1.
  unfold bind at 1. unfold catch.
  change (MultiAIService.gemini_service (MultiAIService.recorded self (clock w1)))
    with (MultiAIService.gemini_service self).
  destruct (AIService.is_initialized (MultiAIService.gemini_service self)) eqn:Hi.
  - unfold bind at 1.
    destruct (generate_answer_calls (MultiAIService.gemini_service self)
                question context image_context w1) as (p & w' & -> & He & Hg & Hle & Hlt').
    destruct (PyStr.truthy (answer p) && _);
      (eexists _, _, _; split; [reflexivity|]; rewrite He, Hg, He1, Hg1, <- Hc1;
       repeat split; [lia | intros; apply Hlt'; done]).
  - eexists _, _, _. split; [reflexivity|]. rewrite He1, Hg1, <- Hc1.
    repeat split; [lia | done].
Qed.

(** One request: the handler builds its own orchestrator, whose counter
    reads 0 before the call and 1 after it. *)
Lemma virtual_ta_api_fresh_counter (question image_context : string) (w : world) :
  exists v ai w',
    Views.virtual_ta_api title set_iter py_str json_dumps_ok question image_context w
    = (Ok (v, ai), w')
    /\ MultiAIService.request_count ai = 1
    /\ MultiAIService.daily_limit ai = 50
    /\ MultiAIService.min_delay ai = 5%Z
    /\ endpoint w' = endpoint w /\ gemini_model w' = gemini_model w
    /\ calls_issued (trace w) <= calls_issued (trace w')
    /\ (is_Some (gemini_model w) -> calls_issued (trace w) < calls_issued (trace w')).
Proof.
  unfold Views.virtual_ta_api, MultiAIService.__init__, AIService.__init__.
  unfold bind at 1. unfold bind at 1. unfold ret at 1. unfold bind, catch.
  set (self := MultiAIService.Build _ 0 5 0 50).
  destruct (orchestrator_records_one_call self question
              (DataScraper.search_relevant_content set_iter DataScraper.__init__ question)
              image_context w) as (p & now & w' & -> & He & Hg & Hle & Hlt).
  { cbn. lia. }
  unfold ret. eexists _, _, _. split; [reflexivity|].
  repeat split; try done.
  intros Hs. apply Hlt; cbn; [by apply bool_decide_eq_true_2 | done].
Qed.

End QuotaState.

(** The request handler builds a new [MultiAIService] for every request.
    So in a process that serves any number of requests, every request has
    its own counter, which reads 1 after the request: when the client is
    initialised each request issues at least one generation call, however
    many were issued before it. *)
Lemma handler_builds_an_orchestrator_per_request
    (title : string -> string) (set_iter : gset string -> list string)
    (py_str : pyval -> outcome string) (json_dumps_ok : pyval -> bool)
    (requests : list (string * string)) (w : world) :
  exists rs w',
    Views.serve title set_iter py_str json_dumps_ok requests w = (Ok rs, w')
    /\ length rs = length requests
    /\ Forall (fun r => MultiAIService.request_count r.2 = 1
                        /\ MultiAIService.daily_limit r.2 = 50
                        /\ MultiAIService.min_delay r.2 = 5%Z) rs
    /\ endpoint w' = endpoint w /\ gemini_model w' = gemini_model w
    /\ (is_Some (gemini_model w) ->
        calls_issued (trace w) + length requests <= calls_issued (trace w')).
Proof.
  revert w. induction requests as [|[question image_context] requests IH]; intros w.
  - exists [], w. cbn. repeat split; [constructor | intros; lia].
  - cbn [Views.serve]. unfold bind at 1.
    destruct (virtual_ta_api_fresh_counter title set_iter py_str json_dumps_ok
                question image_context w)
      as (v & ai & w1 & -> & Hc & Hd & Hm & He1 & Hg1 & Hle1 & Hlt1).
    unfold bind at 1.
    destruct (IH w1) as (rs & w' & -> & Hlen & Hall & He & Hg & Hcalls).
    exists ((v, ai) :: rs), w'. unfold ret.
    split; [done|]. split; [cbn; by rewrite Hlen|].
    split; [by constructor|].
    split; [by rewrite He|]. split; [by rewrite Hg|].
    intros Hs. specialize (Hlt1 Hs). rewrite <- Hg1 in Hs. specialize (Hcalls Hs).
    cbn [length]. lia.
Qed.


(** Two requests in a process whose client is initialised: two counters
    that read 1, and at least two generation calls. *)
Example two_requests_in_one_process :
  exists rs w',
    Views.serve PyStr.title_ascii Sample.set_iter Sample.py_str Sample.json_dumps_ok
      [("How do I submit the assignment?", ""); ("Which API key do I use?", "")]
      (Sample.world0 (Sample.always_raises "HTTP 429"))
    = (Ok rs, w')
    /\ Forall (fun r => MultiAIService.request_count r.2 = 1) rs
    /\ 2 <= calls_issued (trace w').
Proof.
  destruct (handler_builds_an_orchestrator_per_request PyStr.title_ascii Sample.set_iter
              Sample.py_str Sample.json_dumps_ok
              [("How do I submit the assignment?", ""); ("Which API key do I use?", "")]
              (Sample.world0 (Sample.always_raises "HTTP 429")))
    as (rs & w' & Hrun & _ & Hall & _ & _ & Hcalls).
  exists rs, w'. split; [exact Hrun|]. split.
  - eapply Forall_impl; [exact Hall|]. intros r Hr. exact (proj1 Hr).
  - apply Hcalls. cbn. eauto.
Defined.

(** ** The Link Extractor *)

Section Links.

Variable title : string -> string.
Variable set_iter : gset string -> list string.
Hypothesis set_iter_elements : forall X : gset string, set_iter X ≡ₚ elements X.

Lemma match_forum_url_host (s m : string) :
  Re.match_forum_url s = Some m -> PyStr.startswith Claimed.forum_host m = true.
Proof.
  unfold Re.match_forum_url.
  destruct (PyStr.strip_prefix _ s) as [r1|]; [|done].
  destruct (PyStr.span _ r1) as [slug r2].
  destruct (PyStr.is_empty slug); [done|].
  destruct r2 as [|c r3]; [done|].
  destruct (Re.is_slash c); [|done].
  destruct (PyStr.span PyStr.is_digit r3) as [d1 r4].
  destruct (PyStr.is_empty d1); [done|].
  intros [= <-].
  change Re.forum_topic_prefix with (Claimed.forum_host +:+ "/t/").
  rewrite app_assoc. apply startswith_app.
Qed.

Lemma findall_skip_host (skip : nat) (s m : string) :
  m ∈ Re.findall_skip skip s -> PyStr.startswith Claimed.forum_host m = true.
Proof.
  revert skip; induction s as [|c s IH]; intros skip; cbn [Re.findall_skip].
  - intros H. by apply elem_of_nil in H.
  - destruct skip as [|k]; [|apply IH].
    destruct (Re.match_forum_url (String c s)) as [m0|] eqn:E; [|apply IH].
    intros [->|H]%elem_of_cons; [by eapply match_forum_url_host | by eapply IH].
Qed.

Lemma findall_host (context m : string) :
  m ∈ Re.findall_forum_urls context -> PyStr.startswith Claimed.forum_host m = true.
Proof. apply findall_skip_host. Qed.

Lemma fmap_url_imap (f : nat -> string -> link) (l : list string) :
  (forall i u, url (f i u) = u) -> url <$> imap f l = l.
Proof.
  revert f; induction l as [|u l IH]; intros f Hf; [done|].
  rewrite imap_cons, fmap_cons, Hf. f_equal. apply IH. intros i v. apply Hf.
Qed.

Lemma url_label (i : nat) (u : string) : url (AIService.label title i u) = u.
Proof. unfold AIService.label. by destruct (Re.search_topic u). Qed.

Lemma set_iter_elem_of (X : gset string) (x : string) : x ∈ set_iter X <-> x ∈ X.
Proof. by rewrite (set_iter_elements X), elem_of_elements. Qed.

Lemma set_iter_NoDup (X : gset string) : NoDup (set_iter X).
Proof. rewrite (set_iter_elements X). apply NoDup_elements. Qed.

(** The URLs of the links of [_extract_links_from_context]. *)
Lemma urls_from_context (context : string) :
  url <$> MultiAIService._extract_links_from_context context
  = match Re.findall_forum_urls context with
    | [] => [forum_root]
    | urls => take 2 urls
    end.
Proof.
  unfold MultiAIService._extract_links_from_context.
  destruct (Re.findall_forum_urls context) as [|u1 [|u2 urls]]; reflexivity.
Qed.

(** The URLs of the links of [_extract_relevant_links]. *)
Lemma urls_relevant (context question : string) :
  url <$> AIService._extract_relevant_links title set_iter context question
  = match take 2 (set_iter (list_to_set (Re.findall_forum_urls context))) with
    | [] => if PyStr.any_in ["assignment"; "homework"; "submit"] (PyStr.lower question)
            then [url AIService.assignment_help] else [forum_root]
    | kept => kept
    end.
Proof.
  unfold AIService._extract_relevant_links.
  pose proof (fmap_url_imap (AIService.label title)
                (take 2 (set_iter (list_to_set (Re.findall_forum_urls context))))
                (url_label)) as Hu.
  destruct (take 2 (set_iter _)) as [|u kept] eqn:E.
  - cbn [imap]. by destruct (PyStr.any_in _ _).
  - rewrite imap_cons in *. exact Hu.
Qed.

End Links.

Section LinkClaims.

Variable title : string -> string.
Variable set_iter : gset string -> list string.
Hypothesis set_iter_elements : forall X : gset string, set_iter X ≡ₚ elements X.

(** C6, as the code has it.  Both extractors collect the matches of the
    forum-URL pattern from left to right and emit the URLs they keep as
    links, in the order kept.  [_extract_links_from_context] keeps the
    first two matches in discovery order and does not remove duplicates;
    that is the first two distinct URLs unless the first two matches are
    the same URL.  [_extract_relevant_links] removes duplicates by putting
    the matches in a set and keeps the first two of the set's iteration
    order: two distinct URLs (one if there is only one) taken from the
    matches, in an order that need not be the discovery order. *)
Theorem link_extractors_keep_two (context question : string) :
  let urls := Re.findall_forum_urls context in
  let distinct : gset string := list_to_set urls in
  let kept := take 2 (set_iter distinct) in
  url <$> MultiAIService._extract_links_from_context context
  = match urls with [] => [forum_root] | _ => take 2 urls end
  /\ (forall u1 u2 rest, urls = u1 :: u2 :: rest -> u1 <> u2 ->
        take 2 urls = Claimed.first_two_distinct context)
  /\ (length urls <= 1 -> take 2 urls = Claimed.first_two_distinct context)
  /\ (urls <> [] ->
        url <$> AIService._extract_relevant_links title set_iter context question = kept)
  /\ NoDup kept
  /\ (forall u, u ∈ kept -> u ∈ urls)
  /\ length kept = 2 `min` size distinct.
Proof.
  intros urls distinct kept.
  split; [rewrite urls_from_context; fold urls; by destruct urls|].
  split.
  { intros u1 u2 rest Hu Hne. unfold Claimed.first_two_distinct. fold urls. rewrite Hu.
    cbn [Claimed.distinct_in_order]. rewrite filter_cons, decide_True by done. done. }
  split.
  { intros Hlen. unfold Claimed.first_two_distinct. fold urls.
    destruct urls as [|u1 [|u2 rest]]; [done | done | simpl in Hlen; lia]. }
  split.
  { intros Hne. rewrite urls_relevant. fold urls distinct kept.
    destruct kept as [|k kept'] eqn:E; [|done].
    exfalso. apply Hne.
    assert (Hs : set_iter distinct = []).
    { subst kept. by destruct (set_iter distinct). }
    assert (He : elements distinct = []).
    { symmetry. apply Permutation_nil_l. rewrite <- Hs. apply set_iter_elements. }
    apply elements_empty_iff in He.
    destruct urls as [|u rest]; [done|].
    assert (u ∈ distinct) as Hin by (apply elem_of_list_to_set; left).
    rewrite He in Hin. by apply not_elem_of_empty in Hin. }
  split.
  { apply (sublist_NoDup _ (set_iter distinct)); [|apply sublist_take].
    rewrite (set_iter_elements distinct). apply NoDup_elements. }
  split.
  { intros u Hu. apply (subseteq_take 2) in Hu.
    rewrite (set_iter_elements distinct), elem_of_elements in Hu.
    by apply elem_of_list_to_set in Hu. }
  subst kept. rewrite length_take, (set_iter_elements distinct). done.
Qed.

End LinkClaims.

(** A context that names three topics, under one iteration order. *)
Lemma link_extractors_keep_two_witness :
  let context := "https://discourse.onlinedegree.iitm.ac.in/t/python-setup-issues/156001 https://discourse.onlinedegree.iitm.ac.in/t/api-rate-limiting/155876 https://discourse.onlinedegree.iitm.ac.in/t/assignment-format/155654" in
  url <$> MultiAIService._extract_links_from_context context
  = ["https://discourse.onlinedegree.iitm.ac.in/t/python-setup-issues/156001";
     "https://discourse.onlinedegree.iitm.ac.in/t/api-rate-limiting/155876"]
  /\ length (url <$> AIService._extract_relevant_links PyStr.title_ascii Sample.set_iter
                       context "How do I set up Python?") = 2.
Proof.
  intros context.
  destruct (link_extractors_keep_two PyStr.title_ascii Sample.set_iter
              (fun X => reflexivity (elements X)) context "How do I set up Python?")
    as (H1 & _ & _ & H2 & _ & _ & H3).
  cbv zeta in H2, H3. split.
  - rewrite H1. vm_compute. reflexivity.
  - rewrite H2, H3; [vm_compute; reflexivity | vm_compute; discriminate].
Defined.

(** C6 as stated fails.  In a context that gives the same topic twice and
    then another one, the first two distinct URLs are the two topics;
    [_extract_links_from_context] emits the first topic twice. *)
Lemma repeated_url_is_emitted_twice :
  let context := "https://discourse.onlinedegree.iitm.ac.in/t/python-setup-issues/156001 https://discourse.onlinedegree.iitm.ac.in/t/python-setup-issues/156001 https://discourse.onlinedegree.iitm.ac.in/t/api-rate-limiting/155876" in
  Claimed.first_two_distinct context
  = ["https://discourse.onlinedegree.iitm.ac.in/t/python-setup-issues/156001";
     "https://discourse.onlinedegree.iitm.ac.in/t/api-rate-limiting/155876"]
  /\ MultiAIService._extract_links_from_context context
     = [Link "https://discourse.onlinedegree.iitm.ac.in/t/python-setup-issues/156001"
             "Related Discussion 1";
        Link "https://discourse.onlinedegree.iitm.ac.in/t/python-setup-issues/156001"
             "Related Discussion 2"]
  /\ url <$> MultiAIService._extract_links_from_context context
     <> Claimed.first_two_distinct context.
Proof.
  split; [vm_compute; reflexivity|]. split; [vm_compute; reflexivity|].
  vm_compute. discriminate.
Qed.

(** The other extractor does remove duplicates, but the order of its links
    is that of the set: here a context in discovery order A, B comes out as
    B, A under one iteration order and as A, B under the reverse one. *)
Example set_order_decides_link_order :
  let context := "https://discourse.onlinedegree.iitm.ac.in/t/python-setup-issues/156001 https://discourse.onlinedegree.iitm.ac.in/t/api-rate-limiting/155876" in
  url <$> AIService._extract_relevant_links PyStr.title_ascii Sample.set_iter context ""
  = reverse (url <$> AIService._extract_relevant_links PyStr.title_ascii
                       Sample.set_iter_rev context "")
  /\ length (url <$> AIService._extract_relevant_links PyStr.title_ascii
                       Sample.set_iter context "") = 2.
Proof. split; vm_compute; reflexivity. Qed.

Section ForumLinks.

Variable title : string -> string.
Variable set_iter : gset string -> list string.
Hypothesis set_iter_elements : forall X : gset string, set_iter X ≡ₚ elements X.

Lemma on_forum_urls (ls : list link) :
  Forall Claimed.on_forum ls
  <-> Forall (fun u => PyStr.startswith Claimed.forum_host u = true) (url <$> ls).
Proof. by rewrite Forall_fmap. Qed.

Lemma fallback_response_links (question : string) :
  exists link_text, links (AIService._fallback_response question)
                    = [Link forum_root link_text].
Proof.
  unfold AIService._fallback_response.
  repeat match goal with
         | |- context [if PyStr.any_in ?k ?q then _ else _] => destruct (PyStr.any_in k q)
         end; by eexists.
Qed.

(** C10.  Every link that the Link Extractor ([_extract_relevant_links]),
    the category fallback ([_fallback_response]), the extractor of the
    context-aware tier ([_extract_links_from_context]) and the
    context-aware fallback ([_intelligent_fallback]) produce has a url that
    begins with "https://discourse.onlinedegree.iitm.ac.in": the URLs taken
    from the context match the forum pattern, and the links chosen by
    keyword or put in as a last resort are fixed forum addresses. *)
Theorem every_link_is_on_the_forum (context question : string) :
  Forall Claimed.on_forum (AIService._extract_relevant_links title set_iter context question)
  /\ Forall Claimed.on_forum (links (AIService._fallback_response question))
  /\ Forall Claimed.on_forum (MultiAIService._extract_links_from_context context)
  /\ Forall Claimed.on_forum (links (MultiAIService._intelligent_fallback set_iter question context)).
Proof.
  assert (Hctx : Forall Claimed.on_forum (MultiAIService._extract_links_from_context context)).
  { apply on_forum_urls. rewrite urls_from_context.
    destruct (Re.findall_forum_urls context) as [|u urls] eqn:E.
    - by repeat constructor.
    - apply Forall_forall. intros x Hx. apply (subseteq_take 2) in Hx.
      apply (findall_host context). by rewrite E. }
  split; [|split; [|split; [exact Hctx | exact Hctx]]].
  - apply on_forum_urls. rewrite urls_relevant.
    destruct (take 2 _) as [|u kept] eqn:E.
    + destruct (PyStr.any_in _ _); by repeat constructor.
    + apply Forall_forall. intros x Hx. rewrite <- E in Hx.
      apply (subseteq_take 2) in Hx.
      rewrite (set_iter_elements _), elem_of_elements in Hx.
      apply elem_of_list_to_set in Hx. by apply (findall_host context).
  - destruct (fallback_response_links question) as [link_text ->].
    by repeat constructor.
Qed.

End ForumLinks.

(** The context assembled for a question about Python setup, and a question
    with an assignment keyword in front of an empty context. *)
Lemma every_link_is_on_the_forum_witness :
  Forall Claimed.on_forum
    (AIService._extract_relevant_links PyStr.title_ascii Sample.set_iter
       (DataScraper.search_relevant_content Sample.set_iter DataScraper.__init__
          "How do I set up my Python virtual environment?")
       "How do I set up my Python virtual environment?")
  /\ Forall Claimed.on_forum
       (AIService._extract_relevant_links PyStr.title_ascii Sample.set_iter
          "" "When do I submit the homework?").
Proof.
  split.
  - exact (proj1 (every_link_is_on_the_forum PyStr.title_ascii Sample.set_iter
                    (fun X => reflexivity (elements X))
                    (DataScraper.search_relevant_content Sample.set_iter DataScraper.__init__
                       "How do I set up my Python virtual environment?")
                    "How do I set up my Python virtual environment?")).
  - exact (proj1 (every_link_is_on_the_forum PyStr.title_ascii Sample.set_iter
                    (fun X => reflexivity (elements X))
                    "" "When do I submit the homework?")).
Defined.

(** ** The two fallback tiers *)

Lemma any_in_contains (keywords : list string) (keyword s : string) :
  keyword ∈ keywords -> PyStr.contains keyword s = true ->
  PyStr.any_in keywords s = true.
Proof.
  intros Hin Hc. unfold PyStr.any_in. apply existsb_exists.
  exists keyword. split; [by apply list_elem_of_In | done].
Qed.

(** C7, as the code has it.  Each tier tests its own fixed sequence of
    keyword buckets against the lowercased question and the first bucket
    with a keyword occurring in it wins.  The category fallback has the six
    buckets AI/model, Python/setup, assignment, version control, debugging,
    generic.  The context-aware fallback has four: AI/model, Python/setup,
    assignment, generic, each with fewer keywords; it has no version-control
    and no debugging bucket.  A question in which both "python" and "api"
    occur gets the AI/model answer in both tiers. *)
Theorem fallback_tiers_first_bucket_wins
    (set_iter : gset string -> list string) (question context : string) :
  let question_lower := PyStr.lower question in
  AIService._fallback_response question
  = (let '(a, link_text) :=
       Claimed.first_match Claimed.category_buckets Claimed.category_generic
                           question_lower in
     Payload a [Link forum_root link_text])
  /\ answer (MultiAIService._intelligent_fallback set_iter question context)
     = MultiAIService.context_info set_iter question_lower context
       +:+ Claimed.first_match Claimed.context_buckets MultiAIService.generic_advice
                               question_lower
  /\ (PyStr.contains "python" question_lower = true ->
      PyStr.contains "api" question_lower = true ->
      answer (AIService._fallback_response question) = AIService.ai_model_answer
      /\ MultiAIService.canned_answer question_lower = MultiAIService.ai_model_advice).
Proof.
  intros question_lower.
  assert (Hq : (if PyStr.truthy question then PyStr.lower question else "")
               = question_lower) by (by destruct question).
  split; [|split].
  - unfold AIService._fallback_response. rewrite Hq.
    unfold Claimed.category_buckets, Claimed.category_generic.
    cbn [Claimed.first_match].
    repeat match goal with
           | |- context [if PyStr.any_in ?k ?q then _ else _] =>
               destruct (PyStr.any_in k q)
           end; reflexivity.
  - unfold MultiAIService._intelligent_fallback, MultiAIService.canned_answer.
    cbn [answer Claimed.first_match Claimed.context_buckets]. fold question_lower.
    reflexivity.
  - intros _ Hapi. unfold AIService._fallback_response, MultiAIService.canned_answer.
    rewrite Hq.
    rewrite (any_in_contains ["gpt"; "openai"; "api"; "model"; "ai"] "api")
      by (done || set_solver).
    rewrite (any_in_contains ["gpt"; "openai"; "api"; "model"] "api")
      by (done || set_solver).
    done.
Qed.

(** "python api error" (the example of the design notes). *)
Lemma fallback_tiers_first_bucket_wins_witness :
  answer (AIService._fallback_response "python api error") = AIService.ai_model_answer
  /\ MultiAIService.canned_answer (PyStr.lower "python api error")
     = MultiAIService.ai_model_advice.
Proof.
  destruct (fallback_tiers_first_bucket_wins Sample.set_iter "python api error" "")
    as (_ & _ & H).
  apply H; reflexivity.
Defined.

(** C7 as stated fails for the context-aware tier.  "How do I undo a git
    commit?" has the version-control keywords "git" and "commit" and no
    keyword of an earlier bucket: the category fallback answers from the
    version-control bucket, the context-aware fallback from the generic
    one.  The same happens with debugging keywords. *)
Lemma context_tier_has_no_version_control_bucket :
  PyStr.any_in ["git"; "version"; "control"; "github"; "commit"]
               (PyStr.lower "How do I undo a git commit?") = true
  /\ answer (AIService._fallback_response "How do I undo a git commit?")
     = AIService.git_answer
  /\ answer (MultiAIService._intelligent_fallback Sample.set_iter
               "How do I undo a git commit?" "")
     = MultiAIService.generic_advice
  /\ answer (AIService._fallback_response "My code has a problem")
     = AIService.debugging_answer
  /\ answer (MultiAIService._intelligent_fallback Sample.set_iter
               "My code has a problem" "")
     = MultiAIService.generic_advice.
Proof. repeat split; vm_compute; reflexivity. Qed.

(** ** The context-aware fallback *)

Section ContextFallback.

Variable set_iter : gset string -> list string.
Hypothesis set_iter_elements : forall X : gset string, set_iter X ≡ₚ elements X.

Lemma List_filter_bool {A} (p : A -> bool) (l : list A) :
  List.filter p l = filter (fun x => p x = true) l.
Proof.
  induction l as [|x l IH]; [done|]. simpl. rewrite filter_cons, IH.
  destruct (p x); [by rewrite decide_True | by rewrite decide_False].
Qed.

(** The test of lines 320-321 is the stated one: some question word of more
    than three characters occurs in the lowercased sentence. *)
Lemma qualifies_iff (question sentence : string) :
  (0 <? sum_ones (fun word => PyStr.contains word (PyStr.lower sentence)
                              && (3 <? String.length word))
                 (set_iter (Claimed.word_set question))) = true
  <-> Claimed.shares_long_word question sentence.
Proof.
  rewrite (sum_ones_set set_iter set_iter_elements), Nat.ltb_lt.
  unfold Claimed.shares_long_word, set_Exists. split.
  - intros Hpos. apply size_pos_elem_of in Hpos as [word Hword].
    apply elem_of_filter in Hword as [Hp Hin].
    apply andb_true_iff in Hp as [Hc Hlen]. apply Nat.ltb_lt in Hlen.
    by exists word.
  - intros (word & Hin & Hlen & Hc).
    assert (Hne : size (filter (fun x => PyStr.contains x (PyStr.lower sentence)
                                         && (3 <? String.length x) = true)
                               (Claimed.word_set question)) <> 0).
    { intros Hz. apply size_empty_iff in Hz.
      assert (word ∈ filter (fun x => PyStr.contains x (PyStr.lower sentence)
                                      && (3 <? String.length x) = true)
                            (Claimed.word_set question)) as Hw.
      { apply elem_of_filter. split; [|done].
        apply andb_true_iff. split; [done | by apply Nat.ltb_lt]. }
      rewrite Hz in Hw. by apply not_elem_of_empty in Hw. }
    lia.
Qed.

Lemma relevant_sentences_claimed (question : string) (sentences : list string) :
  MultiAIService.relevant_sentences set_iter (Claimed.word_set question) sentences
  = PyStr.strip <$> filter (Claimed.shares_long_word question) (take 10 sentences).
Proof.
  unfold MultiAIService.relevant_sentences. rewrite List_filter_bool. f_equal.
  apply list_filter_iff. intros sentence. apply qualifies_iff.
Qed.

(** C8, as the code has it.  The context is mined only when it is longer
    than 50 characters.  Then at most its first 10 sentences (the pieces
    between full stops) are examined, those in which a question word of
    more than 3 characters occurs are selected, and the first 2 of them (at
    most) are put, trimmed, in front of the canned category answer as
    "Based on course materials: ... ".  When the context has 50 characters
    or fewer, or when no sentence qualifies, the canned answer is returned
    without prefix. *)
Theorem context_fallback_prefix (question context : string) :
  let canned := MultiAIService.canned_answer (PyStr.lower question) in
  let result := answer (MultiAIService._intelligent_fallback set_iter question context) in
  result = (if 50 <? String.length context
            then Claimed.mined_prefix question context else "") +:+ canned
  /\ (String.length context <= 50 -> result = canned)
  /\ (filter (Claimed.shares_long_word question)
             (take 10 (PyStr.split_on "." context)) = [] -> result = canned).
Proof.
  intros canned result.
  assert (Hinfo : MultiAIService.context_info set_iter (PyStr.lower question) context
                  = if 50 <? String.length context
                    then Claimed.mined_prefix question context else "").
  { unfold MultiAIService.context_info.
    destruct (50 <? String.length context) eqn:Hlen.
    - assert (PyStr.truthy context = true) as ->.
      { apply Nat.ltb_lt in Hlen. destruct context; [simpl in Hlen; lia | done]. }
      cbn [andb].
      change (list_to_set (PyStr.split (PyStr.lower question)))
        with (Claimed.word_set question).
      rewrite relevant_sentences_claimed. unfold Claimed.mined_prefix.
      by destruct (PyStr.strip <$> filter _ _) as [|s1 [|s2 rest]].
    - by rewrite andb_false_r. }
  assert (Hres : result = (if 50 <? String.length context
                           then Claimed.mined_prefix question context else "") +:+ canned).
  { subst result canned. unfold MultiAIService._intelligent_fallback.
    cbn [answer]. by rewrite Hinfo. }
  split; [exact Hres|]. split.
  - intros Hshort. rewrite Hres.
    destruct (Nat.ltb_spec 50 (String.length context)); [lia | done].
  - intros Hnone. rewrite Hres. unfold Claimed.mined_prefix. rewrite Hnone.
    by destruct (50 <? String.length context).
Qed.

End ContextFallback.

(** A context of three sentences, two of which mention "python". *)
Lemma context_fallback_prefix_witness :
  answer (MultiAIService._intelligent_fallback Sample.set_iter
            "How do I install python packages?"
            "Install Python 3.8 or higher. Use a virtual environment. Then run python -m pip.")
  = "Based on course materials: Install Python 3. Then run python -m pip. "
    +:+ MultiAIService.python_advice
  /\ answer (MultiAIService._intelligent_fallback Sample.set_iter
               "How do I install python packages?" "Install python today.")
     = MultiAIService.canned_answer (PyStr.lower "How do I install python packages?").
Proof.
  split.
  - destruct (context_fallback_prefix Sample.set_iter (fun X => reflexivity (elements X))
                "How do I install python packages?"
                "Install Python 3.8 or higher. Use a virtual environment. Then run python -m pip.")
      as (H & _ & _).
    cbv zeta in H. rewrite H. vm_compute. reflexivity.
  - destruct (context_fallback_prefix Sample.set_iter (fun X => reflexivity (elements X))
                "How do I install python packages?" "Install python today.")
      as (_ & H & _).
    apply H. vm_compute. lia.
Defined.

(** C8 as stated fails on short contexts.  "Install python today." is the
    first sentence of its context and shares the word "python" with the
    question, so the stated rule prefixes it; the context has 21
    characters, and the code returns the canned answer alone. *)
Lemma short_context_is_not_mined :
  Claimed.mined_prefix "How do I install python packages?" "Install python today."
  = "Based on course materials: Install python today. "
  /\ answer (MultiAIService._intelligent_fallback Sample.set_iter
               "How do I install python packages?" "Install python today.")
     = MultiAIService.python_advice
  /\ answer (MultiAIService._intelligent_fallback Sample.set_iter
               "How do I install python packages?" "Install python today.")
     <> Claimed.mined_prefix "How do I install python packages?" "Install python today."
        +:+ MultiAIService.canned_answer (PyStr.lower "How do I install python packages?").
Proof.
  split; [vm_compute; reflexivity|]. split; [vm_compute; reflexivity|].
  vm_compute. discriminate.
Qed.

(** ** The quota state belongs to the orchestrator object *)



(** * Further properties of the code *)

(** * Further properties of the code *)

(** ** [_clean_answer_text] *)

Lemma lstrip_length (s : string) : String.length (PyStr.lstrip s) <= String.length s.
Proof.
  induction s as [|c s IH]; [done|]. cbn [PyStr.lstrip].
  destruct (PyStr.is_space c); simpl; lia.
Qed.

Lemma rstrip_length (s : string) : String.length (PyStr.rstrip s) <= String.length s.
Proof.
  induction s as [|c s IH]; [done|]. cbn [PyStr.rstrip].
  destruct (PyStr.is_space c && _); simpl; lia.
Qed.

Lemma strip_length (s : string) : String.length (PyStr.strip s) <= String.length s.
Proof.
  unfold PyStr.strip. pose proof (rstrip_length (PyStr.lstrip s)).
  pose proof (lstrip_length s). lia.
Qed.

Lemma take_sentences_length (truncated : string) (sentences : list string) :
  String.length truncated <= 1002 ->
  String.length (AIService.take_sentences truncated sentences) <= 1002.
Proof.
  revert truncated; induction sentences as [|sentence rest IH]; intros truncated Ht;
    cbn [AIService.take_sentences]; [done|].
  destruct (Nat.ltb_spec 1000 (String.length (truncated +:+ sentence))); [done|].
  apply IH. rewrite <- app_assoc, strlen_app. change (String.length ". ") with 2. lia.
Qed.

Lemma clean_answer_text_nonempty (raw_text : string) :
  AIService._clean_answer_text raw_text <> "".
Proof.
  unfold AIService._clean_answer_text.
  destruct (PyStr.truthy raw_text); cbn [negb]; [|done].
  destruct (PyStr.truthy (if _ <? _ then _ else _)) eqn:Ht; [|done].
  by apply truthy_ne in Ht.
Qed.

(** X1.  Whatever text the model returns, the cleaned answer is never empty
    and never longer than 1200 characters. *)
Theorem clean_answer_text_bounds (raw_text : string) :
  1 <= String.length (AIService._clean_answer_text raw_text) <= 1200.
Proof.
  unfold AIService._clean_answer_text.
  destruct (PyStr.truthy raw_text); cbn [negb]; [|cbn; lia].
  set (cleaned := Re.collapse_spaces (PyStr.strip raw_text)).
  destruct (Nat.ltb_spec 1200 (String.length cleaned)) as [Hlong|Hshort].
  - pose proof (strip_length (AIService.take_sentences "" (PyStr.split_on ". " cleaned))).
    pose proof (take_sentences_length "" (PyStr.split_on ". " cleaned)) as Hs.
    cbn [String.length] in Hs.
    destruct (PyStr.truthy _) eqn:Ht; [apply truthy_length in Ht; lia | cbn; lia].
  - destruct (PyStr.truthy cleaned) eqn:Ht; [apply truthy_length in Ht; lia | cbn; lia].
Qed.

(** X2.  A long answer is cut at sentence ends, and a first sentence of more
    than 1000 characters leaves nothing: when the cleaned text is longer
    than 1200 characters and its first piece before ". " is longer than
    1000, the whole answer is replaced by the fixed apology. *)
Theorem clean_answer_text_long_first_sentence
    (raw_text first : string) (rest : list string) :
  PyStr.truthy raw_text = true ->
  1200 < String.length (Re.collapse_spaces (PyStr.strip raw_text)) ->
  PyStr.split_on ". " (Re.collapse_spaces (PyStr.strip raw_text)) = first :: rest ->
  1000 < String.length first ->
  AIService._clean_answer_text raw_text = AIService.no_response.
Proof.
  intros Ht Hlong Hsplit Hfirst. unfold AIService._clean_answer_text.
  rewrite Ht. cbn [negb]. apply Nat.ltb_lt in Hlong. rewrite Hlong, Hsplit.
  cbn [AIService.take_sentences].
  change ("" +:+ first) with first. apply Nat.ltb_lt in Hfirst. rewrite Hfirst.
  reflexivity.
Qed.

(** 1300 letters without a full stop. *)
Lemma clean_answer_text_long_first_sentence_witness :
  AIService._clean_answer_text (PyStr.repeat "x" 1300) = AIService.no_response.
Proof.
  apply (clean_answer_text_long_first_sentence (PyStr.repeat "x" 1300)
           (PyStr.repeat "x" 1300) []).
  - reflexivity.
  - apply Nat.ltb_lt. vm_compute. reflexivity.
  - vm_compute. reflexivity.
  - apply Nat.ltb_lt. vm_compute. reflexivity.
Defined.


(** ** The retry loop for any number of attempts *)

Lemma sleeps_made_app (t : list event) (e : event) :
  Obs.sleeps_made (t ++ [e]) = Obs.sleeps_made t + (if Obs.is_sleep e then 1 else 0).
Proof.
  unfold Obs.sleeps_made. rewrite List.filter_app, length_app. simpl.
  by destruct (Obs.is_sleep e).
Qed.

Lemma retry_loop_bounds (prompt : string) (max_retries : nat) (attempts : list nat)
    (w : world) :
  exists v w',
    AIService.retry_loop prompt max_retries attempts w = (Ok v, w')
    /\ endpoint w' = endpoint w
    /\ calls_issued (trace w') <= calls_issued (trace w) + length attempts
    /\ Obs.sleeps_made (trace w')
       <= Obs.sleeps_made (trace w)
          + length (List.filter (fun a => a <? max_retries - 1) attempts)
    /\ exists new, trace w' = trace w ++ new
                   /\ Forall (fun e => e = EvGenerate prompt \/ e = EvSleep 1%Z) new.
Proof.
  revert w; induction attempts as [|a attempts IH]; intros w.
  - exists None, w. cbn. repeat split; try lia.
    exists []. by rewrite app_nil_r.
  - cbn [AIService.retry_loop length List.filter]. unfold bind.
    rewrite attempt_once_eq.
    assert (Hnew : forall w1 extra,
              endpoint w1 = endpoint w ->
              trace w1 = trace w ++ EvGenerate prompt :: extra ->
              (extra = [] \/ (extra = [EvSleep 1%Z] /\ (a <? max_retries - 1) = true)) ->
              forall w' : world,
              (w' = w1 \/
               (endpoint w' = endpoint w1
                /\ calls_issued (trace w') <= calls_issued (trace w1) + length attempts
                /\ Obs.sleeps_made (trace w')
                   <= Obs.sleeps_made (trace w1)
                      + length (List.filter (fun a => a <? max_retries - 1) attempts)
                /\ exists new, trace w' = trace w1 ++ new
                     /\ Forall (fun e => e = EvGenerate prompt \/ e = EvSleep 1%Z) new)) ->
              endpoint w' = endpoint w
              /\ calls_issued (trace w') <= calls_issued (trace w) + S (length attempts)
              /\ Obs.sleeps_made (trace w')
                 <= Obs.sleeps_made (trace w)
                    + length (if a <? max_retries - 1
                              then a :: List.filter (fun a => a <? max_retries - 1) attempts
                              else List.filter (fun a => a <? max_retries - 1) attempts)
              /\ exists new, trace w' = trace w ++ new
                   /\ Forall (fun e => e = EvGenerate prompt \/ e = EvSleep 1%Z) new).
    { intros w1 extra He Ht Hextra w' Hw'.
      assert (Hc1 : calls_issued (trace w1) = calls_issued (trace w) + 1).
      { rewrite Ht. destruct Hextra as [->|[-> _]].
        - by rewrite calls_issued_app.
        - change (trace w ++ [EvGenerate prompt; EvSleep 1%Z])
            with (trace w ++ [EvGenerate prompt] ++ [EvSleep 1%Z]).
          rewrite (assoc_L (++)), !calls_issued_app. cbn [is_generate]. lia. }
      assert (Hs1 : Obs.sleeps_made (trace w1)
                    = Obs.sleeps_made (trace w)
                      + (if a <? max_retries - 1 then length extra else 0)
                /\ length extra <= (if a <? max_retries - 1 then 1 else 0)).
      { rewrite Ht. destruct Hextra as [->|[-> Ha]].
        - rewrite sleeps_made_app. cbn [Obs.is_sleep length].
          destruct (a <? max_retries - 1); split; lia.
        - change (trace w ++ [EvGenerate prompt; EvSleep 1%Z])
            with (trace w ++ [EvGenerate prompt] ++ [EvSleep 1%Z]).
          rewrite (assoc_L (++)), !sleeps_made_app, Ha. cbn [Obs.is_sleep length].
          split; lia. }
      destruct Hs1 as [Hs1 Hs2].
      assert (Hf : Forall (fun e => e = EvGenerate prompt \/ e = EvSleep 1%Z)
                          (EvGenerate prompt :: extra)).
      { destruct Hextra as [->|[-> _]];
          repeat (apply Forall_cons_2; [auto|]); apply Forall_nil_2. }
      destruct Hw' as [->|(He' & Hc' & Hs' & new & Hn & Hfn)].
      - split; [done|]. split; [lia|]. split.
        + destruct (a <? max_retries - 1); cbn [length]; lia.
        + by eexists.
      - split; [congruence|]. split; [lia|]. split.
        + destruct (a <? max_retries - 1); cbn [length] in *; lia.
        + exists ((EvGenerate prompt :: extra) ++ new).
          split; [by rewrite Hn, Ht, <- (assoc_L (++))|]. by apply Forall_app. }
    destruct (endpoint w (calls_issued (trace w)) prompt) as [e|text].
    + destruct (AIService.is_quota_error (PyStr.lower e)).
      * eexists _, _. split; [reflexivity|].
        apply (Hnew (log (EvGenerate prompt) w) []); [done | done | by left | by left].
      * destruct (a <? max_retries - 1) eqn:Ha.
        -- destruct (IH (log (EvSleep 1)
                         (World (endpoint w) (gemini_model w) (clock w + 1)%Z
                                (trace w ++ [EvGenerate prompt]))))
             as (v & w' & -> & H1 & H2 & H3 & H4).
           eexists _, _. split; [reflexivity|].
           pose proof (Hnew (log (EvSleep 1)
                                 (World (endpoint w) (gemini_model w) (clock w + 1)%Z
                                        (trace w ++ [EvGenerate prompt])))
                            [EvSleep 1%Z] eq_refl) as Hn.
           apply Hn; [by cbn; rewrite <- (assoc_L (++)) | by right |].
           right. done.
        -- destruct (IH (log (EvGenerate prompt) w)) as (v & w' & -> & H1 & H2 & H3 & H4).
           eexists _, _. split; [reflexivity|].
           pose proof (Hnew (log (EvGenerate prompt) w) [] eq_refl) as Hn.
           apply Hn; [done | by left |]. right. done.
    + destruct (PyStr.truthy text).
      * eexists _, _. split; [reflexivity|].
        apply (Hnew (log (EvGenerate prompt) w) []); [done | done | by left | by left].
      * destruct (IH (log (EvGenerate prompt) w)) as (v & w' & -> & H1 & H2 & H3 & H4).
        eexists _, _. split; [reflexivity|].
        apply (Hnew (log (EvGenerate prompt) w) []); [done | done | by left |].
        right. done.
Qed.

Lemma count_below_seq (k n : nat) :
  length (List.filter (fun a => a <? k) (seq 0 n)) = k `min` n.
Proof.
  induction n as [|n IH]; [by rewrite Nat.min_0_r|].
  rewrite seq_S, List.filter_app, length_app, IH. cbn [List.filter Nat.add].
  destruct (Nat.ltb_spec n k); cbn [length]; lia.
Qed.

(** X3.  For any number of attempts, [_generate_with_retry] returns without
    raising, calls the endpoint at most [max_retries] times, always with the
    same prompt, and sleeps at most [max_retries - 1] times, one second
    each: it never sleeps after its last attempt.  With no attempt allowed
    it returns [None] at once. *)
Theorem generate_with_retry_bounds (prompt : string) (max_retries : nat) (w : world) :
  exists v w',
    AIService._generate_with_retry prompt max_retries w = (Ok v, w')
    /\ calls_issued (trace w') <= calls_issued (trace w) + max_retries
    /\ Obs.sleeps_made (trace w') <= Obs.sleeps_made (trace w) + (max_retries - 1)
    /\ (exists new, trace w' = trace w ++ new
          /\ Forall (fun e => e = EvGenerate prompt \/ e = EvSleep 1%Z) new)
    /\ (max_retries = 0 -> v = None /\ w' = w).
Proof.
  unfold AIService._generate_with_retry.
  destruct (retry_loop_bounds prompt max_retries (seq 0 max_retries) w)
    as (v & w' & Hrun & _ & Hc & Hs & Hnew).
  exists v, w'. rewrite length_seq in Hc. rewrite count_below_seq in Hs.
  split; [done|]. split; [done|]. split; [lia|]. split; [done|].
  intros ->. cbn in Hrun. by injection Hrun as <- <-.
Qed.

Lemma generate_with_retry_bounds_witness :
  exists v w',
    AIService._generate_with_retry "p" 0 (Sample.world0 (Sample.always_replies "Hi"))
    = (Ok v, w')
    /\ v = None /\ w' = Sample.world0 (Sample.always_replies "Hi").
Proof.
  destruct (generate_with_retry_bounds "p" 0 (Sample.world0 (Sample.always_replies "Hi")))
    as (v & w' & H & _ & _ & _ & H0).
  exists v, w'. split; [exact H|]. by apply H0.
Defined.


(** ** What the services hand back *)

Lemma fallback_answer_cases (question : string) :
  answer (AIService._fallback_response question)
  ∈ [AIService.ai_model_answer; AIService.python_setup_answer;
     AIService.assignment_answer; AIService.git_answer;
     AIService.debugging_answer; AIService.generic_answer].
Proof.
  unfold AIService._fallback_response.
  repeat match goal with
         | |- context [if PyStr.any_in ?k ?q then _ else _] => destruct (PyStr.any_in k q)
         end; cbn [answer]; set_solver.
Qed.

Lemma canned_answer_cases (question_lower : string) :
  MultiAIService.canned_answer question_lower
  ∈ [MultiAIService.ai_model_advice; MultiAIService.python_advice;
     MultiAIService.assignment_advice; MultiAIService.generic_advice].
Proof.
  unfold MultiAIService.canned_answer.
  repeat match goal with
         | |- context [if PyStr.any_in ?k ?q then _ else _] => destruct (PyStr.any_in k q)
         end; set_solver.
Qed.

Lemma app_nonempty_r (s t : string) : t <> "" -> s +:+ t <> "".
Proof. intros Ht. destruct s; [done|]. discriminate. Qed.

Lemma fallback_response_payload (question : string) :
  Obs.service_payload (AIService._fallback_response question).
Proof.
  split; [|split].
  - pose proof (fallback_answer_cases question) as H.
    repeat (apply elem_of_cons in H as [->|H]); try discriminate.
    by apply elem_of_nil in H.
  - destruct (fallback_response_links question) as [t ->]. cbn. lia.
  - unfold AIService._fallback_response.
    repeat match goal with
           | |- context [if PyStr.any_in ?k ?q then _ else _] => destruct (PyStr.any_in k q)
           end; cbn [links]; repeat constructor; done.
Qed.

Lemma app_nonempty_l (s t : string) : s <> "" -> s +:+ t <> "".
Proof. intros Hs. by destruct s. Qed.

Lemma Forall_imap_elem {A B} (P : B -> Prop) (f : nat -> A -> B) (l : list A) :
  (forall i x, x ∈ l -> P (f i x)) -> Forall P (imap f l).
Proof.
  intros H. apply Forall_forall. intros y Hy.
  apply elem_of_lookup_imap in Hy as (i & x & -> & Hx).
  apply H. by eapply list_elem_of_lookup_2.
Qed.

Lemma links_from_context_payload (context : string) :
  1 <= length (MultiAIService._extract_links_from_context context) <= 2
  /\ Forall (fun l => PyStr.startswith Claimed.forum_host (url l) = true /\ text l <> "")
            (MultiAIService._extract_links_from_context context).
Proof.
  unfold MultiAIService._extract_links_from_context.
  set (f := fun (i : nat) (url : string) =>
              Link url ("Related Discussion " +:+ PyStr.of_nat (i + 1))).
  set (kept := take 2 (Re.findall_forum_urls context)).
  assert (Hlen : length (imap f kept) <= 2).
  { rewrite length_imap. subst kept. rewrite length_take. lia. }
  assert (Hall : Forall (fun l => PyStr.startswith Claimed.forum_host (url l) = true
                                  /\ text l <> "") (imap f kept)).
  { apply Forall_imap_elem. intros i u Hu. subst kept f. cbn [url text]. split.
    - apply (subseteq_take 2) in Hu. by apply (findall_host context).
    - by apply app_nonempty_l. }
  destruct (imap f kept) as [|l ls].
  - split; [cbn; lia|]. apply Forall_cons_2; [by split | apply Forall_nil_2].
  - split; [cbn [length] in *; lia | exact Hall].
Qed.

Section ClientRuns.

Variable title : string -> string.
Variable set_iter : gset string -> list string.

(** X4.  A reply made of white space only is not retried: the loop returns
    the empty string after that one call, and [AIService.generate_answer]
    takes it for a failure and answers with the category fallback. *)
Theorem blank_reply_is_not_retried
    (self : AIService.t) (question context image_context text : string) (w : world) :
  let prompt := AIService._create_prompt question context image_context in
  AIService.is_initialized self = true -> is_Some (AIService.model self) ->
  endpoint w (calls_issued (trace w)) prompt = Replied text ->
  PyStr.truthy text = true -> PyStr.strip text = "" ->
  AIService._generate_with_retry prompt 2 w = (Ok (Some ""), log (EvGenerate prompt) w)
  /\ AIService.generate_answer title set_iter self question context image_context w
     = (Ok (AIService._fallback_response question), log (EvGenerate prompt) w).
Proof.
  intros prompt Hinit Hmodel Hreply Htruthy Hstrip.
  assert (Hrun : AIService._generate_with_retry prompt 2 w
                 = (Ok (Some ""), log (EvGenerate prompt) w)).
  { rewrite generate_with_retry_eq. cbv zeta. by rewrite Hreply, Htruthy, Hstrip. }
  split; [exact Hrun|].
  unfold AIService.generate_answer, catch, bind.
  rewrite Hinit, (bool_decide_eq_true_2 _ Hmodel). cbn [negb orb].
  fold prompt. by rewrite Hrun.
Qed.

Lemma label_text_nonempty (i : nat) (u : string) :
  text (AIService.label title i u) <> "".
Proof.
  unfold AIService.label.
  destruct (Re.search_topic u); cbn [text]; [by apply app_nonempty_r|].
  discriminate.
Qed.

(** Where the payload of the Generation Client comes from. *)
Lemma generate_answer_origin (self : AIService.t)
    (question context image_context : string) (w : world) :
  exists p w',
    AIService.generate_answer title set_iter self question context image_context w
    = (Ok p, w')
    /\ (p = AIService._fallback_response question
        \/ exists text, p = AIService._process_ai_response title set_iter text context question).
Proof.
  unfold AIService.generate_answer, catch.
  destruct (negb (AIService.is_initialized self) || _); [eexists _, _; eauto|].
  unfold bind, AIService._generate_with_retry.
  destruct (retry_loop_returns
              (AIService._create_prompt question context image_context) 2 (seq 0 2) w)
    as (v & w' & ->).
  destruct v as [text|]; [|eexists _, _; eauto].
  destruct (PyStr.truthy text); eexists _, _; eauto.
Qed.

End ClientRuns.

Section ServicePayloads.

Variable title : string -> string.
Variable set_iter : gset string -> list string.
Hypothesis set_iter_elements : forall X : gset string, set_iter X ≡ₚ elements X.

Lemma intelligent_fallback_payload (question context : string) :
  Obs.service_payload (MultiAIService._intelligent_fallback set_iter question context).
Proof.
  unfold MultiAIService._intelligent_fallback.
  split; [|exact (links_from_context_payload context)].
  cbn [answer]. apply app_nonempty_r.
  pose proof (canned_answer_cases (PyStr.lower question)) as H.
  repeat (apply elem_of_cons in H as [->|H]); try discriminate.
  by apply elem_of_nil in H.
Qed.

Lemma relevant_links_payload (context question : string) :
  1 <= length (AIService._extract_relevant_links title set_iter context question) <= 2
  /\ Forall (fun l => PyStr.startswith Claimed.forum_host (url l) = true /\ text l <> "")
            (AIService._extract_relevant_links title set_iter context question).
Proof.
  unfold AIService._extract_relevant_links.
  set (kept := take 2 (set_iter (list_to_set (Re.findall_forum_urls context)))).
  assert (Hlen : length kept <= 2) by (subst kept; rewrite length_take; lia).
  assert (Hhost : forall u, u ∈ kept -> PyStr.startswith Claimed.forum_host u = true).
  { intros u Hu. subst kept. apply (subseteq_take 2) in Hu.
    rewrite (set_iter_elements _), elem_of_elements in Hu.
    apply elem_of_list_to_set in Hu. by apply (findall_host context). }
  destruct (imap (AIService.label title) kept) as [|l ls] eqn:E.
  - destruct (PyStr.any_in _ _); (split; [cbn; lia | by repeat constructor]).
  - rewrite <- E. rewrite length_imap. split.
    + assert (length (imap (AIService.label title) kept) = S (length ls)) as Hl
        by (by rewrite E).
      rewrite length_imap in Hl. lia.
    + apply Forall_forall. intros x Hx.
      apply elem_of_lookup_imap in Hx as (i & u & -> & Hu).
      split; [|apply label_text_nonempty].
      rewrite url_label. apply Hhost. by eapply list_elem_of_lookup_2.
Qed.

Lemma process_ai_response_payload (ai_response context question : string) :
  Obs.service_payload
    (AIService._process_ai_response title set_iter ai_response context question).
Proof.
  unfold AIService._process_ai_response. split.
  - cbn [answer]. apply clean_answer_text_nonempty.
  - exact (relevant_links_payload context question).
Qed.

(** X5.  Every payload that comes out of the Generation Client or of the
    orchestrator, by whichever path (model answer, category fallback,
    context-aware fallback, daily limit reached), has a non-empty answer
    and one or two links, each with a forum address and a non-empty label;
    and neither call raises. *)
Theorem service_payloads_are_well_formed
    (client : AIService.t) (self : MultiAIService.t)
    (question context image_context : string) (w : world) :
  (exists p w',
     AIService.generate_answer title set_iter client question context image_context w
     = (Ok p, w')
     /\ Obs.service_payload p)
  /\ (exists p self' w',
        MultiAIService.generate_answer title set_iter self question context image_context w
        = (Ok (p, self'), w')
        /\ Obs.service_payload p).
Proof.
  assert (Hclient : forall c w0, exists p w',
            AIService.generate_answer title set_iter c question context image_context w0
            = (Ok p, w')
            /\ Obs.service_payload p).
  { intros c w0.
    destruct (generate_answer_origin title set_iter c question context image_context w0)
      as (p & w' & Hrun & [->|[text ->]]); eexists _, w'; (split; [exact Hrun|]).
    - apply fallback_response_payload.
    - apply process_ai_response_payload. }
  split; [apply Hclient|].
  unfold MultiAIService.generate_answer.
  destruct (MultiAIService.daily_limit self <=? MultiAIService.request_count self).
  { eexists _, _, _. split; [reflexivity|]. apply intelligent_fallback_payload. }
  unfold bind at 1. unfold time_time at 1. unfold bind at 1.
  set (step := if (_ <? _)%Z then _ else _).
  assert (Hstep : exists w1, step w = (Ok tt, w1)).
  { subst step. destruct (_ <? _)%Z; by eexists. }
  destruct Hstep as [w1 ->].
  unfold bind at 1. unfold time_time at 1. unfold bind at 1. unfold catch.
  destruct (AIService.is_initialized _).
  - unfold bind at 1.
    destruct (Hclient (MultiAIService.gemini_service
                         (MultiAIService.recorded self (clock w1))) w1)
      as (p & w' & -> & Hp).
    destruct (PyStr.truthy (answer p) && _).
    + eexists _, _, _. split; [reflexivity | exact Hp].
    + eexists _, _, _. split; [reflexivity|]. apply intelligent_fallback_payload.
  - eexists _, _, _. split; [reflexivity|]. apply intelligent_fallback_payload.
Qed.

End ServicePayloads.

Lemma service_payloads_are_well_formed_witness :
  exists p self' w',
    MultiAIService.generate_answer PyStr.title_ascii Sample.set_iter
      (MultiAIService.Build (AIService.Build (Some "m") true) 0 5 0 50)
      "How do I set up Python?"
      "See https://discourse.onlinedegree.iitm.ac.in/t/python-setup-issues/156001" ""
      (Sample.world0 (Sample.always_replies "Use a virtual environment."))
    = (Ok (p, self'), w')
    /\ Obs.service_payload p.
Proof.
  exact (proj2 (service_payloads_are_well_formed PyStr.title_ascii Sample.set_iter
                  (fun X => reflexivity (elements X))
                  (AIService.Build (Some "m") true)
                  (MultiAIService.Build (AIService.Build (Some "m") true) 0 5 0 50)
                  "How do I set up Python?"
                  "See https://discourse.onlinedegree.iitm.ac.in/t/python-setup-issues/156001" ""
                  (Sample.world0 (Sample.always_replies "Use a virtual environment.")))).
Defined.

Lemma blank_reply_is_not_retried_witness :
  AIService.generate_answer PyStr.title_ascii Sample.set_iter
    (AIService.Build (Some "m") true) "What is pandas?" "" ""
    (Sample.world0 (Sample.always_replies "   "))
  = (Ok (AIService._fallback_response "What is pandas?"),
     log (EvGenerate (AIService._create_prompt "What is pandas?" "" ""))
         (Sample.world0 (Sample.always_replies "   "))).
Proof.
  apply (blank_reply_is_not_retried PyStr.title_ascii Sample.set_iter
           (AIService.Build (Some "m") true) "What is pandas?" "" "" "   "
           (Sample.world0 (Sample.always_replies "   ")));
    try reflexivity.
  cbn. eauto.
Defined.


(** ** Which fallback the orchestrator uses *)

Section OrchestratorPaths.

Variable title : string -> string.
Variable set_iter : gset string -> list string.

Lemma after_wait_same (self : MultiAIService.t) (w : world) :
  endpoint (Obs.after_wait self w) = endpoint w
  /\ gemini_model (Obs.after_wait self w) = gemini_model w
  /\ calls_issued (trace (Obs.after_wait self w)) = calls_issued (trace w).
Proof.
  unfold Obs.after_wait. destruct (_ <? _)%Z; [|done].
  cbn [endpoint gemini_model trace]. rewrite calls_issued_app. cbn [is_generate].
  repeat split; lia.
Qed.

(** A call under the limit, step by step. *)
Lemma orchestrator_under_limit (self : MultiAIService.t)
    (question context image_context : string) (w : world) :
  MultiAIService.request_count self < MultiAIService.daily_limit self ->
  MultiAIService.generate_answer title set_iter self question context image_context w
  = let w1 := Obs.after_wait self w in
    let self' := MultiAIService.recorded self (clock w1) in
    let fallback := MultiAIService._intelligent_fallback set_iter question context in
    if AIService.is_initialized (MultiAIService.gemini_service self) then
      match AIService.generate_answer title set_iter (MultiAIService.gemini_service self)
              question context image_context w1 with
      | (Ok response, w2) =>
          if PyStr.truthy (answer response)
             && negb (PyStr.contains "currently unable to process"
                                     (PyStr.lower (answer response)))
          then (Ok (response, self'), w2)
          else (Ok (fallback, self'), w2)
      | (Exn _, w2) => (Ok (fallback, self'), w2)
      end
    else (Ok (fallback, self'), w1).
Proof.
  intros Hlt. unfold MultiAIService.generate_answer.
  apply Nat.leb_gt in Hlt. rewrite Hlt.
  unfold bind at 1. unfold time_time at 1. unfold bind at 1.
  assert (Hw : (if (clock w - MultiAIService.last_request_time self
                    <? MultiAIService.min_delay self)%Z
                then sleep (MultiAIService.min_delay self
                            - (clock w - MultiAIService.last_request_time self))%Z
                else ret tt) w = (Ok tt, Obs.after_wait self w)).
  { unfold Obs.after_wait. by destruct (_ <? _)%Z. }
  rewrite Hw. cbv zeta.
  unfold bind at 1. unfold time_time at 1. unfold bind at 1. unfold catch.
  change (MultiAIService.gemini_service
            (MultiAIService.recorded self (clock (Obs.after_wait self w))))
    with (MultiAIService.gemini_service self).
  destruct (AIService.is_initialized (MultiAIService.gemini_service self)); [|done].
  unfold bind at 1.
  destruct (AIService.generate_answer _ _ _ _ _ _ _) as [[response|e] w2]; [|done].
  by destruct (PyStr.truthy (answer response) && _).
Qed.

Lemma fallback_response_not_flagged (question : string) :
  PyStr.truthy (answer (AIService._fallback_response question))
  && negb (PyStr.contains "currently unable to process"
             (PyStr.lower (answer (AIService._fallback_response question)))) = true.
Proof.
  pose proof (fallback_answer_cases question) as H.
  repeat (apply elem_of_cons in H as [->|H]); try (vm_compute; reflexivity).
  by apply elem_of_nil in H.
Qed.

(** X6.  When the client is initialised and the generation call fails with
    a quota error, the orchestrator hands back the answer of the client
    unchanged, and that answer is the category fallback of
    [_fallback_response], not the context-aware fallback: the test for
    "currently unable to process" matches none of the canned answers.  The
    request is counted and exactly one call is issued. *)
Theorem orchestrator_quota_error_gives_category_fallback
    (self : MultiAIService.t) (question context image_context e : string) (w : world) :
  let prompt := AIService._create_prompt question context image_context in
  MultiAIService.request_count self < MultiAIService.daily_limit self ->
  AIService.is_initialized (MultiAIService.gemini_service self) = true ->
  is_Some (AIService.model (MultiAIService.gemini_service self)) ->
  endpoint w (calls_issued (trace w)) prompt = Raised e ->
  AIService.is_quota_error (PyStr.lower e) = true ->
  exists w',
    MultiAIService.generate_answer title set_iter self question context image_context w
    = (Ok (AIService._fallback_response question,
           MultiAIService.recorded self (clock (Obs.after_wait self w))), w')
    /\ calls_issued (trace w') = calls_issued (trace w) + 1.
Proof.
  intros prompt Hlt Hinit Hmodel Hraise Hquota.
  rewrite (orchestrator_under_limit _ _ _ _ _ Hlt). cbv zeta. rewrite Hinit.
  destruct (after_wait_same self w) as (He & _ & Hc).
  assert (Hclient :
            AIService.generate_answer title set_iter (MultiAIService.gemini_service self)
              question context image_context (Obs.after_wait self w)
            = (Ok (AIService._fallback_response question),
               log (EvGenerate prompt) (Obs.after_wait self w))).
  { unfold AIService.generate_answer, catch, bind.
    rewrite Hinit, (bool_decide_eq_true_2 _ Hmodel). cbn [negb orb]. fold prompt.
    rewrite generate_with_retry_eq. cbv zeta. by rewrite He, Hc, Hraise, Hquota. }
  rewrite Hclient, fallback_response_not_flagged.
  eexists. split; [reflexivity|].
  cbn [log trace]. rewrite calls_issued_app, Hc. done.
Qed.

(** X7.  When the client is not initialised, a call under the limit issues
    no generation call and returns the context-aware fallback, yet it is
    recorded like any other: the counter goes up by one. *)
Theorem uninitialised_client_still_counts
    (self : MultiAIService.t) (question context image_context : string) (w : world) :
  MultiAIService.request_count self < MultiAIService.daily_limit self ->
  AIService.is_initialized (MultiAIService.gemini_service self) = false ->
  exists self' w',
    MultiAIService.generate_answer title set_iter self question context image_context w
    = (Ok (MultiAIService._intelligent_fallback set_iter question context, self'), w')
    /\ MultiAIService.request_count self' = MultiAIService.request_count self + 1
    /\ calls_issued (trace w') = calls_issued (trace w).
Proof.
  intros Hlt Hinit.
  rewrite (orchestrator_under_limit _ _ _ _ _ Hlt). cbv zeta. rewrite Hinit.
  eexists _, _. split; [reflexivity|]. split; [done|].
  apply after_wait_same.
Qed.

End OrchestratorPaths.

Lemma orchestrator_quota_error_gives_category_fallback_witness :
  exists self' w',
    MultiAIService.generate_answer PyStr.title_ascii Sample.set_iter
      (MultiAIService.Build (AIService.Build (Some "m") true) 0 5 0 50)
      "What is pandas?" "" "" (Sample.world0 (Sample.always_raises "429 quota exceeded"))
    = (Ok (AIService._fallback_response "What is pandas?", self'), w')
    /\ calls_issued (trace w') = 1.
Proof.
  destruct (orchestrator_quota_error_gives_category_fallback
              PyStr.title_ascii Sample.set_iter
              (MultiAIService.Build (AIService.Build (Some "m") true) 0 5 0 50)
              "What is pandas?" "" "" "429 quota exceeded"
              (Sample.world0 (Sample.always_raises "429 quota exceeded")))
    as (w' & Hrun & Hc); try reflexivity.
  - cbn. lia.
  - cbn. eauto.
  - eexists _, w'. split; [exact Hrun | exact Hc].
Defined.

Lemma uninitialised_client_still_counts_witness :
  exists self' w',
    MultiAIService.generate_answer PyStr.title_ascii Sample.set_iter
      (MultiAIService.Build (AIService.Build None false) 0 5 0 50)
      "What is pandas?" "" "" (Sample.world0 (Sample.always_replies "A library."))
    = (Ok (MultiAIService._intelligent_fallback Sample.set_iter "What is pandas?" "",
           self'), w')
    /\ MultiAIService.request_count self' = 1
    /\ calls_issued (trace w') = 0.
Proof.
  apply (uninitialised_client_still_counts PyStr.title_ascii Sample.set_iter
           (MultiAIService.Build (AIService.Build None false) 0 5 0 50)
           "What is pandas?" "" "" (Sample.world0 (Sample.always_replies "A library."))).
  - cbn. lia.
  - reflexivity.
Defined.


(** ** What the forum-URL pattern matches *)

Lemma strip_prefix_app (p s r : string) :
  PyStr.strip_prefix p s = Some r -> s = p +:+ r.
Proof.
  revert s; induction p as [|a p IH]; intros s; cbn [PyStr.strip_prefix].
  - by intros [= ->].
  - destruct s as [|b s]; [done|]. destruct (ascii_dec a b) as [->|]; [|done].
    intros H. apply IH in H as ->. done.
Qed.

Lemma strip_prefix_of_app (p r : string) : PyStr.strip_prefix p (p +:+ r) = Some r.
Proof.
  induction p as [|a p IH]; [done|].
  change (String a p +:+ r) with (String a (p +:+ r)). cbn [PyStr.strip_prefix].
  destruct (ascii_dec a a); [done | congruence].
Qed.

Lemma span_spec (p : ascii -> bool) (s a b : string) :
  PyStr.span p s = (a, b) ->
  s = a +:+ b /\ Obs.all_chars p a = true
  /\ match b with EmptyString => True | String c _ => p c = false end.
Proof.
  revert a b; induction s as [|c s IH]; intros a b; cbn [PyStr.span].
  - by intros [= <- <-].
  - destruct (p c) eqn:Hc.
    + destruct (PyStr.span p s) as [a' b']. intros [= <- <-].
      destruct (IH a' b' eq_refl) as (-> & Ha & Hb).
      split; [done|]. split; [|done]. cbn [Obs.all_chars]. by rewrite Hc.
    + intros [= <- <-]. by rewrite Hc.
Qed.

Lemma span_of_app (p : ascii -> bool) (a b : string) :
  Obs.all_chars p a = true ->
  match b with EmptyString => True | String c _ => p c = false end ->
  PyStr.span p (a +:+ b) = (a, b).
Proof.
  intros Ha Hb. induction a as [|c a IH].
  - change ("" +:+ b) with b. destruct b as [|c b]; [done|].
    cbn [PyStr.span]. by rewrite Hb.
  - cbn [Obs.all_chars] in Ha. apply andb_true_iff in Ha as [Hc Ha].
    change (String c a +:+ b) with (String c (a +:+ b)). cbn [PyStr.span].
    by rewrite Hc, (IH Ha).
Qed.

Lemma all_chars_impl (p q : ascii -> bool) (s : string) :
  (forall c, p c = true -> q c = true) ->
  Obs.all_chars p s = true -> Obs.all_chars q s = true.
Proof.
  intros Hpq. induction s as [|c s IH]; [done|]. cbn [Obs.all_chars].
  intros [Hc Hs]%andb_true_iff. by rewrite (Hpq c Hc), (IH Hs).
Qed.

(** The shape of a match of the forum-URL pattern: the fixed prefix, a
    non-empty slug without slash or white space, a slash and the rest; and
    the match is a prefix of the text it was found in. *)
Lemma match_forum_url_shape (s m : string) :
  Re.match_forum_url s = Some m ->
  exists slug rest,
    m = Re.forum_topic_prefix +:+ slug +:+ "/" +:+ rest
    /\ slug <> ""
    /\ Obs.all_chars (fun c => negb (Re.is_slash c || PyStr.is_space c)) slug = true
    /\ PyStr.startswith m s = true.
Proof.
  unfold Re.match_forum_url.
  destruct (PyStr.strip_prefix _ s) as [r1|] eqn:E1; [|done].
  apply strip_prefix_app in E1 as ->.
  destruct (PyStr.span _ r1) as [slug r2] eqn:E2.
  apply span_spec in E2 as (-> & Hslug & _).
  destruct (PyStr.is_empty slug) eqn:Hne; [done|].
  destruct r2 as [|c r3]; [done|].
  destruct (Re.is_slash c) eqn:Hc; [|done].
  assert (c = "/"%char) as -> by (unfold Re.is_slash in Hc; by destruct (ascii_dec c "/")).
  destruct (PyStr.span PyStr.is_digit r3) as [d1 r4] eqn:E3.
  apply span_spec in E3 as (-> & _ & _).
  destruct (PyStr.is_empty d1); [done|].
  assert (Htail : exists tail r, r4 = tail +:+ r /\
            match r4 with
            | String c' r5 =>
                if Re.is_slash c' then
                  let '(d2, _) := PyStr.span PyStr.is_digit r5 in
                  if PyStr.is_empty d2 then "" else "/" +:+ d2
                else ""
            | EmptyString => ""
            end = tail).
  { destruct r4 as [|c' r5]; [by exists "", ""|].
    destruct (Re.is_slash c') eqn:Hc'; [|by exists "", (String c' r5)].
    assert (c' = "/"%char) as ->
      by (unfold Re.is_slash in Hc'; by destruct (ascii_dec c' "/")).
    destruct (PyStr.span PyStr.is_digit r5) as [d2 r6] eqn:E4.
    apply span_spec in E4 as (-> & _ & _).
    destruct (PyStr.is_empty d2); [by exists "", (String "/" (d2 +:+ r6))|].
    exists ("/" +:+ d2), r6. split; [|done].
    change (String "/" (d2 +:+ r6) = String "/" d2 +:+ r6). done. }
  destruct Htail as (tail & r & Hr4 & ->). rewrite Hr4.
  intros [= <-]. exists slug, (d1 +:+ tail).
  split; [done|]. split; [by destruct slug|]. split; [done|].
  apply startswith_spec. exists r.
  change (String "/" (d1 +:+ tail +:+ r)) with ("/" +:+ d1 +:+ tail +:+ r).
  by rewrite !app_assoc.
Qed.

Lemma contains_of_startswith (m s : string) :
  PyStr.startswith m s = true -> PyStr.contains m s = true.
Proof. intros H. destruct s; cbn [PyStr.contains]; by rewrite H. Qed.

Lemma findall_skip_occurs (skip : nat) (s m : string) :
  m ∈ Re.findall_skip skip s -> PyStr.contains m s = true.
Proof.
  revert skip; induction s as [|c s IH]; intros skip; cbn [Re.findall_skip].
  - intros H. by apply elem_of_nil in H.
  - assert (Hsub : forall k, m ∈ Re.findall_skip k s ->
                             PyStr.contains m (String c s) = true).
    { intros k Hk. cbn [PyStr.contains]. rewrite (IH k Hk). apply orb_true_r. }
    destruct skip as [|k]; [|apply Hsub].
    destruct (Re.match_forum_url (String c s)) as [m0|] eqn:E; [|apply Hsub].
    intros [->|H]%elem_of_cons; [|by eapply Hsub].
    apply match_forum_url_shape in E as (_ & _ & _ & _ & _ & Hpre).
    by apply contains_of_startswith.
Qed.

(** The label pattern finds the slug of every matched URL. *)
Lemma search_topic_of_match (slug rest : string) :
  slug <> "" ->
  Obs.all_chars (fun c => negb (Re.is_slash c || PyStr.is_space c)) slug = true ->
  Re.search_topic (Re.forum_topic_prefix +:+ slug +:+ "/" +:+ rest) = Some slug.
Proof.
  intros Hne Hslug.
  assert (Hm : Re.match_topic ("/t/" +:+ slug +:+ "/" +:+ rest) = Some slug).
  { unfold Re.match_topic. rewrite strip_prefix_of_app.
    rewrite (span_of_app (fun c => negb (Re.is_slash c)) slug ("/" +:+ rest)).
    - by destruct slug.
    - eapply all_chars_impl; [|exact Hslug].
      intros c. cbv beta. destruct (Re.is_slash c); [cbn; done | done].
    - reflexivity. }
  change (Re.forum_topic_prefix +:+ slug +:+ "/" +:+ rest)
    with ("https://discourse.onlinedegree.iitm.ac.in"
          +:+ "/t/" +:+ slug +:+ "/" +:+ rest).
  set (tail := "/t/" +:+ slug +:+ "/" +:+ rest) in *.
  assert (Hstep : forall c s, Re.match_topic (String c s) = None ->
                              Re.search_topic (String c s) = Re.search_topic s).
  { intros c s H. cbn [Re.search_topic]. by rewrite H. }
  assert (Hlast : Re.search_topic tail = Some slug).
  { destruct tail; cbn [Re.search_topic]; by rewrite Hm. }
  assert (Hnot : forall c s, c <> "/"%char -> Re.match_topic (String c s) = None).
  { intros c s Hc. unfold Re.match_topic. cbn [PyStr.strip_prefix].
    destruct (ascii_dec "/" c); [congruence | done]. }
  assert (Hslash : forall c s, c <> "t"%char ->
                               Re.match_topic (String "/" (String c s)) = None).
  { intros c s Hc. unfold Re.match_topic. cbn [PyStr.strip_prefix].
    destruct (ascii_dec "/" "/"); [|done]. destruct (ascii_dec "t" c); [congruence | done]. }
  unfold String.append at 1. cbn [String.append]. fold String.append.
  repeat first [ rewrite Hstep by (apply Hnot; discriminate)
               | rewrite Hstep by (apply Hslash; discriminate) ].
  exact Hlast.
Qed.


Section ExtractedLinks.

Variable title : string -> string.
Variable set_iter : gset string -> list string.
Hypothesis set_iter_elements : forall X : gset string, set_iter X ≡ₚ elements X.

Lemma kept_urls_are_matches (context u : string) :
  u ∈ take 2 (set_iter (list_to_set (Re.findall_forum_urls context))) ->
  u ∈ Re.findall_forum_urls context.
Proof.
  intros Hu. apply (subseteq_take 2) in Hu.
  rewrite (set_iter_elements _), elem_of_elements in Hu.
  by apply elem_of_list_to_set in Hu.
Qed.

Lemma findall_member_shape (context m : string) :
  m ∈ Re.findall_forum_urls context ->
  exists slug rest,
    m = Re.forum_topic_prefix +:+ slug +:+ "/" +:+ rest
    /\ slug <> ""
    /\ Obs.all_chars (fun c => negb (Re.is_slash c || PyStr.is_space c)) slug = true.
Proof.
  unfold Re.findall_forum_urls. generalize 0.
  induction context as [|c s IH]; intros skip; cbn [Re.findall_skip].
  - intros H. by apply elem_of_nil in H.
  - destruct skip as [|k]; [|apply IH].
    destruct (Re.match_forum_url (String c s)) as [m0|] eqn:E; [|apply IH].
    intros [->|H]%elem_of_cons; [|by eapply IH].
    apply match_forum_url_shape in E as (slug & rest & -> & Hne & Hs & _).
    by exists slug, rest.
Qed.

(** X8.  A link never carries an address that is not in the context: every
    link of either extractor is one of the fixed default links or has a url
    that occurs, character for character, in the context it was extracted
    from. *)
Theorem extracted_urls_occur_in_context (context question : string) :
  Forall (fun l => l = AIService.assignment_help \/ l = forum_link
                   \/ PyStr.contains (url l) context = true)
         (AIService._extract_relevant_links title set_iter context question)
  /\ Forall (fun l => l = forum_link \/ PyStr.contains (url l) context = true)
            (MultiAIService._extract_links_from_context context).
Proof.
  split.
  - unfold AIService._extract_relevant_links.
    set (kept := take 2 (set_iter (list_to_set (Re.findall_forum_urls context)))).
    assert (Hall : Forall (fun l => l = AIService.assignment_help \/ l = forum_link
                                    \/ PyStr.contains (url l) context = true)
                          (imap (AIService.label title) kept)).
    { apply Forall_imap_elem. intros i u Hu. right; right.
      rewrite url_label. apply kept_urls_are_matches in Hu.
      by apply (findall_skip_occurs 0). }
    destruct (imap (AIService.label title) kept) as [|l ls]; [|exact Hall].
    destruct (PyStr.any_in _ _); apply Forall_cons_2; auto using Forall_nil_2.
  - unfold MultiAIService._extract_links_from_context.
    set (f := fun (i : nat) (url : string) =>
                Link url ("Related Discussion " +:+ PyStr.of_nat (i + 1))).
    assert (Hall : Forall (fun l => l = forum_link \/ PyStr.contains (url l) context = true)
                          (imap f (take 2 (Re.findall_forum_urls context)))).
    { apply Forall_imap_elem. intros i u Hu. right. subst f. cbn [url].
      apply (subseteq_take 2) in Hu. by apply (findall_skip_occurs 0). }
    destruct (imap f _) as [|l ls]; [|exact Hall].
    apply Forall_cons_2; auto using Forall_nil_2.
Qed.

(** X9.  [_extract_relevant_links] labels every link it takes from the
    context after the topic slug of its url, with hyphens turned into
    spaces, title-cased and followed by " Discussion"; the numbered label
    "Related Discussion N" of lines 200-201 is never used, because every
    url that matches the forum pattern also matches the label pattern. *)
Theorem relevant_links_are_labelled_by_slug (context question : string) :
  Forall (fun l => l = AIService.assignment_help \/ l = forum_link
                   \/ exists slug rest,
                        url l = Re.forum_topic_prefix +:+ slug +:+ "/" +:+ rest
                        /\ slug <> ""
                        /\ text l = title (PyStr.replace_char "-" " " slug) +:+ " Discussion")
         (AIService._extract_relevant_links title set_iter context question).
Proof.
  unfold AIService._extract_relevant_links.
  set (kept := take 2 (set_iter (list_to_set (Re.findall_forum_urls context)))).
  assert (Hall : Forall (fun l => l = AIService.assignment_help \/ l = forum_link
                   \/ exists slug rest,
                        url l = Re.forum_topic_prefix +:+ slug +:+ "/" +:+ rest
                        /\ slug <> ""
                        /\ text l = title (PyStr.replace_char "-" " " slug) +:+ " Discussion")
                        (imap (AIService.label title) kept)).
  { apply Forall_imap_elem. intros i u Hu. right; right.
    apply kept_urls_are_matches, findall_member_shape in Hu
      as (slug & rest & -> & Hne & Hs).
    exists slug, rest. unfold AIService.label.
    rewrite (search_topic_of_match slug rest Hne Hs). done. }
  destruct (imap (AIService.label title) kept) as [|l ls]; [|exact Hall].
  destruct (PyStr.any_in _ _); apply Forall_cons_2; auto using Forall_nil_2.
Qed.

End ExtractedLinks.

Lemma extracted_urls_occur_in_context_witness :
  Forall (fun l => l = forum_link
                   \/ PyStr.contains (url l)
                        "See https://discourse.onlinedegree.iitm.ac.in/t/api-rate-limiting/155876."
                      = true)
    (MultiAIService._extract_links_from_context
       "See https://discourse.onlinedegree.iitm.ac.in/t/api-rate-limiting/155876.").
Proof.
  exact (proj2 (extracted_urls_occur_in_context PyStr.title_ascii Sample.set_iter
                  (fun X => reflexivity (elements X))
                  "See https://discourse.onlinedegree.iitm.ac.in/t/api-rate-limiting/155876."
                  "")).
Defined.

Example slug_label_example :
  AIService._extract_relevant_links PyStr.title_ascii Sample.set_iter
    "URL: https://discourse.onlinedegree.iitm.ac.in/t/ga5-question-8-clarification/155939/4"
    "which model?"
  = [Link "https://discourse.onlinedegree.iitm.ac.in/t/ga5-question-8-clarification/155939/4"
          "Ga5 Question 8 Clarification Discussion"].
Proof. vm_compute. reflexivity. Qed.

Lemma relevant_links_are_labelled_by_slug_witness :
  Forall (fun l => l = AIService.assignment_help \/ l = forum_link
                   \/ exists slug rest,
                        url l = Re.forum_topic_prefix +:+ slug +:+ "/" +:+ rest
                        /\ slug <> ""
                        /\ text l = PyStr.title_ascii (PyStr.replace_char "-" " " slug)
                                    +:+ " Discussion")
    (AIService._extract_relevant_links PyStr.title_ascii Sample.set_iter
       "URL: https://discourse.onlinedegree.iitm.ac.in/t/ga5-question-8-clarification/155939/4"
       "which model?").
Proof.
  exact (relevant_links_are_labelled_by_slug PyStr.title_ascii Sample.set_iter
           (fun X => reflexivity (elements X))
           "URL: https://discourse.onlinedegree.iitm.ac.in/t/ga5-question-8-clarification/155939/4"
           "which model?").
Defined.


(** ** The Relevance Scorer: ranking and selection *)

Lemma insert_by_score_perm (x : nat * string) (l : list (nat * string)) :
  DataScraper.insert_by_score x l ≡ₚ x :: l.
Proof.
  induction l as [|y l IH]; [done|]. cbn [DataScraper.insert_by_score].
  destruct (x.1 <? y.1); [|done]. rewrite IH. apply Permutation_swap.
Qed.

Lemma sort_by_score_perm (l : list (nat * string)) : DataScraper.sort_by_score l ≡ₚ l.
Proof.
  unfold DataScraper.sort_by_score. induction l as [|x l IH]; [done|].
  cbn [foldr]. by rewrite insert_by_score_perm, IH.
Qed.

Lemma insert_by_score_sorted (x : nat * string) (l : list (nat * string)) :
  StronglySorted Obs.outranks l -> StronglySorted Obs.outranks (DataScraper.insert_by_score x l).
Proof.
  induction 1 as [|y l Hl IH Hy]; cbn [DataScraper.insert_by_score].
  - repeat constructor.
  - destruct (Nat.ltb_spec x.1 y.1) as [Hlt|Hge].
    + constructor; [exact IH|].
      rewrite insert_by_score_perm. constructor; [unfold Obs.outranks; lia | exact Hy].
    + constructor; [by constructor|].
      constructor; [exact Hge|].
      eapply Forall_impl; [exact Hy|]. unfold Obs.outranks. intros z Hz. lia.
Qed.

Lemma sort_by_score_sorted (l : list (nat * string)) :
  StronglySorted Obs.outranks (DataScraper.sort_by_score l).
Proof.
  unfold DataScraper.sort_by_score. induction l as [|x l IH]; [constructor|].
  cbn [foldr]. by apply insert_by_score_sorted.
Qed.

Lemma insert_by_score_stable (k : nat) (x : nat * string) (l : list (nat * string)) :
  filter (fun y => y.1 = k) (DataScraper.insert_by_score x l)
  = filter (fun y => y.1 = k) (x :: l).
Proof.
  induction l as [|y l IH]; [done|]. cbn [DataScraper.insert_by_score].
  destruct (Nat.ltb_spec x.1 y.1) as [Hlt|Hge]; [|done].
  rewrite (filter_cons _ y), IH, !(filter_cons _ x), (filter_cons _ y).
  destruct (decide (x.1 = k)); [|done].
  destruct (decide (y.1 = k)); [lia | done].
Qed.

Lemma sort_by_score_stable (k : nat) (l : list (nat * string)) :
  filter (fun y => y.1 = k) (DataScraper.sort_by_score l) = filter (fun y => y.1 = k) l.
Proof.
  unfold DataScraper.sort_by_score. induction l as [|x l IH]; [done|].
  cbn [foldr]. by rewrite insert_by_score_stable, !filter_cons, IH.
Qed.

Lemma sorted_cut (l : list (nat * string)) (n : nat) (x y : nat * string) :
  StronglySorted Obs.outranks l -> x ∈ take n l -> y ∈ drop n l -> y.1 <= x.1.
Proof.
  intros Hl. revert n. induction Hl as [|z l Hl IH Hz]; intros n Hx Hy.
  - rewrite take_nil in Hx. by apply elem_of_nil in Hx.
  - destruct n as [|n]; [by apply elem_of_nil in Hx|].
    cbn [take drop] in Hx, Hy. apply elem_of_cons in Hx as [->|Hx].
    + apply (subseteq_drop n) in Hy. by apply (proj1 (Forall_forall _ _) Hz).
    + by apply (IH n).
Qed.

(** X10.  The sort of the scorer puts the blocks in the order of their
    scores, highest first, without adding or losing any, and keeps blocks
    of equal score in the order in which they were found. *)
Theorem sort_by_score_is_a_stable_descending_sort (l : list (nat * string)) :
  DataScraper.sort_by_score l ≡ₚ l
  /\ StronglySorted (fun a b => b.1 <= a.1) (DataScraper.sort_by_score l)
  /\ (forall k, filter (fun y => y.1 = k) (DataScraper.sort_by_score l)
                = filter (fun y => y.1 = k) l).
Proof.
  split; [apply sort_by_score_perm|]. split; [apply sort_by_score_sorted|].
  intros k. apply sort_by_score_stable.
Qed.

Section Selection.

Variable set_iter : gset string -> list string.

Lemma course_matches_positive (self : DataScraper.t) (question_lower : string) :
  Forall (fun m => 0 < m.1 /\ exists r, m.2 = String "C" r)
         (Obs.course_matches set_iter self question_lower).
Proof.
  unfold Obs.course_matches. induction (DataScraper.course_content self) as [|[k d] l IH];
    [constructor|].
  cbn [flat_map]. apply Forall_app. split; [|exact IH].
  destruct (Nat.ltb_spec 0 (DataScraper.section_score set_iter question_lower d));
    [|constructor].
  apply Forall_cons_2; [|constructor]. split; [done|]. by eexists.
Qed.

Lemma discourse_matches_positive (self : DataScraper.t) (question_lower : string) :
  Forall (fun m => 0 < m.1 /\ exists r, m.2 = String "D" r)
         (Obs.discourse_matches set_iter self question_lower).
Proof.
  unfold Obs.discourse_matches. induction (DataScraper.discourse_posts self) as [|p l IH];
    [constructor|].
  cbn [flat_map]. apply Forall_app. split; [|exact IH].
  destruct (Nat.ltb_spec 0 (DataScraper.post_score set_iter question_lower p));
    [|constructor].
  apply Forall_cons_2; [|constructor]. split; [done|]. by eexists.
Qed.

(** X11.  Each of the two searches returns the blocks of the three
    best-scored entries: at most three blocks, taken in order from the top
    of the ranking; every entry left out has a score no higher than any
    entry kept, and no entry with score 0 is ranked at all. *)
Theorem searches_keep_the_three_best (self : DataScraper.t) (question_lower : string) :
  let course := DataScraper.sort_by_score (Obs.course_matches set_iter self question_lower) in
  let posts := DataScraper.sort_by_score (Obs.discourse_matches set_iter self question_lower) in
  DataScraper._search_course_content set_iter self question_lower = (take 3 course).*2
  /\ DataScraper._search_discourse_posts set_iter self question_lower = (take 3 posts).*2
  /\ length (DataScraper._search_course_content set_iter self question_lower) <= 3
  /\ length (DataScraper._search_discourse_posts set_iter self question_lower) <= 3
  /\ Forall (fun m => 0 < m.1) course /\ Forall (fun m => 0 < m.1) posts
  /\ (forall x y, x ∈ take 3 course -> y ∈ drop 3 course -> y.1 <= x.1)
  /\ (forall x y, x ∈ take 3 posts -> y ∈ drop 3 posts -> y.1 <= x.1).
Proof.
  intros course posts.
  split; [reflexivity|]. split; [reflexivity|].
  split.
  { change (DataScraper._search_course_content set_iter self question_lower)
      with ((take 3 course).*2).
    rewrite length_fmap, length_take. lia. }
  split.
  { change (DataScraper._search_discourse_posts set_iter self question_lower)
      with ((take 3 posts).*2).
    rewrite length_fmap, length_take. lia. }
  split.
  { subst course. rewrite sort_by_score_perm.
    eapply Forall_impl; [apply course_matches_positive|]. by intros m [H _]. }
  split.
  { subst posts. rewrite sort_by_score_perm.
    eapply Forall_impl; [apply discourse_matches_positive|]. by intros m [H _]. }
  split; intros x y; apply sorted_cut, sort_by_score_sorted.
Qed.

Lemma join_head (sep h : string) (t : list string) :
  exists r, PyStr.join sep (h :: t) = h +:+ r.
Proof.
  destruct t as [|x t]; cbn [PyStr.join]; [exists ""|by eexists].
  induction h as [|c h IH]; [done|].
  change (String c h +:+ "") with (String c (h +:+ "")). by rewrite <- IH.
Qed.

Lemma ranked_blocks (marker : ascii) (l : list (nat * string)) :
  Forall (fun m => 0 < m.1 /\ exists r, m.2 = String marker r) l ->
  Forall (fun b => exists r, b = String marker r)
         ((take 3 (DataScraper.sort_by_score l)).*2)
  /\ ((take 3 (DataScraper.sort_by_score l)).*2 = [] <-> l = []).
Proof.
  intros Hl. split.
  - apply Forall_fmap. apply Forall_take. rewrite sort_by_score_perm.
    eapply Forall_impl; [exact Hl|]. by intros m [_ H].
  - pose proof (Permutation_length (sort_by_score_perm l)) as Hlen.
    split.
    + intros H. apply (f_equal length) in H.
      rewrite length_fmap, length_take in H. cbn [length] in H.
      destruct l; [done|]. cbn [length] in Hlen. lia.
    + intros ->. done.
Qed.

(** X12.  [search_relevant_content] never returns an empty context, and it
    returns the notice "No specific course content found for this
    question." exactly when no course section and no forum post has a
    positive relevance score for the question. *)
Theorem search_finds_nothing_iff_all_scores_zero
    (self : DataScraper.t) (question : string) :
  DataScraper.search_relevant_content set_iter self question <> ""
  /\ (DataScraper.search_relevant_content set_iter self question = Obs.no_content
      <-> (forall k d, (k, d) ∈ DataScraper.course_content self ->
             DataScraper.section_score set_iter (PyStr.lower question) d = 0)
          /\ (forall p, p ∈ DataScraper.discourse_posts self ->
                DataScraper.post_score set_iter (PyStr.lower question) p = 0)).
Proof.
  set (q := PyStr.lower question).
  assert (Hc : Obs.course_matches set_iter self q = []
               <-> forall k d, (k, d) ∈ DataScraper.course_content self ->
                     DataScraper.section_score set_iter q d = 0).
  { unfold Obs.course_matches.
    induction (DataScraper.course_content self) as [|[k d] l IH]; cbn [flat_map].
    - split; [|done]. intros _ k d H. by apply elem_of_nil in H.
    - destruct (Nat.ltb_spec 0 (DataScraper.section_score set_iter q d)) as [Hp|Hz].
      + split; [done|]. intros H. specialize (H k d (list_elem_of_here _ _)). lia.
      + change ([] ++ ?x) with x. rewrite IH. split.
        * intros H k' d' [[= -> ->]|Hin]%elem_of_cons; [lia | by eapply H].
        * intros H k' d' Hin. apply (H k' d'). by right. }
  assert (Hp : Obs.discourse_matches set_iter self q = []
               <-> forall p, p ∈ DataScraper.discourse_posts self ->
                     DataScraper.post_score set_iter q p = 0).
  { unfold Obs.discourse_matches.
    induction (DataScraper.discourse_posts self) as [|p l IH]; cbn [flat_map].
    - split; [|done]. intros _ p H. by apply elem_of_nil in H.
    - destruct (Nat.ltb_spec 0 (DataScraper.post_score set_iter q p)) as [Hpos|Hz].
      + split; [done|]. intros H. specialize (H p (list_elem_of_here _ _)). lia.
      + change ([] ++ ?x) with x. rewrite IH. split.
        * intros H p' [->|Hin]%elem_of_cons; [lia | by eapply H].
        * intros H p' Hin. apply (H p'). by right. }
  rewrite <- Hc, <- Hp.
  destruct (ranked_blocks "C" _ (course_matches_positive self q)) as [HCb HCe].
  destruct (ranked_blocks "D" _ (discourse_matches_positive self q)) as [HDb HDe].
  unfold DataScraper.search_relevant_content. fold q.
  change (DataScraper._search_course_content set_iter self q)
    with ((take 3 (DataScraper.sort_by_score (Obs.course_matches set_iter self q))).*2).
  change (DataScraper._search_discourse_posts set_iter self q)
    with ((take 3 (DataScraper.sort_by_score (Obs.discourse_matches set_iter self q))).*2).
  set (A := (take 3 (DataScraper.sort_by_score (Obs.course_matches set_iter self q))).*2) in *.
  set (B := (take 3 (DataScraper.sort_by_score (Obs.discourse_matches set_iter self q))).*2) in *.
  destruct (A ++ B) as [|h t] eqn:E.
  - apply app_eq_nil in E as [HA HB].
    split; [done|]. split; [intros _|done]. split; [by apply HCe | by apply HDe].
  - assert (Hh : exists c r, h = String c r /\ (c = "C" \/ c = "D")%char).
    { assert (Hall : Forall (fun b => exists c r, b = String c r /\ (c = "C" \/ c = "D")%char)
                            (A ++ B)).
      { apply Forall_app. split; (eapply Forall_impl; [eassumption|]);
          intros b [r ->]; eauto. }
      rewrite E in Hall. by apply Forall_cons_1 in Hall as [H _]. }
    destruct Hh as (c & r & -> & Hcd).
    cbn [take]. destruct (join_head (DataScraper.nl +:+ DataScraper.nl) (String c r) (take 4 t))
      as [r' ->].
    change (String c r +:+ r') with (String c (r +:+ r')). cbn [PyStr.truthy PyStr.is_empty negb].
    split; [done|]. split.
    + intros [= -> _]. by destruct Hcd.
    + intros [HA HB]. apply HCe in HA. apply HDe in HB. rewrite HA, HB in E. done.
Qed.

End Selection.

(** A question none of whose words or tags is in the corpus. *)
Example nothing_found_example :
  DataScraper.search_relevant_content Sample.set_iter DataScraper.__init__ "??"
  = Obs.no_content.
Proof. vm_compute. reflexivity. Qed.


(** ** The Response Validator: fixed points, defaults, other keys *)

Lemma rstrip_rstrip (s : string) : PyStr.rstrip (PyStr.rstrip s) = PyStr.rstrip s.
Proof.
  induction s as [|c s IH]; [done|]. cbn [PyStr.rstrip].
  destruct (PyStr.is_space c && PyStr.is_empty (PyStr.rstrip s)) eqn:E; [done|].
  cbn [PyStr.rstrip]. by rewrite IH, E.
Qed.

Lemma lstrip_head (s : string) :
  match PyStr.lstrip s with
  | EmptyString => True
  | String c _ => PyStr.is_space c = false
  end.
Proof.
  induction s as [|c s IH]; [done|]. cbn [PyStr.lstrip].
  destruct (PyStr.is_space c) eqn:E; [exact IH | exact E].
Qed.

Lemma strip_head (s : string) :
  match PyStr.strip s with
  | EmptyString => True
  | String c _ => PyStr.is_space c = false
  end.
Proof.
  unfold PyStr.strip. pose proof (lstrip_head s) as H.
  destruct (PyStr.lstrip s) as [|c t]; [done|]. cbn [PyStr.rstrip].
  by rewrite H.
Qed.

Lemma lstrip_id (s : string) :
  match s with EmptyString => True | String c _ => PyStr.is_space c = false end ->
  PyStr.lstrip s = s.
Proof. destruct s as [|c s]; [done|]. cbn [PyStr.lstrip]. by intros ->. Qed.

Lemma strip_strip (s : string) : PyStr.strip (PyStr.strip s) = PyStr.strip s.
Proof.
  pose proof (strip_head s) as H. unfold PyStr.strip at 1.
  rewrite (lstrip_id _ H). unfold PyStr.strip. apply rstrip_rstrip.
Qed.

Lemma rstrip_app_id (a b : string) :
  b <> "" -> PyStr.rstrip b = b -> PyStr.rstrip (a +:+ b) = a +:+ b.
Proof.
  intros Hne Hb. induction a as [|c a IH]; [exact Hb|].
  change (String c a +:+ b) with (String c (a +:+ b)). cbn [PyStr.rstrip].
  rewrite IH. destruct (a +:+ b) eqn:E; [|by rewrite andb_false_r].
  destruct a; [by destruct b | done].
Qed.

Lemma capped_stripped (s : string) : PyStr.strip (Utils.capped s) = Utils.capped s.
Proof.
  unfold Utils.capped. set (t := PyStr.strip s).
  destruct (PyStr.truthy t) eqn:Ht.
  - destruct (Nat.ltb_spec 2000 (String.length t)) as [Hlong|Hshort].
    + pose proof (strip_head s) as Hh. fold t in Hh.
      destruct t as [|c t']; [done|].
      unfold PyStr.strip. rewrite lstrip_id by exact Hh.
      by apply rstrip_app_id.
    + apply strip_strip.
  - reflexivity.
Qed.

Lemma capped_fixed (s : string) : Utils.capped (Utils.capped s) = Utils.capped s.
Proof.
  pose proof (capped_length s) as [H1 H2]. pose proof (capped_stripped s) as Hs.
  set (x := Utils.capped s) in *. unfold Utils.capped. rewrite Hs.
  apply truthy_length in H1. rewrite H1.
  destruct (Nat.ltb_spec 2000 (String.length x)); [lia | done].
Qed.

Section ValidatorMore.

Variable py_str : pyval -> outcome string.
Variable json_dumps_ok : pyval -> bool.

Lemma validate_link_tidy (l : pyval) (out : list link) :
  Utils.validate_link py_str l = Ok out -> Forall Obs.tidy out.
Proof.
  unfold Utils.validate_link, obind.
  destruct l as [| | | | |d|]; try (intros [= <-]; constructor).
  destruct (d !! "url") as [u|]; [|intros [= <-]; constructor].
  destruct (d !! "text") as [t|]; [|intros [= <-]; constructor].
  destruct (Utils.str py_str u) as [us|]; [|done].
  destruct (Utils.str py_str t) as [ts|]; [|done].
  destruct (PyStr.truthy (PyStr.strip us)) eqn:Hu; cbn [andb]; [|intros [= <-]; constructor].
  destruct (PyStr.truthy (PyStr.strip ts)) eqn:Ht; cbn [andb]; [|intros [= <-]; constructor].
  destruct (PyStr.startswith "http" (PyStr.strip us)) eqn:Hh; intros [= <-]; [|constructor].
  apply Forall_cons_2; [|constructor].
  unfold Obs.tidy. cbn [url text]. by rewrite !strip_strip.
Qed.

Lemma validate_links_tidy (ls : list pyval) (out : list link) :
  Utils.validate_links py_str ls = Ok out -> Forall Obs.tidy out.
Proof.
  revert out; induction ls as [|l ls IH]; intros out; cbn [Utils.validate_links].
  - intros [= <-]. constructor.
  - unfold obind.
    destruct (Utils.validate_link py_str l) as [here|] eqn:Hl; [|done].
    destruct (Utils.validate_links py_str ls) as [rest|]; [|done].
    intros [= <-]. apply Forall_app. split; [by eapply validate_link_tidy | by apply IH].
Qed.

Lemma validate_links_of_tidy (ls : list link) :
  Forall Obs.tidy ls -> Utils.validate_links py_str (link_to_py <$> ls) = Ok ls.
Proof.
  induction 1 as [|[u t] ls (Hu & Ht & Hnu & Hnt & Hh) _ IH]; [done|].
  cbn [fmap list_fmap Utils.validate_links]. fold (fmap link_to_py ls). rewrite IH.
  unfold Utils.validate_link, link_to_py. cbn [url text] in *.
  rewrite lookup_insert_eq, lookup_insert_ne, lookup_insert_eq by done.
  cbn [Utils.str obind]. by rewrite Hu, Ht, Hnu, Hnt, Hh.
Qed.

(** A payload that is already in order goes through unchanged (when it can
    be serialised). *)
Lemma validate_body_fixed (d : gmap string pyval) (s : string) (ls : list link) :
  d !! "answer" = Some (PyStr s) -> Utils.capped s = s ->
  d !! "links" = Some (PyList (link_to_py <$> ls)) -> ls <> [] -> Forall Obs.tidy ls ->
  Utils.validate_body py_str json_dumps_ok (PyDict d)
  = if json_dumps_ok (PyDict d) then Ok (PyDict d)
    else Exn "TypeError: Object is not JSON serializable".
Proof.
  intros Ha Hs Hl Hne Htidy. unfold Utils.validate_body.
  rewrite Ha. cbv zeta. rewrite Hl, Ha.
  change (Utils.clean_answer py_str (PyStr s)) with (Ok (Utils.capped s) : outcome string).
  rewrite Hs. cbn [obind]. rewrite (insert_id d "answer" _ Ha), Hl.
  rewrite (validate_links_of_tidy ls Htidy). cbn [obind].
  assert ((match ls with [] => [forum_link] | _ :: _ => ls end) = ls) as ->
    by (by destruct ls).
  by rewrite (insert_id d "links" _ Hl).
Qed.

Lemma forum_link_tidy : Obs.tidy forum_link.
Proof. repeat split. Qed.

(** What the body returns is in order, and it passed the serialisation
    check. *)
Lemma validate_body_result (response v : pyval) :
  Utils.validate_body py_str json_dumps_ok response = Ok v ->
  json_dumps_ok v = true
  /\ exists (d : gmap string pyval) (s : string) (ls : list link),
       v = PyDict d /\ d !! "answer" = Some (PyStr s) /\ Utils.capped s = s
       /\ d !! "links" = Some (PyList (link_to_py <$> ls)) /\ ls <> [] /\ Forall Obs.tidy ls.
Proof.
  unfold Utils.validate_body.
  destruct response as [| | | | |d0|]; try done.
  set (d1 := match d0 !! "answer" with Some _ => d0 | None => _ end).
  set (d2 := match d1 !! "links" with Some _ => d1 | None => _ end).
  unfold obind.
  destruct (match d2 !! "answer" with Some a => _ | None => _ end) as [s|] eqn:Hs; [|done].
  destruct (Utils.validate_links py_str _) as [vl|] eqn:Hv; [|done].
  destruct (json_dumps_ok _) eqn:Hj; [|done].
  intros [= <-]. split; [exact Hj|].
  eexists _, s, (match vl with [] => [forum_link] | _ => vl end).
  split; [reflexivity|].
  split; [by rewrite lookup_insert_ne, lookup_insert_eq|].
  split.
  { destruct (d2 !! "answer") as [a|]; [|done].
    destruct (clean_answer_capped py_str a s Hs) as [s0 ->]. apply capped_fixed. }
  split; [by rewrite lookup_insert_eq|].
  split; [by destruct vl|].
  destruct vl; [apply Forall_cons_2; [apply forum_link_tidy | constructor]|].
  by apply validate_links_tidy in Hv.
Qed.

(** X13.  Validation is idempotent: what [validate_response_structure]
    returns, it returns unchanged when it is validated again. *)
Theorem validate_response_structure_idempotent (response v : pyval) :
  Utils.validate_response_structure py_str json_dumps_ok response = Ok v ->
  Utils.validate_response_structure py_str json_dumps_ok v = Ok v.
Proof.
  unfold Utils.validate_response_structure, try_except.
  destruct (Utils.validate_body py_str json_dumps_ok response) as [v0|e] eqn:Hb.
  - intros [= <-].
    destruct (validate_body_result _ _ Hb) as (Hj & d & s & ls & -> & Ha & Hs & Hl & Hne & Ht).
    by rewrite (validate_body_fixed d s ls Ha Hs Hl Hne Ht), Hj.
  - intros [= <-]. unfold payload_to_py, Utils.safe_default. cbn [answer links].
    rewrite (validate_body_fixed _ "Response validation failed. Please try again."
               [forum_link]).
    + by destruct (json_dumps_ok _).
    + by rewrite lookup_insert_eq.
    + reflexivity.
    + by rewrite lookup_insert_ne, lookup_insert_eq.
    + done.
    + apply Forall_cons_2; [apply forum_link_tidy | constructor].
Qed.

(** X14.  The validator only touches the keys 'answer' and 'links': every
    other key of the payload is still there, with its value, in what the
    body of the validator returns. *)
Theorem validate_keeps_other_keys (d : gmap string pyval) (v : pyval) (k : string) :
  Utils.validate_body py_str json_dumps_ok (PyDict d) = Ok v ->
  k <> "answer" -> k <> "links" ->
  exists d', v = PyDict d' /\ d' !! k = d !! k.
Proof.
  intros Hb Hka Hkl. unfold Utils.validate_body in Hb.
  set (d1 := match d !! "answer" with Some _ => d | None => _ end) in Hb.
  set (d2 := match d1 !! "links" with Some _ => d1 | None => _ end) in Hb.
  assert (H2 : d2 !! k = d !! k).
  { subst d2 d1. destruct (d !! "answer").
    - destruct (d !! "links"); [done | by rewrite lookup_insert_ne].
    - destruct (_ !! "links"); rewrite ?lookup_insert_ne; done. }
  unfold obind in Hb.
  destruct (match d2 !! "answer" with Some a => _ | None => _ end) as [s|]; [|done].
  destruct (Utils.validate_links py_str _) as [vl|]; [|done].
  destruct (json_dumps_ok _); [|done].
  injection Hb as <-. eexists. split; [reflexivity|].
  by rewrite !lookup_insert_ne.
Qed.

(** X15.  The defaults of the validator.  A value that is not a dict gives
    the safe default payload.  In a dict on which the body completes, a
    missing answer becomes "Unable to generate a proper response.", an
    answer that is [None] becomes "No answer provided.", a string answer
    that is blank becomes "Unable to provide a meaningful answer.", and a
    [links] entry that is missing or not a list gives the single forum
    link. *)
Theorem validate_defaults (d : gmap string pyval) (v : pyval) :
  (forall r, is_dict r = false ->
     Utils.validate_response_structure py_str json_dumps_ok r
     = Ok (payload_to_py Utils.safe_default))
  /\ (Utils.validate_body py_str json_dumps_ok (PyDict d) = Ok v ->
      (d !! "answer" = None ->
       Utils.answer_of v = Some "Unable to generate a proper response.")
      /\ (d !! "answer" = Some PyNone -> Utils.answer_of v = Some "No answer provided.")
      /\ (forall a, d !! "answer" = Some (PyStr a) -> PyStr.strip a = "" ->
            Utils.answer_of v = Some "Unable to provide a meaningful answer.")
      /\ ((d !! "links" = None \/ exists x, d !! "links" = Some x
                                            /\ forall ls, x <> PyList ls) ->
          exists d', v = PyDict d'
                     /\ d' !! "links" = Some (PyList [link_to_py forum_link]))).
Proof.
  split; [intros r Hr; by destruct r|].
  intros Hb.
  destruct (validate_body_shape py_str json_dumps_ok _ _ Hb)
    as (d' & a' & s & ls & Hv & Hs & _ & _ & Ha).
  specialize (Ha d eq_refl).
  assert (Hans : Utils.answer_of v = Some s).
  { rewrite Hv. unfold Utils.answer_of. by rewrite lookup_insert_ne, lookup_insert_eq. }
  rewrite Hans.
  split; [|split; [|split]].
  - intros Hd. rewrite Hd in Ha. cbn in Ha. subst a'.
    change (Ok (Utils.capped "Unable to generate a proper response.") = Ok s) in Hs.
    by injection Hs as <-.
  - intros Hd. rewrite Hd in Ha. cbn in Ha. subst a'.
    change (Ok (Utils.capped "No answer provided.") = Ok s) in Hs.
    by injection Hs as <-.
  - intros a Hd Hblank. rewrite Hd in Ha. cbn in Ha. subst a'.
    change (Ok (Utils.capped a) = Ok s) in Hs. injection Hs as <-.
    unfold Utils.capped. by rewrite Hblank.
  - intros Hlinks. clear Hv Hs Ha Hans.
    unfold Utils.validate_body in Hb.
    set (d1 := match d !! "answer" with Some _ => d | None => _ end) in Hb.
    assert (H1 : d1 !! "links" = d !! "links").
    { subst d1. destruct (d !! "answer"); [done | by rewrite lookup_insert_ne]. }
    set (d2 := match d1 !! "links" with Some _ => d1 | None => _ end) in Hb.
    unfold obind in Hb.
    destruct (match d2 !! "answer" with Some a => _ | None => _ end) as [s0|]; [|done].
    assert (Hnone : match <["answer" := PyStr s0]> d2 !! "links" with
                    | Some (PyList ls) => ls
                    | _ => []
                    end = []).
    { rewrite lookup_insert_ne by done. subst d2. rewrite H1.
      destruct Hlinks as [->|(x & Hdx & Hx)].
      - by rewrite lookup_insert_eq.
      - rewrite Hdx, H1, Hdx. destruct x as [| | | |l| |]; try done. by destruct (Hx l). }
    rewrite Hnone in Hb. cbn [Utils.validate_links] in Hb.
    destruct (json_dumps_ok _); [|done].
    injection Hb as <-. eexists. split; [reflexivity|]. by rewrite lookup_insert_eq.
Qed.

End ValidatorMore.


(** A payload with a padded answer and a key of its own. *)
Lemma validate_response_structure_idempotent_witness :
  exists v,
    Utils.validate_response_structure Sample.py_str Sample.json_dumps_ok
      (PyDict {[ "answer" := PyStr "  Use pandas.  " ]}) = Ok v
    /\ Utils.validate_response_structure Sample.py_str Sample.json_dumps_ok v = Ok v.
Proof.
  pose (v := default PyNone
               (match Utils.validate_response_structure Sample.py_str Sample.json_dumps_ok
                        (PyDict {[ "answer" := PyStr "  Use pandas.  " ]})
                with Ok v => Some v | Exn _ => None end)).
  assert (Hv : Utils.validate_response_structure Sample.py_str Sample.json_dumps_ok
                 (PyDict {[ "answer" := PyStr "  Use pandas.  " ]}) = Ok v)
    by (vm_compute; reflexivity).
  exists v. split; [exact Hv|].
  exact (validate_response_structure_idempotent Sample.py_str Sample.json_dumps_ok _ v Hv).
Defined.

Lemma validate_keeps_other_keys_witness :
  exists v d',
    Utils.validate_body Sample.py_str Sample.json_dumps_ok
      (PyDict (<["trace_id" := PyInt 7]> {[ "answer" := PyStr "Use pandas." ]})) = Ok v
    /\ v = PyDict d' /\ d' !! "trace_id" = Some (PyInt 7).
Proof.
  pose (v := default PyNone
               (match Utils.validate_body Sample.py_str Sample.json_dumps_ok
                        (PyDict (<["trace_id" := PyInt 7]>
                                   {[ "answer" := PyStr "Use pandas." ]}))
                with Ok v => Some v | Exn _ => None end)).
  assert (Hv : Utils.validate_body Sample.py_str Sample.json_dumps_ok
                 (PyDict (<["trace_id" := PyInt 7]> {[ "answer" := PyStr "Use pandas." ]}))
               = Ok v) by (vm_compute; reflexivity).
  destruct (validate_keeps_other_keys Sample.py_str Sample.json_dumps_ok _ v "trace_id" Hv)
    as (d' & Hd & Hk); [done | done |].
  exists v, d'. split; [exact Hv|]. split; [exact Hd|].
  rewrite Hk. apply lookup_insert_eq.
Defined.

(** An empty dict. *)
Lemma validate_defaults_witness :
  exists v,
    Utils.validate_body Sample.py_str Sample.json_dumps_ok (PyDict ∅) = Ok v
    /\ Utils.answer_of v = Some "Unable to generate a proper response."
    /\ exists d', v = PyDict d' /\ d' !! "links" = Some (PyList [link_to_py forum_link]).
Proof.
  pose (v := default PyNone
               (match Utils.validate_body Sample.py_str Sample.json_dumps_ok (PyDict ∅)
                with Ok v => Some v | Exn _ => None end)).
  assert (Hv : Utils.validate_body Sample.py_str Sample.json_dumps_ok (PyDict ∅) = Ok v)
    by (vm_compute; reflexivity).
  destruct (validate_defaults Sample.py_str Sample.json_dumps_ok ∅ v) as [_ H].
  destruct (H Hv) as (H1 & _ & _ & H4).
  exists v. split; [exact Hv|]. split; [by apply H1|]. apply H4. by left.
Defined.

(** ** The choice of the model *)

Ltac in_list := repeat (apply elem_of_cons; first [left; reflexivity | right]).

Lemma find_first {A} (f : A -> bool) (l : list A) (x : A) :
  List.find f l = Some x ->
  exists i, l !! i = Some x /\ f x = true
            /\ forall j y, j < i -> l !! j = Some y -> f y = false.
Proof.
  induction l as [|a l IH]; [done|]. cbn [List.find].
  destruct (f a) eqn:Ha.
  - intros [= <-]. exists 0. repeat split; [done|]. intros j y Hj. lia.
  - intros (i & Hi & Hx & Hlt)%IH. exists (S i). repeat split; [done..|].
    intros [|j] y Hj; cbn; [by intros [= <-] | intros Hy; apply (Hlt j); [lia | done]].
Qed.

Lemma find_nothing {A} (f : A -> bool) (l : list A) :
  List.find f l = None -> forall x, x ∈ l -> f x = false.
Proof.
  intros H x Hx. apply list_elem_of_In in Hx. by eapply List.find_none in H.
Qed.

Lemma available_iff (models : list ModelChoice.listed_model) (p : string) :
  p ∈ ModelChoice.name
        <$> List.filter
              (fun model =>
                 bool_decide ("generateContent"
                              ∈ ModelChoice.supported_generation_methods model))
              models
  <-> exists m, m ∈ models /\ ModelChoice.name m = p
                /\ "generateContent" ∈ ModelChoice.supported_generation_methods m.
Proof.
  rewrite list_elem_of_fmap. split.
  - intros (m & -> & Hm). apply list_elem_of_In, List.filter_In in Hm as [Hm Hg].
    exists m. split; [by apply list_elem_of_In|]. split; [done|].
    by apply bool_decide_eq_true_1 in Hg.
  - intros (m & Hm & <- & Hg). exists m. split; [done|].
    apply list_elem_of_In, List.filter_In. split; [by apply list_elem_of_In|].
    by apply bool_decide_eq_true_2.
Qed.

(** X16.  The model that [_get_available_model] picks is always one of the
    four preferred models.  When the listing succeeds and offers a preferred
    model that supports 'generateContent', the pick is such a model and no
    preferred model that ranks before it is offered; when the listing fails
    or offers none of them, the pick is 'models/gemini-1.5-flash-latest'. *)
Theorem get_available_model_is_first_preferred
    (list_models : outcome (list ModelChoice.listed_model)) :
  let chosen := ModelChoice._get_available_model list_models in
  let offered models p :=
    exists m, m ∈ models /\ ModelChoice.name m = p
              /\ "generateContent" ∈ ModelChoice.supported_generation_methods m in
  chosen ∈ ModelChoice.preferred_models
  /\ (forall models p,
        list_models = Ok models -> p ∈ ModelChoice.preferred_models -> offered models p ->
        offered models chosen
        /\ exists i, ModelChoice.preferred_models !! i = Some chosen
                     /\ forall j q, j < i -> ModelChoice.preferred_models !! j = Some q ->
                                    ~ offered models q)
  /\ ((forall models, list_models = Ok models ->
         forall p, p ∈ ModelChoice.preferred_models -> ~ offered models p) ->
      chosen = ModelChoice.default_model).
Proof.
  intros chosen offered. subst chosen.
  destruct list_models as [models|e]; cbn [ModelChoice._get_available_model].
  - destruct (List.find _ ModelChoice.preferred_models) as [p0|] eqn:Hf.
    + pose proof (find_first _ _ _ Hf) as (i & Hi & Hp & Hlt).
      apply bool_decide_eq_true_1, available_iff in Hp.
      split; [by eapply list_elem_of_lookup_2|]. split.
      * intros models' p [= <-] _ _. split; [exact Hp|].
        exists i. split; [done|]. intros j q Hj Hq Hoff.
        apply available_iff in Hoff. specialize (Hlt j q Hj Hq).
        by apply bool_decide_eq_false_1 in Hlt.
      * intros Hnone. exfalso. apply (Hnone models eq_refl p0); [|exact Hp].
        by eapply list_elem_of_lookup_2.
    + pose proof (find_nothing _ _ Hf) as Hn.
      split; [unfold ModelChoice.default_model, ModelChoice.preferred_models; in_list|].
      split; [|done].
      intros models' p [= <-] Hp Hoff. exfalso.
      apply available_iff in Hoff. specialize (Hn p Hp).
      by apply bool_decide_eq_false_1 in Hn.
  - split; [unfold ModelChoice.default_model, ModelChoice.preferred_models; in_list|].
    split; [by intros models p [=]|done].
Qed.

(** Only the second and the fourth preferred model are offered. *)
Lemma get_available_model_is_first_preferred_witness :
  let models :=
    [ModelChoice.Listed_model "models/gemini-1.0-pro-latest" ["generateContent"];
     ModelChoice.Listed_model "models/gemini-1.5-flash" ["countTokens"; "generateContent"];
     ModelChoice.Listed_model "models/gemini-1.5-flash-latest" ["embedContent"]] in
  exists m, m ∈ models
            /\ ModelChoice.name m = ModelChoice._get_available_model (Ok models)
            /\ "generateContent" ∈ ModelChoice.supported_generation_methods m.
Proof.
  intros models.
  destruct (get_available_model_is_first_preferred (Ok models)) as (_ & H & _).
  apply (H models "models/gemini-1.0-pro-latest" eq_refl).
  - unfold ModelChoice.preferred_models. in_list.
  - exists (ModelChoice.Listed_model "models/gemini-1.0-pro-latest" ["generateContent"]).
    split; [subst models; in_list|]. split; [done | cbn; in_list].
Defined.

(** ** Link lists for the context *)

Lemma flat_map_nil {A B} (f : A -> list B) (l : list A) :
  flat_map f l = [] <-> Forall (fun x => f x = []) l.
Proof.
  induction l as [|x l IH]; cbn [flat_map]; [by split; [constructor|]|].
  split.
  - intros [H1 H2]%app_eq_nil. constructor; [done | by apply IH].
  - intros H. apply Forall_cons in H as [H1 H2]. rewrite H1. by apply IH.
Qed.

(** X17.  [format_links_for_context] looks at the first five entries only,
    and gives the empty string exactly when none of these five is a string
    that starts with "http": what follows the fifth entry never shows. *)
Theorem format_links_reads_five_entries (links : list pyval) :
  UtilsText.format_links_for_context links
  = UtilsText.format_links_for_context (take 5 links)
  /\ (UtilsText.format_links_for_context links = ""
      <-> forall s, PyStr s ∈ take 5 links -> PyStr.startswith "http" s = false)
  /\ (UtilsText.format_links_for_context links <> ""
      -> PyStr.startswith "Relevant links:" (UtilsText.format_links_for_context links)
         = true).
Proof.
  split; [|split].
  - unfold UtilsText.format_links_for_context. by rewrite take_take.
  - unfold UtilsText.format_links_for_context.
    destruct (flat_map UtilsText.format_link (take 5 links)) as [|x l] eqn:E.
    + split; [|done]. intros _ s Hs.
      apply flat_map_nil in E. rewrite Forall_forall in E.
      specialize (E _ Hs). cbn [UtilsText.format_link] in E.
      by destruct (PyStr.startswith "http" s).
    + split; [done|]. intros H. exfalso.
      assert (Hn : flat_map UtilsText.format_link (take 5 links) = []); [|by rewrite E in Hn].
      apply flat_map_nil, Forall_forall. intros v Hv.
      destruct v as [| | |s| | |]; try done.
      cbn [UtilsText.format_link]. by rewrite (H s Hv).
  - unfold UtilsText.format_links_for_context.
    destruct (flat_map UtilsText.format_link (take 5 links)); [done|].
    intros _. apply startswith_app.
Qed.

(** Five entries that are no links, then a link. *)
Lemma format_links_reads_five_entries_witness :
  UtilsText.format_links_for_context
    [PyNone; PyInt 3; PyStr "ftp://a"; PyStr ""; PyList []; PyStr "https://example.org"]
  = "".
Proof.
  apply (proj1 (proj2 (format_links_reads_five_entries _))).
  intros s Hs. cbn [take] in Hs.
  repeat (apply elem_of_cons in Hs as [Hs|Hs]; [by (discriminate || injection Hs as ->)|]).
  by apply elem_of_nil in Hs.
Defined.

(** ** Keywords *)

Lemma findall_words_member (skip : nat) (s w : string) :
  w ∈ UtilsText.findall_words_skip skip s ->
  w <> "" /\ Obs.all_chars UtilsText.is_word_char w = true /\ PyStr.contains w s = true.
Proof.
  revert skip; induction s as [|c s IH]; intros skip; cbn [UtilsText.findall_words_skip].
  - intros H. by apply elem_of_nil in H.
  - assert (Hsub : forall k, w ∈ UtilsText.findall_words_skip k s ->
                     w <> "" /\ Obs.all_chars UtilsText.is_word_char w = true
                     /\ PyStr.contains w (String c s) = true).
    { intros k Hk. destruct (IH k Hk) as (H1 & H2 & H3). split; [done|]. split; [done|].
      cbn [PyStr.contains]. rewrite H3. apply orb_true_r. }
    destruct skip as [|k]; [|apply Hsub].
    destruct (PyStr.span UtilsText.is_word_char (String c s)) as [a b] eqn:E.
    cbn [fst]. destruct (PyStr.is_empty a) eqn:Ha; [apply Hsub|].
    intros [->|H]%elem_of_cons; [|by eapply Hsub].
    apply span_spec in E as (Hs & Hall & _).
    split; [by intros ->|]. split; [done|].
    apply contains_of_startswith. rewrite Hs. apply startswith_app.
Qed.

Section Keywords.

Variable set_iter : gset string -> list string.
Hypothesis set_iter_elements : forall X : gset string, set_iter X ≡ₚ elements X.

(** X18.  [extract_keywords] returns every word of the lowercased text that
    has more than two characters and is no stop word, each of them once,
    and nothing else.  Every keyword is a run of word characters that
    occurs in the lowercased text. *)
Theorem extract_keywords_are_the_long_words (text : string) :
  let keywords := UtilsText.extract_keywords set_iter text in
  NoDup keywords
  /\ (forall w, w ∈ keywords
                <-> w ∈ UtilsText.findall_words (PyStr.lower text)
                    /\ 2 < String.length w /\ w ∉ UtilsText.stop_words)
  /\ (forall w, w ∈ keywords ->
                Obs.all_chars UtilsText.is_word_char w = true
                /\ PyStr.contains w (PyStr.lower text) = true).
Proof.
  intros keywords. subst keywords. unfold UtilsText.extract_keywords.
  assert (Hiff : forall w,
            w ∈ set_iter (list_to_set
                            (List.filter UtilsText.is_keyword
                               (UtilsText.findall_words (PyStr.lower text))))
            <-> w ∈ UtilsText.findall_words (PyStr.lower text)
                /\ 2 < String.length w /\ w ∉ UtilsText.stop_words).
  { intros w. rewrite (set_iter_elem_of set_iter set_iter_elements).
    rewrite elem_of_list_to_set, list_elem_of_In, List.filter_In, <- list_elem_of_In.
    unfold UtilsText.is_keyword. rewrite andb_true_iff, negb_true_iff.
    rewrite Nat.ltb_lt, bool_decide_eq_false. tauto. }
  split; [apply (set_iter_NoDup set_iter set_iter_elements)|].
  split; [exact Hiff|].
  intros w [Hw _]%Hiff. by destruct (findall_words_member _ _ _ Hw) as (_ & H1 & H2).
Qed.

End Keywords.

Lemma extract_keywords_are_the_long_words_witness :
  "github" ∈ UtilsText.extract_keywords Sample.set_iter "How do I use the GitHub API?".
Proof.
  apply (extract_keywords_are_the_long_words Sample.set_iter
           (fun X => reflexivity (elements X)) "How do I use the GitHub API?").
  split; [vm_compute; in_list|]. split; [cbn; lia|].
  assert (Hd : bool_decide ("github" ∈ UtilsText.stop_words) = false)
    by (vm_compute; reflexivity).
  by apply bool_decide_eq_false_1 in Hd.
Defined.

(** ** The rate limiter *)

Lemma digit_code (n : N) :
  (N_of_ascii (ascii_of_N (48 + n mod 10)) = 48 + n mod 10)%N.
Proof.
  pose proof (N.mod_upper_bound n 10 ltac:(lia)) as Hm.
  apply N_ascii_embedding. set (r := (n mod 10)%N) in *. clearbody r. lia.
Qed.

Lemma parse_digits (fuel : nat) (n : N) (acc : string) :
  (n < 2 ^ N.of_nat fuel)%N ->
  Limits.parse_N 0 (ViewsHelpers.digits_N fuel n acc) = Limits.parse_N n acc.
Proof.
  revert n acc; induction fuel as [|fuel IH]; intros n acc Hn.
  - cbn [ViewsHelpers.digits_N]. change (2 ^ N.of_nat 0)%N with 1%N in Hn.
    assert (n = 0%N) as -> by lia. done.
  - cbn [ViewsHelpers.digits_N].
    rewrite Nat2N.inj_succ, N.pow_succ_r' in Hn.
    pose proof (N.div_mod n 10 ltac:(lia)) as Hdm.
    pose proof (N.mod_upper_bound n 10 ltac:(lia)) as Hm.
    pose proof (digit_code n) as Hd.
    set (q := (n / 10)%N) in *. set (r := (n mod 10)%N) in *.
    destruct (N.eqb_spec q 0) as [Hz|Hz].
    + cbn [Limits.parse_N]. rewrite Hd. f_equal. clearbody q r. lia.
    + rewrite IH.
      * cbn [Limits.parse_N]. rewrite Hd. f_equal. clearbody q r. lia.
      * clearbody q r. set (p := (2 ^ N.of_nat fuel)%N) in *. clearbody p. lia.
Qed.

Lemma parse_of_N (n : N) : Limits.parse_N 0 (ViewsHelpers.of_N n) = n.
Proof.
  unfold ViewsHelpers.of_N. rewrite parse_digits; [done|].
  rewrite Nat2N.inj_succ, N2Nat.id.
  destruct (N.eq_dec n 0%N) as [->|Hn]; [done|].
  apply N.log2_spec. lia.
Qed.

Lemma digit_not_minus (n : N) : Ascii.eqb (ascii_of_N (48 + n mod 10)) "-" = false.
Proof.
  apply Ascii.eqb_neq. intros H. apply (f_equal N_of_ascii) in H.
  rewrite digit_code in H. change (N_of_ascii "-") with 45%N in H.
  set (r := (n mod 10)%N) in *. clearbody r. lia.
Qed.

Lemma digits_head (fuel : nat) (n : N) (acc : string) :
  exists c r, ViewsHelpers.digits_N (S fuel) n acc = String c r /\ Ascii.eqb c "-" = false.
Proof.
  revert n acc; induction fuel as [|fuel IH]; intros n acc.
  - cbn [ViewsHelpers.digits_N]. pose proof (digit_not_minus n).
    destruct (n / 10 =? 0)%N; eauto.
  - change (ViewsHelpers.digits_N (S (S fuel)) n acc)
      with (let acc' := String (ascii_of_N (48 + n mod 10)) acc in
            if (n / 10 =? 0)%N then acc'
            else ViewsHelpers.digits_N (S fuel) (n / 10) acc').
    cbv zeta. destruct (n / 10 =? 0)%N; [|apply IH].
    eexists _, _. split; [done|]. apply digit_not_minus.
Qed.

(** The decimal rendering can be read back. *)
Lemma parse_of_Z (z : Z) : Limits.parse_Z (ViewsHelpers.of_Z z) = z.
Proof.
  unfold ViewsHelpers.of_Z. destruct (Z.ltb_spec z 0) as [Hneg|Hpos].
  - change ("-" +:+ ViewsHelpers.of_N (Z.to_N (- z)))
      with (String "-" (ViewsHelpers.of_N (Z.to_N (- z)))).
    cbn [Limits.parse_Z]. change (Ascii.eqb "-" "-") with true. cbv iota.
    rewrite parse_of_N. lia.
  - pose proof (parse_of_N (Z.to_N z)) as Hp. unfold ViewsHelpers.of_N in *.
    destruct (digits_head (N.to_nat (N.log2 (Z.to_N z))) (Z.to_N z) "") as (c & r & He & Hc).
    rewrite He in *. cbn [Limits.parse_Z]. rewrite Hc, Hp. lia.
Qed.

Lemma of_Z_inj (a b : Z) : ViewsHelpers.of_Z a = ViewsHelpers.of_Z b -> a = b.
Proof. intros H. apply (f_equal Limits.parse_Z) in H. by rewrite !parse_of_Z in H. Qed.

Lemma str_app_inv_head (p a b : string) : p +:+ a = p +:+ b -> a = b.
Proof.
  induction p as [|c p IH]; [done|].
  change (String c (p +:+ a) = String c (p +:+ b) -> a = b).
  intros [= H]. by apply IH.
Qed.

Lemma minute_hour_keys_differ (x y : string) :
  "rate_limit_minute:" +:+ x <> "rate_limit_hour:" +:+ y.
Proof. cbv [String.app]. discriminate. Qed.

Lemma minute_key_inj (ip : option string) (a b : Z) :
  ViewsHelpers.minute_key ip a = ViewsHelpers.minute_key ip b -> (a / 60 = b / 60)%Z.
Proof.
  unfold ViewsHelpers.minute_key. intros H.
  by do 3 apply str_app_inv_head in H; apply of_Z_inj in H.
Qed.

Lemma cache_get_set (c : gmap string (Z * Z)) (now now' : Z) (key key' : string)
    (value timeout default : Z) :
  ViewsHelpers.cache_get (ViewsHelpers.cache_set c now' key' value timeout) now key default
  = if decide (key = key')
    then (if (now <? now' + timeout)%Z then value else default)
    else ViewsHelpers.cache_get c now key default.
Proof.
  unfold ViewsHelpers.cache_get, ViewsHelpers.cache_set.
  destruct (decide (key = key')) as [->|Hne].
  - by rewrite lookup_insert_eq.
  - by rewrite lookup_insert_ne.
Qed.

(** An entry written in a clock period with the length of the period as
    timeout is live until the period ends. *)
Lemma same_bucket_live (d x t : Z) : (0 < d)%Z -> (x / d = t / d)%Z -> (t < x + d)%Z.
Proof.
  intros Hd He.
  pose proof (Z.div_mod t d ltac:(lia)) as Ht. pose proof (Z.div_mod x d ltac:(lia)) as Hx.
  pose proof (Z.mod_pos_bound t d Hd). pose proof (Z.mod_pos_bound x d Hd).
  rewrite He in Hx. set (q := (t / d)%Z) in *. set (r := (t mod d)%Z) in *.
  set (r' := (x mod d)%Z) in *. clearbody q r r'. nia.
Qed.

(** One recorded request, seen from any moment of the same clock hour. *)
Lemma record_request_step (ip : option string) (c : gmap string (Z * Z))
    (x h : Z) (f : Z -> Z) (n : Z) :
  (x / 3600 = h)%Z ->
  (forall t, (t / 3600 = h)%Z ->
     ViewsHelpers.cache_get c t (ViewsHelpers.minute_key ip t) 0 = f (t / 60)%Z
     /\ ViewsHelpers.cache_get c t (ViewsHelpers.hour_key ip t) 0 = n) ->
  forall t, (t / 3600 = h)%Z ->
    ViewsHelpers.cache_get (ViewsHelpers.record_request ip c x) t
      (ViewsHelpers.minute_key ip t) 0
    = (if (x / 60 =? t / 60)%Z then f (t / 60) + 1 else f (t / 60))%Z
    /\ ViewsHelpers.cache_get (ViewsHelpers.record_request ip c x) t
         (ViewsHelpers.hour_key ip t) 0
       = (n + 1)%Z.
Proof.
  intros Hx Hinv t Ht. unfold ViewsHelpers.record_request.
  destruct (Hinv x Hx) as [Hmx Hhx]. rewrite Hmx, Hhx.
  assert (Hhk : ViewsHelpers.hour_key ip t = ViewsHelpers.hour_key ip x).
  { unfold ViewsHelpers.hour_key. by rewrite Ht, Hx. }
  destruct (Hinv t Ht) as [Hmt Hht].
  split.
  - rewrite cache_get_set.
    destruct (decide _) as [He|_];
      [exfalso; unfold ViewsHelpers.minute_key, ViewsHelpers.hour_key in He;
       by apply minute_hour_keys_differ in He|].
    rewrite cache_get_set.
    destruct (decide _) as [He|Hne].
    + apply minute_key_inj in He. rewrite <- He, Z.eqb_refl.
      assert (Hlive : (t <? x + 60)%Z = true)
        by (apply Z.ltb_lt; apply (same_bucket_live 60); [lia | done]).
      by rewrite Hlive.
    + destruct (Z.eqb_spec (x / 60) (t / 60)) as [He|_]; [|exact Hmt].
      exfalso. apply Hne. unfold ViewsHelpers.minute_key. by rewrite He.
  - rewrite cache_get_set. rewrite decide_True by exact Hhk.
    assert (Hlive : (t <? x + 3600)%Z = true)
      by (apply Z.ltb_lt; apply (same_bucket_live 3600); [lia | by rewrite Ht, Hx]).
    by rewrite Hlive.
Qed.

Lemma record_all_counts (ip : option string) (times : list Z) (h : Z) :
  (forall t, t ∈ times -> (t / 3600 = h)%Z) ->
  forall (c : gmap string (Z * Z)) (f : Z -> Z) (n : Z),
  (forall t, (t / 3600 = h)%Z ->
     ViewsHelpers.cache_get c t (ViewsHelpers.minute_key ip t) 0 = f (t / 60)%Z
     /\ ViewsHelpers.cache_get c t (ViewsHelpers.hour_key ip t) 0 = n) ->
  forall t, (t / 3600 = h)%Z ->
    ViewsHelpers.cache_get (Limits.record_all ip c times) t
      (ViewsHelpers.minute_key ip t) 0
    = (f (t / 60) + Z.of_nat (Limits.in_minute_of t times))%Z
    /\ ViewsHelpers.cache_get (Limits.record_all ip c times) t
         (ViewsHelpers.hour_key ip t) 0
       = (n + Z.of_nat (length times))%Z.
Proof.
  induction times as [|x times IH]; intros Hin c f n Hinv t Ht.
  - cbn. destruct (Hinv t Ht) as [-> ->]. lia.
  - change (Limits.record_all ip c (x :: times))
      with (Limits.record_all ip (ViewsHelpers.record_request ip c x) times).
    assert (Hx : (x / 3600 = h)%Z) by (apply Hin; left).
    destruct (IH (fun t Ht => Hin t (list_elem_of_further _ _ _ Ht))
                (ViewsHelpers.record_request ip c x)
                (fun m => if (x / 60 =? m)%Z then f m + 1 else f m)%Z (n + 1)%Z
                (record_request_step ip c x h f n Hx Hinv) t Ht) as [-> ->].
    unfold Limits.in_minute_of. cbn [List.filter length].
    destruct (x / 60 =? t / 60)%Z; cbn [length]; lia.
Qed.

(** X19.  The limiter counts per clock minute and per clock hour.  Take a
    cache that holds no live counter of an address for the current clock
    hour, and record requests of that address at any moments of that hour,
    in any order.  Then the address is rate limited exactly when ten of
    these moments lie in the current clock minute or a hundred of them were
    recorded.  (The cache is taken to keep every entry until its
    timeout.) *)
Theorem rate_limiter_counts_per_minute_and_hour
    (ip : option string) (c : gmap string (Z * Z)) (times : list Z) (now : Z) :
  (forall t, (t / 3600 = now / 3600)%Z ->
     ViewsHelpers.cache_get c t (ViewsHelpers.minute_key ip t) 0 = 0%Z
     /\ ViewsHelpers.cache_get c t (ViewsHelpers.hour_key ip t) 0 = 0%Z) ->
  (forall t, t ∈ times -> (t / 3600 = now / 3600)%Z) ->
  ViewsHelpers.is_rate_limited ip (Limits.record_all ip c times) now
  = bool_decide (10 <= Limits.in_minute_of now times \/ 100 <= length times).
Proof.
  intros Hfresh Hin. unfold ViewsHelpers.is_rate_limited.
  destruct (record_all_counts ip times (now / 3600)%Z Hin c (fun _ => 0%Z) 0%Z
              Hfresh now eq_refl) as [-> ->].
  destruct (Z.leb_spec 10 (0 + Z.of_nat (Limits.in_minute_of now times))) as [H1|H1];
    destruct (Z.leb_spec 100 (0 + Z.of_nat (length times))) as [H2|H2]; cbn [orb];
    symmetry; (apply bool_decide_eq_true_2 || apply bool_decide_eq_false_2); lia.
Qed.

(** Ten requests within one minute, on an empty cache. *)
Lemma rate_limiter_counts_per_minute_and_hour_witness :
  ViewsHelpers.is_rate_limited (Some "10.0.0.7")
    (Limits.record_all (Some "10.0.0.7") ∅
       [1700000001; 1700000002; 1700000003; 1700000004; 1700000005;
        1700000006; 1700000007; 1700000008; 1700000009; 1700000010]%Z)
    1700000015%Z
  = true.
Proof.
  rewrite (rate_limiter_counts_per_minute_and_hour (Some "10.0.0.7") ∅).
  - vm_compute. reflexivity.
  - intros t _. unfold ViewsHelpers.cache_get. by rewrite !lookup_empty.
  - intros t Ht.
    repeat (apply elem_of_cons in Ht as [->|Ht]; [vm_compute; reflexivity|]).
    by apply elem_of_nil in Ht.
Defined.

(** ** The request handler *)

Lemma calls_issued_app_list (a b : list event) :
  calls_issued (a ++ b) = calls_issued a + calls_issued b.
Proof. unfold calls_issued. by rewrite List.filter_app, length_app. Qed.

Lemma sleeps_made_app_list (a b : list event) :
  Obs.sleeps_made (a ++ b) = Obs.sleeps_made a + Obs.sleeps_made b.
Proof. unfold Obs.sleeps_made. by rewrite List.filter_app, length_app. Qed.

Lemma reply_contract (a : string) (status : nat) :
  1 <= String.length a <= 2000 ->
  Utils.contract_ok (Api.content (Api.reply a status)) = true.
Proof.
  intros [H1 H2]. unfold Api.reply, payload_to_py, Utils.contract_ok.
  cbn [Api.content answer links].
  rewrite lookup_insert_eq, lookup_insert_ne, lookup_insert_eq by done.
  cbn [fmap list_fmap forallb length]. rewrite forum_link_ok.
  apply Nat.leb_le in H2. rewrite H2.
  destruct (String.length a); [lia | done].
Qed.

Section Pipeline.

Variable title : string -> string.
Variable set_iter : gset string -> list string.
Variable py_str : pyval -> outcome string.
Variable json_dumps_ok : pyval -> bool.

(** The events of one run of the Generation Client. *)
Lemma client_trace (self : AIService.t) (question context image_context : string)
    (w : world) :
  exists p w' new,
    AIService.generate_answer title set_iter self question context image_context w
    = (Ok p, w')
    /\ endpoint w' = endpoint w
    /\ trace w' = trace w ++ new
    /\ Forall (fun e => e = EvGenerate (AIService._create_prompt question context image_context)
                        \/ e = EvSleep 1%Z) new
    /\ calls_issued new <= 2 /\ Obs.sleeps_made new <= 1.
Proof.
  unfold AIService.generate_answer, catch.
  destruct (negb (AIService.is_initialized self) || _).
  { eexists _, w, []. rewrite app_nil_r. repeat split; try done; cbn; lia. }
  unfold bind, AIService._generate_with_retry.
  destruct (retry_loop_bounds (AIService._create_prompt question context image_context)
              2 (seq 0 2) w) as (v & w' & -> & He & Hc & Hs & new & Hnew & Hall).
  rewrite Hnew, calls_issued_app_list in Hc. rewrite Hnew, sleeps_made_app_list in Hs.
  cbn in Hc, Hs.
  assert (Hfin : forall p : payload,
            exists p0 w0 new0, (Ok p, w') = (Ok p0, w0)
              /\ endpoint w0 = endpoint w /\ trace w0 = trace w ++ new0
              /\ Forall (fun e => e = EvGenerate
                                        (AIService._create_prompt question context image_context)
                                  \/ e = EvSleep 1%Z) new0
              /\ calls_issued new0 <= 2 /\ Obs.sleeps_made new0 <= 1).
  { intros p. exists p, w', new. repeat split; try done; lia. }
  destruct v as [text|]; [destruct (PyStr.truthy text)|]; apply Hfin.
Qed.

(** What the validator leaves of a payload of the services. *)
Lemma validated_contract (p : payload) :
  Utils.contract_ok
    match Views.validate_response_structure py_str json_dumps_ok (payload_to_py p) with
    | Ok v => v
    | Exn _ => payload_to_py Utils.safe_default
    end = true.
Proof.
  unfold Views.validate_response_structure, Utils.validate_response_structure, try_except.
  destruct (Utils.validate_body py_str json_dumps_ok (payload_to_py p)) as [v|e] eqn:Hb;
    [|apply safe_default_contract].
  destruct (validate_body_shape _ _ _ _ Hb) as (d & a & s & ls & -> & Hs & Hne & Hok & _).
  apply contract_of_shape; [|done..].
  destruct (clean_answer_capped _ _ _ Hs) as [s0 ->]. apply capped_length.
Qed.

(** Lines 59-107 for one question: the response meets the contract, and
    the run adds at most one wait, two generation calls with the prompt of
    the question and one pause between them. *)
Lemma pipeline_run (question image_context : string) (w : world) :
  let prompt :=
    AIService._create_prompt question
      (DataScraper.search_relevant_content set_iter DataScraper.__init__ question)
      image_context in
  exists v ai w' new,
    Views.virtual_ta_api title set_iter py_str json_dumps_ok question image_context w
    = (Ok (v, ai), w')
    /\ Utils.contract_ok v = true
    /\ endpoint w' = endpoint w
    /\ trace w' = trace w ++ new
    /\ calls_issued new <= 2
    /\ (gemini_model w = None -> calls_issued new = 0)
    /\ Forall (fun e => e = EvGenerate prompt \/ exists secs, e = EvSleep secs) new
    /\ ((5 <= clock w)%Z ->
        Forall (fun e => e = EvGenerate prompt \/ e = EvSleep 1%Z) new
        /\ Obs.sleeps_made new <= 1).
Proof.
  intros prompt.
  unfold Views.virtual_ta_api, MultiAIService.__init__, AIService.__init__.
  unfold bind at 1. unfold bind at 1. unfold ret at 1. unfold bind at 1. unfold catch.
  set (self := MultiAIService.Build _ 0 5 0 50).
  set (context := DataScraper.search_relevant_content set_iter DataScraper.__init__ question).
  rewrite (orchestrator_under_limit title set_iter self question context image_context w)
    by (cbn; lia).
  cbv zeta.
  set (w1 := Obs.after_wait self w).
  assert (Hw1 : endpoint w1 = endpoint w
                /\ exists pre, trace w1 = trace w ++ pre
                   /\ calls_issued pre = 0
                   /\ Forall (fun e => exists secs, e = EvSleep secs) pre
                   /\ ((5 <= clock w)%Z -> pre = [])).
  { subst w1. unfold Obs.after_wait. cbn [MultiAIService.last_request_time
      MultiAIService.min_delay self].
    destruct (Z.ltb_spec (clock w - 0) 5) as [Hlt|Hge].
    - split; [done|]. eexists. cbn [trace]. split; [done|]. split; [done|].
      split; [repeat constructor; by eexists | intros; lia].
    - split; [done|]. exists []. rewrite app_nil_r. by repeat split. }
  destruct Hw1 as (He1 & pre & Ht1 & Hc1 & Hp1 & Hq1).
  assert (Hfin : forall (p : payload) (ai : MultiAIService.t) (w' : world) (new : list event),
            endpoint w' = endpoint w1 -> trace w' = trace w1 ++ new ->
            Forall (fun e => e = EvGenerate prompt \/ e = EvSleep 1%Z) new ->
            calls_issued new <= 2 -> Obs.sleeps_made new <= 1 ->
            (gemini_model w = None -> new = []) ->
            exists v ai0 w0 new0,
              (let '(answer_data, ai_service) := (p, ai) in
               ret (match Views.validate_response_structure py_str json_dumps_ok
                            (payload_to_py answer_data) with
                    | Ok v => v
                    | Exn _ => payload_to_py Utils.safe_default
                    end, ai_service)) w'
              = (Ok (v, ai0), w0)
              /\ Utils.contract_ok v = true
              /\ endpoint w0 = endpoint w
              /\ trace w0 = trace w ++ new0
              /\ calls_issued new0 <= 2
              /\ (gemini_model w = None -> calls_issued new0 = 0)
              /\ Forall (fun e => e = EvGenerate prompt \/ exists secs, e = EvSleep secs) new0
              /\ ((5 <= clock w)%Z ->
                  Forall (fun e => e = EvGenerate prompt \/ e = EvSleep 1%Z) new0
                  /\ Obs.sleeps_made new0 <= 1)).
  { intros p ai w' new He Ht Hall Hc Hs Hnone.
    eexists _, ai, w', (pre ++ new). unfold ret.
    split; [reflexivity|]. split; [apply validated_contract|].
    split; [by rewrite He|]. split; [by rewrite Ht, Ht1, <- (assoc_L (++))|].
    rewrite calls_issued_app_list, Hc1.
    split; [lia|]. split; [intros Hn; rewrite (Hnone Hn); cbn; lia|].
    split.
    - apply Forall_app. split; [eapply Forall_impl; [exact Hp1|]; cbv beta; eauto|].
      eapply Forall_impl; [exact Hall|]. cbv beta. intros e [->| ->]; eauto.
    - intros H5. rewrite (Hq1 H5). cbn [app]. done. }
  change (MultiAIService.gemini_service self)
    with (AIService.Build (gemini_model w) (bool_decide (is_Some (gemini_model w)))).
  cbn [AIService.is_initialized].
  destruct (bool_decide (is_Some (gemini_model w))) eqn:Hinit.
  - destruct (client_trace
                (AIService.Build (gemini_model w) true) question context image_context w1)
      as (p & w2 & new & -> & He2 & Ht2 & Hall & Hc2 & Hs2).
    assert (Hnone : gemini_model w = None -> new = []).
    { intros Hn. apply bool_decide_eq_true_1 in Hinit. rewrite Hn in Hinit.
      by destruct Hinit. }
    destruct (PyStr.truthy (answer p) && _); by apply Hfin with (new := new).
  - apply Hfin with (new := []); try done; [by rewrite app_nil_r | cbn; lia..].
Qed.

End Pipeline.

Section HandlerFacts.

Variable title : string -> string.
Variable set_iter : gset string -> list string.
Variable py_str : pyval -> outcome string.
Variable json_dumps_ok : pyval -> bool.
Variable b64decode : pyval -> outcome string.
Variable obj_truthy : nat -> bool.
Variable json_response_ok : pyval -> bool.

(** The two ways a request can go.  It is turned down with a reply of the
    handler's own and nothing else happens; or it is well formed and under
    the limit, goes through lines 59-118 and is recorded, and line 120
    then answers 200 with the validated response, or fails and is answered
    500 by the outer handler. *)
Lemma handler_cases (request : ViewsHelpers.request) (c : gmap string (Z * Z)) (w : world) :
  (exists a s,
     Api.virtual_ta_api title set_iter py_str json_dumps_ok b64decode obj_truthy
       json_response_ok request c w
     = (Api.reply a s, c, w)
     /\ (s = 400 \/ s = 429 \/ s = 500)
     /\ 1 <= String.length a <= 2000
     /\ ~ (Limits.well_formed request
           /\ ViewsHelpers.is_rate_limited (ViewsHelpers.get_client_ip request) c (clock w)
              = false))
  \/ (Limits.well_formed request
      /\ ViewsHelpers.is_rate_limited (ViewsHelpers.get_client_ip request) c (clock w) = false
      /\ exists v w' new prompt,
           Api.virtual_ta_api title set_iter py_str json_dumps_ok b64decode obj_truthy
             json_response_ok request c w
           = ((if json_response_ok v then Api.JsonResponse v 200
               else Api.reply "An unexpected error occurred. Please try again or contact support through the discourse forum." 500),
              ViewsHelpers.record_request (ViewsHelpers.get_client_ip request) c (clock w'),
              w')
           /\ Utils.contract_ok v = true
           /\ endpoint w' = endpoint w
           /\ trace w' = trace w ++ new
           /\ calls_issued new <= 2
           /\ (gemini_model w = None -> calls_issued new = 0)
           /\ Forall (fun e => e = EvGenerate prompt \/ exists secs, e = EvSleep secs) new
           /\ ((5 <= clock w)%Z ->
               Forall (fun e => e = EvGenerate prompt \/ e = EvSleep 1%Z) new
               /\ Obs.sleeps_made new <= 1)).
Proof.
  unfold Api.virtual_ta_api.
  destruct (ViewsHelpers.body request) as [|msg|data] eqn:Hbody.
  { left. eexists _, _. split; [reflexivity|]. split; [auto|]. split; [cbn; lia|].
    intros [(d & q & Hb & _) _]. rewrite Hbody in Hb. discriminate. }
  { left. eexists _, _. split; [reflexivity|]. split; [auto|]. split; [cbn; lia|].
    intros [(d & q & Hb & _) _]. rewrite Hbody in Hb. discriminate. }
  destruct (Api.read_input data) as [[question image_b64]|e] eqn:Hin; cycle 1.
  { left. eexists _, _. split; [reflexivity|]. split; [auto|]. split; [cbn; lia|].
    intros [(d & q & Hb & Hq & _) _]. rewrite Hbody in Hb. injection Hb as ->.
    unfold Api.read_input in Hin. by rewrite Hq in Hin. }
  assert (Hwf : forall d q, ViewsHelpers.body request = ViewsHelpers.Parsed (PyDict d) ->
                  default (PyStr "") (d !! "question") = PyStr q ->
                  PyStr.strip q = question).
  { intros d q Hb Hq. rewrite Hbody in Hb. injection Hb as ->.
    unfold Api.read_input in Hin. rewrite Hq in Hin. by injection Hin as <- _. }
  destruct (PyStr.truthy question) eqn:Htruthy; cbn [negb]; cycle 1.
  { left. eexists _, _. split; [reflexivity|]. split; [auto|]. split; [cbn; lia|].
    intros [(d & q & Hb & Hq & Hne & _) _]. rewrite (Hwf d q Hb Hq) in Hne.
    apply truthy_ne in Hne. congruence. }
  destruct (Nat.ltb_spec 1000 (String.length question)) as [Hlong|Hshort].
  { left. eexists _, _. split; [reflexivity|]. split; [auto|]. split; [cbn; lia|].
    intros [(d & q & Hb & Hq & _ & Hlen) _]. rewrite (Hwf d q Hb Hq) in Hlen. lia. }
  cbv zeta.
  destruct (ViewsHelpers.is_rate_limited _ c (clock w)) eqn:Hlim.
  { left. eexists _, _. split; [reflexivity|]. split; [auto|]. split; [cbn; lia|].
    by intros [_ ?]. }
  right. split; [|split; [done|]].
  { unfold Api.read_input in Hin. destruct data as [| | | | |d|]; try done.
    destruct (default (PyStr "") (d !! "question")) as [| | |q| | |] eqn:Hq; try done.
    injection Hin as <- _. exists d, q. split; [done|]. split; [done|].
    split; [by apply truthy_ne | done]. }
  set (image_context := if ViewsHelpers.truthy obj_truthy image_b64 then _ else _).
  destruct (pipeline_run title set_iter py_str json_dumps_ok question image_context w)
    as (v & ai & w' & new & -> & Hv & He & Ht & Hc & Hn & Hall & H5).
  eexists v, w', new, _. split; [|done].
  by destruct (json_response_ok v).
Qed.

(** X20.  Whatever the request is (a body that is no JSON, a JSON value of
    any shape, any header) and whatever the cache and the endpoint do, and
    whether or not the response of line 120 can be built, the handler
    answers with status 200, 400, 429 or 500 and with a payload that meets
    the output contract: an answer of 1 to 2000 characters and at least one
    link, every link with a non-empty text and a url that starts with
    "http". *)
Theorem handler_always_answers_within_contract
    (request : ViewsHelpers.request) (c : gmap string (Z * Z)) (w : world) :
  let response :=
    (Api.virtual_ta_api title set_iter py_str json_dumps_ok b64decode obj_truthy
       json_response_ok request c w).1.1 in
  Utils.contract_ok (Api.content response) = true
  /\ Api.status response ∈ [200; 400; 429; 500].
Proof.
  destruct (handler_cases request c w)
    as [(a & s & -> & Hs & Ha & _)|(_ & _ & v & w' & new & prompt & -> & Hv & _)];
    cbn [fst snd Api.content Api.status].
  - split; [by apply reply_contract|].
    unfold Api.reply. cbn [Api.status]. destruct Hs as [->|[->| ->]]; in_list.
  - destruct (json_response_ok v).
    + split; [done | cbn [Api.status]; in_list].
    + split; [apply reply_contract; cbn; lia | unfold Api.reply; cbn [Api.status]; in_list].
Qed.


(** X22.  A request that is turned down before it is processed has no
    effect.  When the request is not well formed or the address is rate
    limited, the status is 400, 429 or 500, nothing is recorded in the
    cache, so the request does not count against the limit of the address,
    and the endpoint is not called.  A status of 400 or 429 always means
    this.  A status of 500 means it only when the request was not accepted:
    the 500 of lines 122-127 can also follow line 120, after the generation
    calls and the recording.  When every response can be built, every
    status other than 200 is without effect. *)
Theorem handler_rejections_have_no_effect
    (request : ViewsHelpers.request) (c : gmap string (Z * Z)) (w : world) :
  let result :=
    Api.virtual_ta_api title set_iter py_str json_dumps_ok b64decode obj_truthy
      json_response_ok request c w in
  let accepted :=
    Limits.well_formed request
    /\ ViewsHelpers.is_rate_limited (ViewsHelpers.get_client_ip request) c (clock w)
       = false in
  (~ accepted ->
   result.1.2 = c /\ result.2 = w /\ Api.status result.1.1 ∈ [400; 429; 500])
  /\ (Api.status result.1.1 = 400 \/ Api.status result.1.1 = 429 ->
      result.1.2 = c /\ result.2 = w)
  /\ ((forall v, json_response_ok v = true) -> Api.status result.1.1 <> 200 ->
      result.1.2 = c /\ result.2 = w).
Proof.
  destruct (handler_cases request c w)
    as [(a & s & -> & Hs & _)|(Hwf & Hlim & v & w' & new & prompt & -> & _)];
    cbn [fst snd].
  - split; [|done]. intros _. split; [done|]. split; [done|].
    unfold Api.reply. cbn [Api.status]. destruct Hs as [->|[->| ->]]; in_list.
  - split; [by intros []|]. split.
    + destruct (json_response_ok v); unfold Api.reply; cbn [Api.status];
        intros [?|?]; discriminate.
    + intros Hall. rewrite Hall. by cbn [Api.status].
Qed.

(** X23.  One request costs at most two generation calls, both with the
    same prompt, and none when no model is configured.  The orchestrator
    is built for the request with its last request time at 0, so once the
    clock reads 5 seconds or more the minimum delay between requests is
    never waited for: the only pause is the one second between the two
    attempts. *)
Theorem handler_issues_at_most_two_calls
    (request : ViewsHelpers.request) (c : gmap string (Z * Z)) (w : world) :
  let w' :=
    (Api.virtual_ta_api title set_iter py_str json_dumps_ok b64decode obj_truthy
       json_response_ok request c w).2 in
  endpoint w' = endpoint w
  /\ exists new prompt,
       trace w' = trace w ++ new
       /\ calls_issued new <= 2
       /\ (gemini_model w = None -> calls_issued new = 0)
       /\ Forall (fun e => e = EvGenerate prompt \/ exists secs, e = EvSleep secs) new
       /\ ((5 <= clock w)%Z ->
           Forall (fun e => e = EvGenerate prompt \/ e = EvSleep 1%Z) new
           /\ Obs.sleeps_made new <= 1).
Proof.
  destruct (handler_cases request c w)
    as [(a & s & -> & _)|(_ & _ & v & w' & new & prompt & -> & _ & He & Ht & H)];
    cbn [fst snd].
  - split; [done|]. exists [], "". rewrite app_nil_r.
    repeat split; try done; cbn; lia.
  - split; [done|]. by exists new, prompt.
Qed.

End HandlerFacts.


(** A body that is no JSON. *)
Lemma handler_rejections_have_no_effect_witness :
  let result :=
    Api.virtual_ta_api PyStr.title_ascii Sample.set_iter Sample.py_str
      Sample.json_dumps_ok (fun _ => Exn "binascii.Error") (fun _ => true)
      (fun _ => true)
      (ViewsHelpers.Request ViewsHelpers.JSONDecodeError None (Some "10.0.0.7"))
      ∅ (Sample.world0 (Sample.always_replies "Use the portal.")) in
  result.1.2 = ∅ /\ result.2 = Sample.world0 (Sample.always_replies "Use the portal.").
Proof.
  apply (proj1 (proj2 (handler_rejections_have_no_effect PyStr.title_ascii
           Sample.set_iter Sample.py_str Sample.json_dumps_ok
           (fun _ => Exn "binascii.Error") (fun _ => true) (fun _ => true)
           (ViewsHelpers.Request ViewsHelpers.JSONDecodeError None (Some "10.0.0.7"))
           ∅ (Sample.world0 (Sample.always_replies "Use the portal."))))).
  left. reflexivity.
Defined.

(** The path through line 120: the question is well formed and the address
    under the limit, the response cannot be built.  The handler answers
    500, after one generation call and with the request recorded. *)
Example late_failure_is_recorded :
  let w := Sample.world0 (Sample.always_replies "Use the portal.") in
  let result :=
    Api.virtual_ta_api PyStr.title_ascii Sample.set_iter Sample.py_str
      Sample.json_dumps_ok (fun _ => Exn "binascii.Error") (fun _ => true)
      (fun _ => false)
      (ViewsHelpers.Request
         (ViewsHelpers.Parsed (PyDict {[ "question" := PyStr "How do I submit the assignment?" ]}))
         None (Some "10.0.0.7"))
      ∅ w in
  Api.status result.1.1 = 500
  /\ calls_issued (trace result.2) = 1
  /\ ViewsHelpers.is_rate_limited (Some "10.0.0.7") result.1.2 (clock result.2) = false
  /\ ViewsHelpers.cache_get result.1.2 (clock result.2)
       (ViewsHelpers.minute_key (Some "10.0.0.7") (clock result.2)) 0 = 1%Z.
Proof. vm_compute. repeat split. Qed.

(** No model is configured. *)
Lemma handler_issues_at_most_two_calls_witness :
  let w := World (Sample.always_replies "Use the portal.") None 1700000000 [] in
  let w' :=
    (Api.virtual_ta_api PyStr.title_ascii Sample.set_iter Sample.py_str
       Sample.json_dumps_ok (fun _ => Exn "binascii.Error") (fun _ => true)
       (fun _ => true)
       (ViewsHelpers.Request
          (ViewsHelpers.Parsed (PyDict {[ "question" := PyStr "How do I submit the assignment?" ]}))
          None (Some "10.0.0.7"))
       ∅ w).2 in
  exists new, trace w' = trace w ++ new /\ calls_issued new = 0.
Proof.
  intros w w'.
  destruct (handler_issues_at_most_two_calls PyStr.title_ascii Sample.set_iter
              Sample.py_str Sample.json_dumps_ok (fun _ => Exn "binascii.Error")
              (fun _ => true) (fun _ => true)
              (ViewsHelpers.Request
                 (ViewsHelpers.Parsed
                    (PyDict {[ "question" := PyStr "How do I submit the assignment?" ]}))
                 None (Some "10.0.0.7"))
              ∅ w) as (_ & new & prompt & Ht & _ & Hn & _).
  exists new. split; [exact Ht | by apply Hn].
Defined.

(** ** The limiter keeps addresses apart *)

Lemma all_chars_app (p : ascii -> bool) (u v : string) :
  Obs.all_chars p (u +:+ v) = Obs.all_chars p u && Obs.all_chars p v.
Proof.
  induction u as [|c u IH]; [done|].
  change (Obs.all_chars p (String c (u +:+ v))
          = Obs.all_chars p (String c u) && Obs.all_chars p v).
  cbn [Obs.all_chars]. rewrite IH. by destruct (p c).
Qed.

Lemma digit_not_colon (n : N) :
  negb (Ascii.eqb (ascii_of_N (48 + n mod 10)) ":") = true.
Proof.
  apply negb_true_iff, Ascii.eqb_neq. intros H. apply (f_equal N_of_ascii) in H.
  rewrite digit_code in H. change (N_of_ascii ":") with 58%N in H.
  pose proof (N.mod_upper_bound n 10 ltac:(lia)) as Hm.
  set (r := (n mod 10)%N) in *. clearbody r. lia.
Qed.

Lemma digits_no_colon (fuel : nat) (n : N) (acc : string) :
  Obs.all_chars (fun c => negb (Ascii.eqb c ":")) acc = true ->
  Obs.all_chars (fun c => negb (Ascii.eqb c ":")) (ViewsHelpers.digits_N fuel n acc) = true.
Proof.
  revert n acc; induction fuel as [|fuel IH]; intros n acc Hacc; [done|].
  cbn [ViewsHelpers.digits_N].
  assert (Hacc' : Obs.all_chars (fun c => negb (Ascii.eqb c ":"))
                    (String (ascii_of_N (48 + n mod 10)) acc) = true).
  { cbn [Obs.all_chars]. by rewrite digit_not_colon, Hacc. }
  destruct (n / 10 =? 0)%N; [done | by apply IH].
Qed.

Lemma of_Z_no_colon (z : Z) :
  Obs.all_chars (fun c => negb (Ascii.eqb c ":")) (ViewsHelpers.of_Z z) = true.
Proof.
  unfold ViewsHelpers.of_Z, ViewsHelpers.of_N.
  destruct (z <? 0)%Z; [rewrite all_chars_app|]; by rewrite digits_no_colon.
Qed.

(** A text is split in one way only at its last colon. *)
Lemma last_colon (a b x y : string) :
  Obs.all_chars (fun c => negb (Ascii.eqb c ":")) x = true ->
  Obs.all_chars (fun c => negb (Ascii.eqb c ":")) y = true ->
  a +:+ ":" +:+ x = b +:+ ":" +:+ y -> a = b.
Proof.
  intros Hx Hy. revert b; induction a as [|c a IH]; intros [|c' b]; [done| | |].
  - change (String ":" x = String c' (b +:+ ":" +:+ y) -> "" = String c' b).
    intros [= <- ->]. rewrite all_chars_app in Hx.
    change (":" +:+ y) with (String ":" y) in Hx. cbn in Hx.
    by rewrite andb_false_r in Hx.
  - change (String c (a +:+ ":" +:+ x) = String ":" y -> String c a = "").
    intros [= -> <-]. rewrite all_chars_app in Hy.
    change (":" +:+ x) with (String ":" x) in Hy. cbn in Hy.
    by rewrite andb_false_r in Hy.
  - change (String c (a +:+ ":" +:+ x) = String c' (b +:+ ":" +:+ y)
            -> String c a = String c' b).
    intros [= -> H]. by rewrite (IH b H).
Qed.

Lemma minute_key_address (ip1 ip2 : option string) (t1 t2 : Z) :
  ViewsHelpers.minute_key ip1 t1 = ViewsHelpers.minute_key ip2 t2 ->
  ViewsHelpers.ip_str ip1 = ViewsHelpers.ip_str ip2.
Proof.
  unfold ViewsHelpers.minute_key. intros H%str_app_inv_head.
  eapply last_colon; [| |exact H]; apply of_Z_no_colon.
Qed.

Lemma hour_key_address (ip1 ip2 : option string) (t1 t2 : Z) :
  ViewsHelpers.hour_key ip1 t1 = ViewsHelpers.hour_key ip2 t2 ->
  ViewsHelpers.ip_str ip1 = ViewsHelpers.ip_str ip2.
Proof.
  unfold ViewsHelpers.hour_key. intros H%str_app_inv_head.
  eapply last_colon; [| |exact H]; apply of_Z_no_colon.
Qed.

(** X24.  The counters of two addresses never meet: recording a request of
    one address, at any time, leaves the verdict of the limiter on every
    other address as it was, even when an address contains colons or
    digits.  Two addresses count as the same only when they are written the
    same (a missing address is written 'None'). *)
Theorem limiter_keeps_addresses_apart
    (ip1 ip2 : option string) (c : gmap string (Z * Z)) (t now : Z) :
  ViewsHelpers.ip_str ip1 <> ViewsHelpers.ip_str ip2 ->
  ViewsHelpers.is_rate_limited ip2 (ViewsHelpers.record_request ip1 c t) now
  = ViewsHelpers.is_rate_limited ip2 c now.
Proof.
  intros Hne. unfold ViewsHelpers.is_rate_limited, ViewsHelpers.record_request.
  rewrite !cache_get_set.
  repeat (destruct (decide _) as [He|_];
          [exfalso;
           first [ by apply minute_key_address in He
                 | by apply hour_key_address in He
                 | by apply minute_hour_keys_differ in He
                 | by symmetry in He; apply minute_hour_keys_differ in He ]|]).
  done.
Qed.

Lemma limiter_keeps_addresses_apart_witness :
  ViewsHelpers.is_rate_limited (Some "10.0.0.8")
    (ViewsHelpers.record_request (Some "10.0.0.7") ∅ 1700000000%Z) 1700000001%Z
  = ViewsHelpers.is_rate_limited (Some "10.0.0.8") ∅ 1700000001%Z.
Proof.
  apply limiter_keeps_addresses_apart. cbn. discriminate.
Defined.
